(** * Port workflow workers: job handlers, process-instance tracker and
      scenario reconstruction, verified over a shallow embedding.

    The Python sources embedded here are
    - [config/database.py]   (store access: containers, storage, transport
                              timestamps, process instances),
    - [handlers/*.py]        (crane, weighing, storage and truck handlers),
    - [main.py], [flow.py]   (the task wrappers registered with the engine),
    - [start_workflow.py], [flow.py] (fetch_workflow_scenarios).

    Job variables are a Python dict with string keys: a [gmap string value].
    The relational store is four tables keyed by their primary keys.  Code
    that threads the store, the clock and the log through calls is written
    in a small state-and-exception monad [M].

    Of the logging, the warning and error records are kept, in order, with
    their f-strings as fragments and without the decorative emoji; the
    info records are left out.  The world also keeps the list of store
    functions entered, which the program does not have: it is there to
    state which store calls a path makes. *)

From Stdlib Require Import ZArith QArith String Ascii List Bool Lia Sorted.
From stdpp Require Import gmap strings list fin_maps sorting.

Close Scope Q_scope.
Set Warnings "-register-all".

(** ** Python values carried by job variables *)

(** A [datetime] object.  Python guarantees year 1..9999, month 1..12,
    day 1..31, hour 0..23, minute and second 0..59. *)
Record datetime := mkDatetime {
  year : nat; month : nat; day : nat;
  hour : nat; minute : nat; second : nat
}.

(** JSON-shaped job values, plus the two kinds of object the database
    driver hands back (numbers that are not [int], and datetimes).
    [VNum q] is a [float] or [Decimal] of rational value [q]. *)
Inductive value :=
| VNone
| VBool (b : bool)
| VInt (n : Z)
| VNum (q : Q)
| VStr (s : string)
| VDateTime (d : datetime)
| VList (l : list value)
| VDict (l : list (string * value)).

(** Python truthiness, as tested by [not x] and [if x:]. *)
Definition truthy (v : value) : bool :=
  match v with
  | VNone => false
  | VBool b => b
  | VInt n => negb (n =? 0)%Z
  | VNum q => negb (Qnum q =? 0)%Z
  | VStr s => negb (s =? "")%string
  | VDateTime _ => true
  | VList l => match l with [] => false | _ => true end
  | VDict l => match l with [] => false | _ => true end
  end.

(** [v == s] for a string literal [s]. *)
Definition eq_str (v : value) (s : string) : bool :=
  match v with
  | VStr s' => (s' =? s)%string
  | _ => false
  end.

(** [variables.get(k)]: a missing key reads as [None]. *)
Definition dict_get (variables : gmap string value) (k : string) : value :=
  default VNone (variables !! k).

(** [variables.get(k, d)]. *)
Definition dict_get_default (variables : gmap string value) (k : string)
    (d : value) : value :=
  default d (variables !! k).

(** ** Timestamps: [strftime('%Y-%m-%d %H:%M:%S')] *)

Definition digit (n : nat) : ascii :=
  ascii_of_nat (48 + n mod 10).

(** Two decimal digits; prints the number itself for every n < 100. *)
Definition pad2 (n : nat) : string :=
  String (digit (n / 10)) (String (digit n) EmptyString).

(** Four decimal digits; prints the number itself for every n < 10000. *)
Definition pad4 (n : nat) : string :=
  String (digit (n / 1000)) (String (digit (n / 100))
    (String (digit (n / 10)) (String (digit n) EmptyString))).

(** [%Y] as the C library prints it under CPython on Linux: the year in
    decimal without padding, so four digits from the year 1000 on and
    fewer below ([datetime(999, 1, 2)] prints as [999-01-02]). *)
Definition year_digits (n : nat) : string :=
  if (n <? 10)%nat then String (digit n) EmptyString
  else if (n <? 100)%nat then pad2 n
  else if (n <? 1000)%nat then String (digit (n / 100)) (pad2 n)
  else pad4 n.

(** [%m %d %H %M %S] are two digits each. *)
Definition strftime (d : datetime) : string :=
  year_digits (year d) +:+ "-" +:+ pad2 (month d) +:+ "-" +:+ pad2 (day d)
  +:+ " " +:+
  pad2 (hour d) +:+ ":" +:+ pad2 (minute d) +:+ ":" +:+ pad2 (second d).

Definition is_digit (c : ascii) : bool :=
  let n := nat_of_ascii c in (48 <=? n) && (n <=? 57).

(** The fixed pattern [YYYY-MM-DD HH:MM:SS]: 19 characters, digits
    everywhere except the separators. *)
Definition timestamp_pattern (s : string) : bool :=
  match list_ascii_of_string s with
  | [y1; y2; y3; y4; s1; m1; m2; s2; d1; d2; s3; h1; h2; s4; n1; n2; s5; c1; c2] =>
      forallb is_digit [y1; y2; y3; y4; m1; m2; d1; d2; h1; h2; n1; n2; c1; c2]
      && Ascii.eqb s1 "-" && Ascii.eqb s2 "-" && Ascii.eqb s3 " "
      && Ascii.eqb s4 ":" && Ascii.eqb s5 ":"
  | _ => false
  end.

(** Decimal reading of a digit string, to state what [pad2]/[pad4] print. *)
Fixpoint read_decimal (acc : nat) (s : string) : nat :=
  match s with
  | EmptyString => acc
  | String c s' => read_decimal (10 * acc + (nat_of_ascii c - 48)) s'
  end.

(** ** The relational store *)

Record container_row := mkContainer {
  c_operation_type : option string;
  c_weight : option Q
}.

Record storage_row := mkStorage {
  s_container_id : string;
  s_storage_status : option string
}.

Record transport_row := mkTransport {
  t_container_id : string;
  t_storage_id : Z;
  t_check_in : option datetime;
  t_check_out : option datetime
}.

(** Each table is keyed by its primary key: [container_id],
    [storage_id], [transportation_id], [process_instance_key]. *)
Record Store := mkStore {
  container : gmap string container_row;
  storage : gmap Z storage_row;
  transport_mean : gmap string transport_row;
  process_instance : gmap Z string
}.

(** ** Log records and exceptions *)

(** An f-string kept as its pieces: literal text and interpolated values. *)
Inductive frag :=
| Lit (s : string)
| Val (v : value).

Inductive exn :=
| ValueError (msg : list frag)
| Exception (msg : list frag)
| AttributeError
| TypeError
| IndexError
| DatabaseError.

Definition is_ValueError (e : exn) : bool :=
  match e with ValueError _ => true | _ => false end.

Inductive level := WARNING | ERROR.

Inductive log_item :=
| Msg (l : level) (msg : list frag)
| Exc (l : level) (msg : list frag) (e : exn).

(** The public store functions of [config/database.py], as entries of the
    call trace kept in the world. *)
Inductive store_call :=
| Call_insert_process_instance (key : Z)
| Call_update_process_instance_completion (key : Z)
| Call_get_container (container_id : value)
| Call_update_storage_status (container_id : value) (storage_status : string)
| Call_update_transport_timestamps (transportation_id : value)
    (check_in check_out : value).

(** ** The world a worker runs in *)

Record World := mkWorld {
  db : Store;
  connection_pool : bool;      (* the module-level pool is initialised *)
  faults : list bool;          (* fate of the coming cursor.execute calls: true raises *)
  clock : nat -> datetime;     (* wall clock after n half-seconds *)
  elapsed : nat;               (* half-seconds slept so far *)
  log : list log_item;         (* warning and error records, oldest first *)
  store_calls : list store_call  (* store functions entered, oldest first *)
}.

Definition set_db (s : Store) (w : World) : World :=
  mkWorld s (connection_pool w) (faults w) (clock w) (elapsed w) (log w)
    (store_calls w).
Definition set_faults (f : list bool) (w : World) : World :=
  mkWorld (db w) (connection_pool w) f (clock w) (elapsed w) (log w)
    (store_calls w).
Definition set_elapsed (n : nat) (w : World) : World :=
  mkWorld (db w) (connection_pool w) (faults w) (clock w) n (log w)
    (store_calls w).
Definition set_log (l : list log_item) (w : World) : World :=
  mkWorld (db w) (connection_pool w) (faults w) (clock w) (elapsed w) l
    (store_calls w).
Definition set_store_calls (c : list store_call) (w : World) : World :=
  mkWorld (db w) (connection_pool w) (faults w) (clock w) (elapsed w) (log w) c.

(** ** State and exception monad *)

Inductive outcome (A : Type) :=
| Return (a : A)
| Raise (e : exn).
Arguments Return {A} a.
Arguments Raise {A} e.

Definition M (A : Type) : Type := World -> outcome A * World.

Definition ret {A} (a : A) : M A := fun w => (Return a, w).

Definition bind {A B} (m : M A) (k : A -> M B) : M B :=
  fun w =>
    match m w with
    | (Return a, w') => k a w'
    | (Raise e, w') => (Raise e, w')
    end.

Definition raise {A} (e : exn) : M A := fun w => (Raise e, w).

(** [try: m  except Exception as e: h e] *)
Definition try_except {A} (m : M A) (h : exn -> M A) : M A :=
  fun w =>
    match m w with
    | (Return a, w') => (Return a, w')
    | (Raise e, w') => h e w'
    end.

Declare Scope port_scope.
Delimit Scope port_scope with port.
Notation "'let*' x ':=' m 'in' k" := (bind m (fun x => k))
  (at level 10, x name, m at level 99, k at level 200) : port_scope.
Notation "m '>>' k" := (bind m (fun _ => k))
  (at level 100, k at level 200, right associativity) : port_scope.
Open Scope port_scope.

Definition get : M World := fun w => (Return w, w).
Definition modify (f : World -> World) : M unit := fun w => (Return tt, f w).

Definition logger_warning (msg : list frag) : M unit :=
  modify (fun w => set_log (log w ++ [Msg WARNING msg]) w).
Definition logger_error (msg : list frag) : M unit :=
  modify (fun w => set_log (log w ++ [Msg ERROR msg]) w).
Definition logger_error_exc (msg : list frag) (e : exn) : M unit :=
  modify (fun w => set_log (log w ++ [Exc ERROR msg e]) w).

(** [time.sleep(n / 2)] *)
Definition sleep (half_seconds : nat) : M unit :=
  modify (fun w => set_elapsed (elapsed w + half_seconds) w).

(** [datetime.now().strftime('%Y-%m-%d %H:%M:%S')], and [time.strftime]
    with the same pattern. *)
Definition now_strftime : M string :=
  fun w => (Return (strftime (clock w (elapsed w))), w).

Definition entered (c : store_call) : M unit :=
  modify (fun w => set_store_calls (store_calls w ++ [c]) w).

(** ** Library functions the program relies on

    They are parameters of the development: [py_str] is [str(v)] as used
    by f-strings, [float_of] is the rounding of [float(x)], [pg_timestamp]
    is the store's reading of a value written to a timestamp column
    ([None]: the store refuses it), [strptime] is
    [datetime.strptime(s, '%Y-%m-%d %H:%M:%S')]. *)

Section Port.

Variable py_str : value -> string.
Variable float_of : Q -> Q.
Variable pg_timestamp : value -> option datetime.
Variable strptime : string -> option datetime.

(** ** config/database.py *)

(** [get_connection]: raises when the pool was never initialised. *)
Definition get_connection : M unit :=
  let* w := get in
  if connection_pool w then ret tt
  else raise (Exception [Lit "Connection pool not initialized"]).

(** A driver call ([cursor.execute], [psycopg2.connect]) succeeds or raises
    as the head of [faults] says; an empty list means no more faults.  A
    statement that fails leaves the connection usable: the
    [conn.rollback()] in the except blocks of the four store writes, which
    has nothing to undo, is taken to succeed.  A connection lost for good,
    on which that call raises in its turn, is outside this fault model. *)
Definition cursor_execute : M unit :=
  let* w := get in
  match faults w with
  | [] => ret tt
  | false :: rest => modify (set_faults rest)
  | true :: rest => modify (set_faults rest) >> raise DatabaseError
  end.

(** A query parameter compared with a text key column: a string is
    compared as it is, [None] is SQL NULL and equals no key, any other
    Python value makes the statement fail. *)
Definition key_param (v : value) : M (option string) :=
  match v with
  | VStr s => ret (Some s)
  | VNone => ret None
  | _ => raise DatabaseError
  end.

Definition join_parts (parts : list string) : string :=
  match parts with
  | [] => ""
  | p :: ps => fold_left (fun acc x => acc +:+ ", " +:+ x) ps p
  end.

Definition set_process_instance (p : gmap Z string) (s : Store) : Store :=
  mkStore (container s) (storage s) (transport_mean s) p.
Definition set_storage (t : gmap Z storage_row) (s : Store) : Store :=
  mkStore (container s) t (transport_mean s) (process_instance s).
Definition set_transport_mean (t : gmap string transport_row) (s : Store) : Store :=
  mkStore (container s) (storage s) t (process_instance s).

Definition insert_process_instance (process_instance_key : Z)
    (operation_type container_id transportation_id : value) : M bool :=
  entered (Call_insert_process_instance process_instance_key) >>
  try_except
    (get_connection >>
     let* start_date := now_strftime in
     let description_parts :=
       ["Started: " +:+ start_date]
       ++ (if truthy operation_type
           then ["Operation: " +:+ py_str operation_type] else [])
       ++ (if truthy container_id
           then ["Container: " +:+ py_str container_id] else [])
       ++ (if truthy transportation_id
           then ["Transport: " +:+ py_str transportation_id] else []) in
     let description := join_parts description_parts in
     (* INSERT ... ON CONFLICT (process_instance_key) DO UPDATE
        SET description = EXCLUDED.description *)
     cursor_execute >>
     modify (fun w =>
       set_db (set_process_instance
                 (<[process_instance_key := description]> (process_instance (db w)))
                 (db w)) w) >>
     ret true)
    (fun e =>
       logger_error_exc [Lit "Failed to insert process instance: "] e >>
       (* if conn: conn.rollback() *)
       ret false).

Definition update_process_instance_completion (process_instance_key : Z)
    (final_status : string) : M bool :=
  entered (Call_update_process_instance_completion process_instance_key) >>
  try_except
    (get_connection >>
     (* SELECT description FROM process_instance WHERE process_instance_key = %s *)
     cursor_execute >>
     let* w := get in
     let result := process_instance (db w) !! process_instance_key in
     match result with
     | Some existing_desc =>
         let* end_date := now_strftime in
         let updated_desc :=
           existing_desc +:+ ", Ended: " +:+ end_date +:+ ", Status: "
                         +:+ final_status in
         (* UPDATE process_instance SET description = %s WHERE ... *)
         cursor_execute >>
         modify (fun w =>
           set_db (set_process_instance
                     (<[process_instance_key := updated_desc]>
                        (process_instance (db w)))
                     (db w)) w)
     | None => ret tt
     end >>
     ret true)
    (fun e =>
       logger_error_exc [Lit "Failed to update process instance: "] e >>
       (* if conn: conn.rollback() *)
       ret false).

(** The row [get_container] returns: the container's columns, with the
    storage and transport columns of the LEFT JOINs (NULL when there is no
    such row). *)
Record container_data := mkContainerData {
  cd_container_id : string;
  cd_operation_type : option string;
  cd_weight : option Q;
  cd_storage_id : option Z;
  cd_storage_status : option string;
  cd_transportation_id : option string;
  cd_check_in : option datetime;
  cd_check_out : option datetime
}.

(** The first row of the joined SELECT for one container id. *)
Definition select_container (s : Store) (cid : string) : option container_data :=
  match container s !! cid with
  | None => None
  | Some c =>
      let st := List.find (fun kv => (s_container_id (snd kv) =? cid)%string)
                  (map_to_list (storage s)) in
      let tr := List.find (fun kv => (t_container_id (snd kv) =? cid)%string)
                  (map_to_list (transport_mean s)) in
      Some (mkContainerData cid (c_operation_type c) (c_weight c)
              (fst <$> st) (st ≫= fun kv => s_storage_status (snd kv))
              (fst <$> tr) (tr ≫= fun kv => t_check_in (snd kv))
              (tr ≫= fun kv => t_check_out (snd kv)))
  end.

Definition get_container (container_id : value) : M (option container_data) :=
  entered (Call_get_container container_id) >>
  try_except
    (get_connection >>
     cursor_execute >>
     let* k := key_param container_id in
     let* w := get in
     let record := k ≫= select_container (db w) in
     ret record)
    (fun e =>
       logger_error_exc [Lit "Failed to retrieve container: "] e >>
       ret None).

Definition update_storage_status (container_id : value)
    (storage_status : string) : M bool :=
  entered (Call_update_storage_status container_id storage_status) >>
  try_except
    (get_connection >>
     (* UPDATE storage SET storage_status = %s WHERE container_id = %s *)
     cursor_execute >>
     let* k := key_param container_id in
     let* w := get in
     let hit (r : storage_row) : bool :=
       match k with
       | Some cid => (s_container_id r =? cid)%string
       | None => false
       end in
     let rows_affected :=
       length (List.filter (fun kv => hit (snd kv)) (map_to_list (storage (db w)))) in
     modify (fun w =>
       set_db (set_storage
                 ((fun r => if hit r
                            then mkStorage (s_container_id r) (Some storage_status)
                            else r) <$> storage (db w))
                 (db w)) w) >>
     if (0 <? rows_affected)%nat then ret true
     else
       logger_warning [Lit "No storage record found for container: ";
                       Val container_id] >>
       ret false)
    (fun e =>
       logger_error_exc [Lit "Failed to update storage status: "] e >>
       (* if conn: conn.rollback() *)
       ret false).

Definition is_not_None (v : value) : bool :=
  match v with VNone => false | _ => true end.

(** A value bound to a timestamp column in a statement. *)
Definition timestamp_param (v : value) : M datetime :=
  match pg_timestamp v with
  | Some d => ret d
  | None => raise DatabaseError
  end.

Definition update_transport_timestamps (transportation_id : value)
    (check_in check_out : value) : M bool :=
  entered (Call_update_transport_timestamps transportation_id check_in check_out) >>
  try_except
    (get_connection >>
     let updates :=
       (if is_not_None check_in then ["check_in = %s"] else [])
       ++ (if is_not_None check_out then ["check_out = %s"] else []) in
     match updates with
     | [] =>
         logger_warning [Lit "No timestamp values provided for update"] >>
         ret false
     | _ =>
         (* UPDATE transport_mean SET <updates> WHERE transportation_id = %s *)
         cursor_execute >>
         let* new_in := (if is_not_None check_in
                         then let* d := timestamp_param check_in in ret (Some d)
                         else ret None) in
         let* new_out := (if is_not_None check_out
                          then let* d := timestamp_param check_out in ret (Some d)
                          else ret None) in
         let* k := key_param transportation_id in
         let* w := get in
         let row := k ≫= fun tid => (fun r => (tid, r)) <$> transport_mean (db w) !! tid in
         match row with
         | Some (tid, r) =>
             modify (fun w =>
               set_db (set_transport_mean
                         (<[tid := mkTransport (t_container_id r) (t_storage_id r)
                                     (match new_in with
                                      | Some d => Some d | None => t_check_in r end)
                                     (match new_out with
                                      | Some d => Some d | None => t_check_out r end)]>
                            (transport_mean (db w)))
                         (db w)) w) >>
             ret true
         | None =>
             logger_warning [Lit " No transport record found: ";
                             Val transportation_id] >>
             ret false
         end
     end)
    (fun e =>
       logger_error_exc [Lit " Failed to update transport timestamps: "] e >>
       (* if conn: conn.rollback() *)
       ret false).

(** The two bulk reads are not entered in the call trace. *)

(** One row of [get_all_containers] per combination of a storage row and a
    transport row of the container, the missing side of a LEFT JOIN
    reading NULL. *)
Definition container_rows (s : Store) (cid : string) (c : container_row)
    : list container_data :=
  let st := List.filter (fun kv => (s_container_id (snd kv) =? cid)%string)
              (map_to_list (storage s)) in
  let tr := List.filter (fun kv => (t_container_id (snd kv) =? cid)%string)
              (map_to_list (transport_mean s)) in
  let left_join {A} (l : list A) : list (option A) :=
    match l with [] => [None] | _ => map Some l end in
  flat_map
    (fun so =>
       map (fun to =>
              mkContainerData cid (c_operation_type c) (c_weight c)
                (fst <$> so) (so ≫= fun kv => s_storage_status (snd kv))
                (fst <$> to) (to ≫= fun kv => t_check_in (snd kv))
                (to ≫= fun kv => t_check_out (snd kv)))
           (left_join tr))
    (left_join st).

Definition key_le (a b : string * container_row) : Prop :=
  String.leb (fst a) (fst b) = true.

#[global] Instance key_le_dec : RelDecision key_le :=
  fun a b => decide (String.leb (fst a) (fst b) = true).

(** [... ORDER BY c.container_id] *)
Definition select_all_containers (s : Store) : list container_data :=
  flat_map (fun kv => container_rows s (fst kv) (snd kv))
    (merge_sort key_le (map_to_list (container s))).

Definition get_all_containers : M (list container_data) :=
  try_except
    (get_connection >>
     cursor_execute >>
     let* w := get in
     let records := select_all_containers (db w) in
     ret records)
    (fun e =>
       logger_error_exc [Lit " Failed to retrieve containers: "] e >>
       ret []).

Definition key_ge (a b : Z * string) : Prop := (fst b <= fst a)%Z.

#[global] Instance key_ge_dec : RelDecision key_ge :=
  fun a b => decide (fst b <= fst a)%Z.

(** [SELECT process_instance_key, description FROM process_instance
     ORDER BY process_instance_key DESC] *)
Definition get_all_process_instances : M (list (Z * string)) :=
  try_except
    (get_connection >>
     cursor_execute >>
     let* w := get in
     let records := merge_sort key_ge (map_to_list (process_instance (db w))) in
     ret records)
    (fun e =>
       logger_error_exc [Lit " Failed to retrieve process instances: "] e >>
       ret []).

(** In each store function the table is written by the last step of the
    [try] block, after every step that can raise: an exception leaves the
    tables as they were, which is what [conn.rollback()] restores. *)

(** ** handlers/*.py *)

(** [{**variables, k1: v1, ..., kn: vn}]: later keys win. *)
Definition dict_literal (variables : gmap string value)
    (items : list (string * value)) : gmap string value :=
  fold_left (fun m kv => <[fst kv := snd kv]> m) items variables.

(** [not v or v == 'N/A'] *)
Definition missing (v : value) : bool :=
  negb (truthy v) || eq_str v "N/A".

(** The two [except] clauses closing every handler:
    [except ValueError: raise] and
    [except Exception as e: logger.error(...); raise]. *)
Definition reraising {A} (msg : string) (m : M A) : M A :=
  try_except m
    (fun e =>
       if is_ValueError e then raise e
       else logger_error_exc [Lit msg] e >> raise e).

Definition opt_str (o : option string) : value :=
  match o with Some s => VStr s | None => VNone end.
Definition opt_int (o : option Z) : value :=
  match o with Some n => VInt n | None => VNone end.
Definition opt_num (o : option Q) : value :=
  match o with Some q => VNum q | None => VNone end.

(** The example start variables quoted in the hints that follow a
    validation error; the hint text carries them as a JSON object. *)
Definition start_example (cid tid op : string) : value :=
  VDict [("containerId", VStr cid); ("transportationId", VStr tid);
         ("operationType", VStr op)].

Definition msg_missing_containerId_start : string :=
  " MISSING REQUIRED VARIABLE: 'containerId' must be provided when starting the workflow".
Definition msg_missing_transportationId_start : string :=
  " MISSING REQUIRED VARIABLE: 'transportationId' must be provided when starting the workflow".

Definition handle_crane_loading (job_key : Z) (variables : gmap string value)
    : M (gmap string value) :=
  let container_id := dict_get variables "containerId" in
  let transportation_id := dict_get variables "transportationId" in
  let operation_type := dict_get_default variables "operationType" (VStr "loading") in
  if missing container_id then
    logger_error [Lit msg_missing_containerId_start] >>
    logger_error [Lit " Start the workflow with: ";
                  Val (start_example "C1001" "truck101" "loading")] >>
    raise (ValueError [Lit msg_missing_containerId_start])
  else if missing transportation_id then
    logger_error [Lit msg_missing_transportationId_start] >>
    logger_error [Lit " Start the workflow with: ";
                  Val (start_example "C1001" "truck101" "loading")] >>
    raise (ValueError [Lit msg_missing_transportationId_start])
  else
    reraising " Error during crane loading: "
      (let* container_data := get_container container_id in
       match container_data with
       | Some _ => ret tt
       | None =>
           logger_warning [Lit "    Container "; Val container_id;
                           Lit " not found in database (may be created later)"]
       end >>
       sleep 2 >> sleep 2 >> sleep 2 >> sleep 2 >> sleep 2 >>
       let* timestamp := now_strftime in
       let operator := "CRANE-OP-001" in
       ret (dict_literal variables
              [("craneLoadingStatus", VStr "completed");
               ("craneLoadingTimestamp", VStr timestamp);
               ("craneOperator", VStr operator);
               ("containerId", container_id);
               ("transportationId", transportation_id);
               ("operationType", operation_type)])).

Definition handle_crane_unloading (job_key : Z) (variables : gmap string value)
    : M (gmap string value) :=
  let container_id := dict_get variables "containerId" in
  let transportation_id := dict_get variables "transportationId" in
  let operation_type := dict_get_default variables "operationType" (VStr "unloading") in
  if missing container_id then
    logger_error [Lit msg_missing_containerId_start] >>
    logger_error [Lit " Start the workflow with: ";
                  Val (start_example "C1002" "ship9109" "unloading")] >>
    raise (ValueError [Lit msg_missing_containerId_start])
  else if missing transportation_id then
    logger_error [Lit msg_missing_transportationId_start] >>
    logger_error [Lit " Start the workflow with: ";
                  Val (start_example "C1002" "ship9109" "unloading")] >>
    raise (ValueError [Lit msg_missing_transportationId_start])
  else
    reraising " Error during crane unloading: "
      (let* container_data := get_container container_id in
       match container_data with
       | Some _ => ret tt
       | None =>
           logger_warning [Lit "  Container "; Val container_id;
                           Lit " not found in database (may be created later)"]
       end >>
       sleep 2 >> sleep 2 >> sleep 2 >> sleep 2 >> sleep 2 >>
       let* timestamp := now_strftime in
       let operator := "CRANE-OP-002" in
       let unloading_zone := "ZONE-A1" in
       ret (dict_literal variables
              [("craneUnloadingStatus", VStr "completed");
               ("craneUnloadingTimestamp", VStr timestamp);
               ("craneOperator", VStr operator);
               ("unloadingZone", VStr unloading_zone);
               ("containerId", container_id);
               ("transportationId", transportation_id);
               ("operationType", operation_type)])).

(** Standard ISO container max weight (kg). *)
Definition max_weight : Q := 30480 # 1.

Definition handle_weighing (job_key : Z) (variables : gmap string value)
    : M (gmap string value) :=
  let container_id := dict_get variables "containerId" in
  let transportation_id := dict_get variables "transportationId" in
  let operation_type := dict_get_default variables "operationType" (VStr "unknown") in
  if missing container_id then
    logger_error [Lit msg_missing_containerId_start] >>
    logger_error [Lit " Start the workflow with: ";
                  Val (start_example "C1002" "ship9109" "unloading")] >>
    logger_error [Lit " Available containers in database: C1001-C1010"] >>
    raise (ValueError [Lit msg_missing_containerId_start])
  else
    reraising " Error during weighing operation: "
      (let* container_data := get_container container_id in
       match container_data with
       | None =>
           let error_msg := [Lit " Container "; Val container_id;
                             Lit " not found in database"] in
           logger_error error_msg >>
           logger_error [Lit " Make sure the container exists in the 'container' table"] >>
           logger_error [Lit " Available sample containers: C1001, C1002, C1003, C1004, C1005, C1006, C1007, C1008, C1009, C1010"] >>
           raise (Exception error_msg)
       | Some container_data =>
           let weight := cd_weight container_data in
           sleep 2 >> sleep 1 >> sleep 2 >>
           (* weight <= max_weight raises TypeError on None *)
           let* weight_status :=
             match weight with
             | Some w => ret (if Qle_bool w max_weight then "OK" else "OVERWEIGHT")
             | None => raise TypeError
             end in
           (if (weight_status =? "OVERWEIGHT")%string
            then logger_warning [Lit "    WARNING: Container exceeds maximum weight!"]
            else ret tt) >>
           let* timestamp := now_strftime in
           let scale_id := "SCALE-001" in
           let weighing_operator := "WEIGH-OP-001" in
           ret (dict_literal variables
                  [("weighingStatus", VStr "completed");
                   ("weighingTimestamp", VStr timestamp);
                   ("weight", opt_num weight);
                   ("weightUnit", VStr "kg");
                   ("weightStatus", VStr weight_status);
                   ("scaleId", VStr scale_id);
                   ("weighingOperator", VStr weighing_operator);
                   ("containerId", container_id);
                   ("transportationId", transportation_id);
                   ("operationType", operation_type)])
       end).

Definition handle_storage (job_key : Z) (variables : gmap string value)
    : M (gmap string value) :=
  let container_id := dict_get variables "containerId" in
  let operation_type := dict_get_default variables "operationType" (VStr "unknown") in
  let transportation_id := dict_get variables "transportationId" in
  if missing container_id then
    logger_error [Lit msg_missing_containerId_start] >>
    logger_error [Lit " Start the workflow with: ";
                  Val (start_example "C1002" "ship9109" "unloading")] >>
    raise (ValueError [Lit msg_missing_containerId_start])
  else
    reraising " Error during storage operation: "
      (let* container_data := get_container container_id in
       match container_data with
       | None =>
           let error_msg := [Lit " Container "; Val container_id;
                             Lit " not found in database"] in
           logger_error error_msg >>
           logger_error [Lit " Make sure the container exists in the 'container' table"] >>
           raise (Exception error_msg)
       | Some container_data =>
           sleep 1 >> sleep 3 >> sleep 2 >> sleep 2 >> sleep 1 >>
           let storage_status := "complete" in
           let* success := update_storage_status container_id storage_status in
           (if success then ret tt
            else logger_warning [Lit " Database update may have failed for ";
                                 Val container_id]) >>
           let* timestamp := now_strftime in
           let storage_operator := "STORAGE-OP-001" in
           ret (dict_literal variables
                  [("storageStatus", VStr storage_status);
                   ("storageTimestamp", VStr timestamp);
                   ("storageOperator", VStr storage_operator);
                   ("storageId", opt_int (cd_storage_id container_data));
                   ("containerId", container_id);
                   ("transportationId", transportation_id);
                   ("operationType", operation_type)])
       end).

(** [transportation_id.startswith('truck')]; a value that is not a string
    has no such method. *)
Definition startswith_truck (v : value) : M bool :=
  match v with
  | VStr s => ret (String.prefix "truck" s)
  | _ => raise AttributeError
  end.

Definition msg_missing_containerId : string :=
  " MISSING REQUIRED VARIABLE: 'containerId'".
Definition msg_missing_transportationId : string :=
  " MISSING REQUIRED VARIABLE: 'transportationId'".

Definition handle_truck_checkin (job_key : Z) (variables : gmap string value)
    : M (gmap string value) :=
  let container_id := dict_get variables "containerId" in
  let transportation_id := dict_get variables "transportationId" in
  let operation_type := dict_get_default variables "operationType" (VStr "unknown") in
  let check_in := dict_get variables "checkIn" in
  if missing container_id then
    logger_error [Lit msg_missing_containerId] >>
    raise (ValueError [Lit msg_missing_containerId])
  else if missing transportation_id then
    logger_error [Lit msg_missing_transportationId] >>
    raise (ValueError [Lit msg_missing_transportationId])
  else
    let* is_truck := startswith_truck transportation_id in
    if negb is_truck then
      let error_msg := [Lit " Invalid transportation ID: "; Val transportation_id;
                        Lit " (must start with 'truck')"] in
      logger_error error_msg >>
      raise (ValueError error_msg)
    else
      reraising " Error during truck check-in: "
        (let* check_in_timestamp :=
           (if negb (truthy check_in)
            then let* t := now_strftime in ret (VStr t)
            else ret check_in) in
         sleep 1 >> sleep 1 >>
         let* success :=
           update_transport_timestamps transportation_id check_in_timestamp VNone in
         (if success then ret tt
          else logger_warning [Lit " Database update may have failed for ";
                               Val transportation_id]) >>
         ret (dict_literal variables
                [("checkIn", check_in_timestamp);
                 ("truckCheckInStatus", VStr "completed");
                 ("truckCheckInOperator", VStr "GATE-OP-001");
                 ("containerId", container_id);
                 ("transportationId", transportation_id);
                 ("operationType", operation_type)])).

(** [strptime] of a value: only a string in the expected pattern parses. *)
Definition parses (v : value) : bool :=
  match v with
  | VStr s => match strptime s with Some _ => true | None => false end
  | _ => false
  end.

Definition handle_truck_checkout (job_key : Z) (variables : gmap string value)
    : M (gmap string value) :=
  let container_id := dict_get variables "containerId" in
  let transportation_id := dict_get variables "transportationId" in
  let operation_type := dict_get_default variables "operationType" (VStr "unknown") in
  let check_in := dict_get variables "checkIn" in
  let check_out := dict_get variables "checkOut" in
  if missing container_id then
    logger_error [Lit msg_missing_containerId] >>
    raise (ValueError [Lit msg_missing_containerId])
  else if missing transportation_id then
    logger_error [Lit msg_missing_transportationId] >>
    raise (ValueError [Lit msg_missing_transportationId])
  else
    let* is_truck := startswith_truck transportation_id in
    if negb is_truck then
      let error_msg := [Lit " Invalid transportation ID: "; Val transportation_id;
                        Lit " (must start with 'truck')"] in
      logger_error error_msg >>
      raise (ValueError error_msg)
    else
      reraising " Error during truck check-out: "
        (let* check_out_timestamp :=
           (if negb (truthy check_out)
            then let* t := now_strftime in ret (VStr t)
            else ret check_out) in
         sleep 1 >> sleep 1 >>
         (* the duration is only logged; a failed parse is a warning *)
         (if truthy check_in
          then if parses check_in && parses check_out_timestamp then ret tt
               else logger_warning [Lit "    Could not calculate duration"]
          else ret tt) >>
         let* success :=
           update_transport_timestamps transportation_id VNone check_out_timestamp in
         (if success then ret tt
          else logger_warning [Lit " Database update may have failed for ";
                               Val transportation_id]) >>
         ret (dict_literal variables
                [("checkOut", check_out_timestamp);
                 ("truckCheckOutStatus", VStr "completed");
                 ("truckCheckOutOperator", VStr "GATE-OP-002");
                 ("containerId", container_id);
                 ("transportationId", transportation_id);
                 ("operationType", operation_type)])).

(** ** main.py and flow.py: the task wrappers *)

(** A job as delivered by the engine. *)
Record Job := mkJob {
  job_key : Z;
  job_process_instance_key : Z;
  job_variables : gmap string value
}.

(** The prologue shared by the six wrappers:
    [if process_instance_key: insert_process_instance(...)]. *)
Definition record_process_instance (job : Job) (default_operation : string)
    : M unit :=
  let process_instance_key := job_process_instance_key job in
  let container_id := dict_get (job_variables job) "containerId" in
  let transportation_id := dict_get (job_variables job) "transportationId" in
  let operation_type :=
    dict_get_default (job_variables job) "operationType" (VStr default_operation) in
  if negb (process_instance_key =? 0)%Z then
    insert_process_instance process_instance_key operation_type container_id
      transportation_id >> ret tt
  else ret tt.

Definition crane_loading_task (job : Job) : M (gmap string value) :=
  record_process_instance job "loading" >>
  handle_crane_loading (job_key job) (job_variables job).

Definition crane_unloading_task (job : Job) : M (gmap string value) :=
  record_process_instance job "unloading" >>
  handle_crane_unloading (job_key job) (job_variables job).

Definition weighing_task (job : Job) : M (gmap string value) :=
  record_process_instance job "unknown" >>
  handle_weighing (job_key job) (job_variables job).

Definition storage_task (job : Job) : M (gmap string value) :=
  record_process_instance job "unknown" >>
  let* result := handle_storage (job_key job) (job_variables job) in
  (if negb (job_process_instance_key job =? 0)%Z
   then update_process_instance_completion (job_process_instance_key job)
          "completed" >> ret tt
   else ret tt) >>
  ret result.

Definition truck_checkin_task (job : Job) : M (gmap string value) :=
  record_process_instance job "unknown" >>
  handle_truck_checkin (job_key job) (job_variables job).

Definition truck_checkout_task (job : Job) : M (gmap string value) :=
  record_process_instance job "unknown" >>
  handle_truck_checkout (job_key job) (job_variables job).

(** The six handler kinds, to state properties of all of them at once. *)
Inductive handler_kind :=
| CraneLoading | CraneUnloading | Weighing | Storage
| TruckCheckin | TruckCheckout.

Definition handler (k : handler_kind)
    : Z -> gmap string value -> M (gmap string value) :=
  match k with
  | CraneLoading => handle_crane_loading
  | CraneUnloading => handle_crane_unloading
  | Weighing => handle_weighing
  | Storage => handle_storage
  | TruckCheckin => handle_truck_checkin
  | TruckCheckout => handle_truck_checkout
  end.

Definition task (k : handler_kind) : Job -> M (gmap string value) :=
  match k with
  | CraneLoading => crane_loading_task
  | CraneUnloading => crane_unloading_task
  | Weighing => weighing_task
  | Storage => storage_task
  | TruckCheckin => truck_checkin_task
  | TruckCheckout => truck_checkout_task
  end.

(** ** fetch_workflow_scenarios (start_workflow.py, flow.py) *)

(** One row of
    [transport_mean t JOIN container c ON t.container_id = c.container_id
     JOIN storage s ON t.storage_id = s.storage_id]. *)
Record scenario_row := mkRow {
  r_container_id : string;
  r_operation_type : option string;
  r_weight : option Q;
  r_transportation_id : string;
  r_check_in : option datetime;
  r_check_out : option datetime;
  r_storage_status : option string
}.

Definition join_row (s : Store) (kv : string * transport_row)
    : option scenario_row :=
  let t := snd kv in
  c ← container s !! t_container_id t;
  st ← storage s !! t_storage_id t;
  Some (mkRow (t_container_id t) (c_operation_type c) (c_weight c)
          (fst kv) (t_check_in t) (t_check_out t) (s_storage_status st)).

(** [ORDER BY t.transportation_id, c.container_id], strings compared
    character by character. *)
Definition row_leb (a b : scenario_row) : bool :=
  match String.compare (r_transportation_id a) (r_transportation_id b) with
  | Lt => true
  | Gt => false
  | Eq => String.leb (r_container_id a) (r_container_id b)
  end.

Definition row_le (a b : scenario_row) : Prop := row_leb a b = true.

#[global] Instance row_le_dec : RelDecision row_le :=
  fun a b => decide (row_leb a b = true).

Definition scenario_query (s : Store) : list scenario_row :=
  merge_sort row_le (omap (join_row s) (map_to_list (transport_mean s))).

Definition is_Some_b {A} (o : option A) : bool :=
  match o with Some _ => true | None => false end.

(** The truck-completeness test of the loop: a truck row lacking a
    timestamp is skipped. *)
Definition skipped (row : scenario_row) : bool :=
  String.prefix "truck" (r_transportation_id row)
  && (negb (is_Some_b (r_check_in row)) || negb (is_Some_b (r_check_out row))).

(** [row[col].strftime(...)]: [None] has no such method. *)
Definition strftime_column (c : option datetime) : M string :=
  match c with
  | Some d => ret (strftime d)
  | None => raise AttributeError
  end.

(** [float(row['weight'])]: raises TypeError on [None]. *)
Definition float (c : option Q) : M value :=
  match c with
  | Some q => ret (VNum (float_of q))
  | None => raise TypeError
  end.

(** The body of [for row in rows:], for one row and the list built so far.
    The two files differ in the text of the warning only: [skipping] is
    [" Skipping truck "] in start_workflow.py and [" Skipping "] in
    flow.py. *)
Definition scenario_step (skipping : string)
    (scenarios : list (gmap string value))
    (row : scenario_row) : M (list (gmap string value)) :=
  let transportation_id := r_transportation_id row in
  if skipped row then
    logger_warning [Lit skipping; Val (VStr transportation_id);
                    Lit " - missing timestamps"] >>
    ret scenarios
  else
    let* weight := float (r_weight row) in
    let scenario : gmap string value :=
      dict_literal ∅
        [("containerId", VStr (r_container_id row));
         ("transportationId", VStr transportation_id);
         ("operationType", opt_str (r_operation_type row));
         ("weight", weight);
         ("storageStatus", opt_str (r_storage_status row))] in
    let* scenario :=
      (if String.prefix "truck" transportation_id then
         let* check_in := strftime_column (r_check_in row) in
         let* check_out := strftime_column (r_check_out row) in
         ret (<["checkOut" := VStr check_out]>
                (<["checkIn" := VStr check_in]> scenario))
       else ret scenario) in
    ret (scenarios ++ [scenario]).

Fixpoint scenario_loop (skipping : string) (rows : list scenario_row)
    (scenarios : list (gmap string value)) : M (list (gmap string value)) :=
  match rows with
  | [] => ret scenarios
  | row :: rest =>
      let* scenarios := scenario_step skipping scenarios row in
      scenario_loop skipping rest scenarios
  end.

(** [PortManagementSystem.fetch_workflow_scenarios] of flow.py. *)
Definition flow_fetch_workflow_scenarios : M (list (gmap string value)) :=
  try_except
    (cursor_execute >>                      (* psycopg2.connect *)
     cursor_execute >>                      (* cur.execute(query) *)
     let* w := get in
     let rows := scenario_query (db w) in
     let* scenarios := scenario_loop " Skipping " rows [] in
     ret scenarios)
    (fun e =>
       logger_error_exc [Lit " Failed to fetch scenarios: "] e >>
       ret []).

(** [fetch_workflow_scenarios] of start_workflow.py: the same loop, then
    [return [scenarios[0]]], the [return scenarios] being commented out. *)
Definition start_workflow_fetch_workflow_scenarios
    : M (list (gmap string value)) :=
  try_except
    (cursor_execute >>
     cursor_execute >>
     let* w := get in
     let rows := scenario_query (db w) in
     let* scenarios := scenario_loop " Skipping truck " rows [] in
     match scenarios with
     | s0 :: _ => ret [s0]
     | [] => raise IndexError
     end)
    (fun e =>
       logger_error_exc [Lit " Failed to fetch scenarios: "] e >>
       ret []).

(** ** start_single_workflow (start_workflow.py, flow.py) *)

(** The engine client: [run_process(bpmn_process_id, variables)] answers
    with a response object, given here by its attributes, or raises. *)
Record ZeebeClient := mkClient {
  run_process : string -> gmap string value -> M (gmap string value)
}.

(** [obj.name]: an object without the attribute raises AttributeError. *)
Definition getattr (obj : gmap string value) (name : string) : M value :=
  match obj !! name with
  | Some v => ret v
  | None => raise AttributeError
  end.

Definition BPMN_PROCESS_ID : string := "Port_Workflow".

(** [variables[k]]: a missing key raises KeyError, carried here as an
    [Exception] that names the key. *)
Definition subscript (variables : gmap string value) (k : string) : M value :=
  match variables !! k with
  | Some v => ret v
  | None => raise (Exception [Lit "KeyError: "; Val (VStr k)])
  end.

Definition start_single_workflow (client : ZeebeClient)
    (variables : gmap string value) : M bool :=
  try_except
    (if negb (bool_decide (is_Some (variables !! "transportationId")))
        || negb (truthy (dict_get variables "transportationId"))
     then
       logger_error [Lit " CRITICAL: transportationId missing for ";
                     Val (dict_get_default variables "containerId"
                            (VStr "UNKNOWN"))] >>
       ret false
     else
       (* the three values are read for the progress lines *)
       subscript variables "containerId" >>
       subscript variables "transportationId" >>
       subscript variables "operationType" >>
       let* result := run_process client BPMN_PROCESS_ID variables in
       (* the two attributes are read for the closing progress lines *)
       getattr result "process_instance_key" >>
       getattr result "bpmn_process_id" >>
       ret true)
    (fun e =>
       logger_error_exc [Lit " Failed to start workflow for ";
                         Val (dict_get_default variables "containerId"
                                (VStr "UNKNOWN")); Lit ": "] e >>
       ret false).

(** ** Sample data used by the examples *)

Definition sample_clock (n : nat) : datetime :=
  mkDatetime 2025 10 8 9 (n / 120) ((n / 2) mod 60).

(** A strict reader of [YYYY-MM-DD HH:MM:SS]. *)
Definition iso_timestamp (s : string) : option datetime :=
  if timestamp_pattern s then
    Some (mkDatetime (read_decimal 0 (substring 0 4 s))
            (read_decimal 0 (substring 5 2 s)) (read_decimal 0 (substring 8 2 s))
            (read_decimal 0 (substring 11 2 s)) (read_decimal 0 (substring 14 2 s))
            (read_decimal 0 (substring 17 2 s)))
  else None.

Definition sample_str (v : value) : string :=
  match v with VStr s => s | _ => "?" end.

Definition sample_timestamp (v : value) : option datetime :=
  match v with VStr s => iso_timestamp s | _ => None end.

Definition sample_float (q : Q) : Q := q.

(** Containers C1001 (12000 kg, loading) on truck101 and C1002 (35000 kg,
    unloading) on ship9109, both storages incomplete, no timestamps yet. *)
Definition sample_store : Store :=
  mkStore
    {[ "C1001" := mkContainer (Some "loading") (Some (12000 # 1)%Q);
       "C1002" := mkContainer (Some "unloading") (Some (35000 # 1)%Q) ]}
    {[ 1%Z := mkStorage "C1001" (Some "incomplete");
       2%Z := mkStorage "C1002" (Some "incomplete") ]}
    {[ "truck101" := mkTransport "C1001" 1 None None;
       "ship9109" := mkTransport "C1002" 2 None None ]}
    ∅.

Definition sample_world : World :=
  mkWorld sample_store true [] sample_clock 0 [] [].

Definition sample_variables : gmap string value :=
  {[ "containerId" := VStr "C1001"; "transportationId" := VStr "truck101";
     "operationType" := VStr "loading" ]}.

(** The same world with the connection pool never initialised. *)
Definition offline_world : World :=
  mkWorld sample_store false [] sample_clock 0 [] [].

(** Two ships, each carrying one container. *)
Definition two_ships_store : Store :=
  mkStore
    {[ "C1002" := mkContainer (Some "unloading") (Some (35000 # 1)%Q);
       "C1003" := mkContainer (Some "unloading") (Some (18000 # 1)%Q) ]}
    {[ 2%Z := mkStorage "C1002" (Some "incomplete");
       3%Z := mkStorage "C1003" (Some "incomplete") ]}
    {[ "ship9109" := mkTransport "C1002" 2 None None;
       "ship9110" := mkTransport "C1003" 3 None None ]}
    ∅.

Definition two_ships_world : World :=
  mkWorld two_ships_store true [] sample_clock 0 [] [].

(** One truck with only its check-in set, and one ship with no timestamp. *)
Definition half_checked_store : Store :=
  mkStore
    (container sample_store) (storage sample_store)
    {[ "truck101" := mkTransport "C1001" 1 (Some (mkDatetime 2025 10 8 8 0 0)) None;
       "ship9109" := mkTransport "C1002" 2 None None ]}
    ∅.

Definition half_checked_world : World :=
  mkWorld half_checked_store true [] sample_clock 0 [] [].

(** The truck checked in and out. *)
Definition checked_out_store : Store :=
  mkStore
    (container sample_store) (storage sample_store)
    {[ "truck101" := mkTransport "C1001" 1 (Some (mkDatetime 2025 10 8 8 0 0))
                       (Some (mkDatetime 2025 10 8 10 0 0));
       "ship9109" := mkTransport "C1002" 2 None None ]}
    ∅.

Definition checked_out_world : World :=
  mkWorld checked_out_store true [] sample_clock 0 [] [].

(** The scenarios the reconstruction builds from these stores. *)
Definition ship_scenario (cid tid : string) (weight : Q) : gmap string value :=
  dict_literal ∅
    [("containerId", VStr cid); ("transportationId", VStr tid);
     ("operationType", VStr "unloading"); ("weight", VNum weight);
     ("storageStatus", VStr "incomplete")].


(** A job that starts without any variable, for process instance 77. *)
Definition empty_job : Job := mkJob 1 77 ∅.

(** A job for container C1001 on truck101, for process instance 77. *)
Definition sample_job : Job := mkJob 1 77 sample_variables.

(** The sample world with the next driver call failing. *)
Definition failing_world : World :=
  mkWorld sample_store true [true] sample_clock 0 [] [].

(** A container entered without weight, storage or transport. *)
Definition unweighed_store : Store :=
  mkStore {[ "C1004" := mkContainer (Some "loading") None ]} ∅ ∅ ∅.

Definition unweighed_world : World :=
  mkWorld unweighed_store true [] sample_clock 0 [] [].

Definition unweighed_variables : gmap string value :=
  {[ "containerId" := VStr "C1004" ]}.

(** The sample store with two process instances on record. *)
Definition tracked_store : Store :=
  mkStore
    (container sample_store) (storage sample_store)
    (transport_mean sample_store)
    {[ 77%Z := "Started: 2025-10-08 08:00:00, Operation: loading";
       78%Z := "Started: 2025-10-08 08:30:00, Operation: unloading" ]}.

Definition tracked_world : World :=
  mkWorld tracked_store true [] sample_clock 0 [] [].

(** An engine that starts every process it is asked for and answers with
    the key and the process id of the new instance. *)
Definition accepting_client : ZeebeClient :=
  mkClient (fun bpmn_process_id _ =>
              ret {[ "process_instance_key" := VInt 2251799813685249;
                     "bpmn_process_id" := VStr bpmn_process_id ]}).

(** A client that answers with the bare key, an integer: the response has
    none of the two attributes. *)
Definition bare_key_client : ZeebeClient :=
  mkClient (fun _ _ => ret ∅).

(** The row of the join for container C1002 on ship9109. *)
Definition ship_row : scenario_row :=
  mkRow "C1002" (Some "unloading") (Some (35000 # 1)%Q) "ship9109" None None
    (Some "incomplete").

(** A store read, in a world with no fault pending, succeeds. *)
Definition healthy (w : World) : Prop :=
  connection_pool w = true ∧ faults w = [].

(** The store read of [get_container] fails: the pool is missing or the
    statement raises. *)
Definition read_fails (w : World) : Prop :=
  connection_pool w = false ∨ ∃ rest, faults w = true :: rest.

(** An identifier that passes [not v or v == 'N/A']. *)
Definition valid_id (s : string) : Prop := s ≠ "" ∧ s ≠ "N/A".

(** Handlers run one after the other, each on the variables the previous
    one returned; the first exception ends the run. *)
Definition run_in_order (steps : list handler_kind)
    (variables : gmap string value) (w : World)
    : outcome (gmap string value) * World :=
  fold_left
    (fun acc kind =>
       match fst acc with
       | Return vars => handler kind 1 vars (snd acc)
       | Raise e => acc
       end)
    steps (Return variables, w).

(** ** Frame reasoning: what a computation leaves related *)

Definition preserves (R : relation World) {A} (m : M A) : Prop :=
  ∀ w, R w (snd (m w)).

(** Relations on worlds that only look at the tables. *)
Definition on_db (S : relation Store) : relation World :=
  fun w w' => S (db w) (db w').

(** ** Vocabulary of the statements *)

(** The start description built by [insert_process_instance]. *)
Definition start_description (now : datetime)
    (operation_type container_id transportation_id : value) : string :=
  join_parts
    (["Started: " +:+ strftime now]
     ++ (if truthy operation_type
         then ["Operation: " +:+ py_str operation_type] else [])
     ++ (if truthy container_id
         then ["Container: " +:+ py_str container_id] else [])
     ++ (if truthy transportation_id
         then ["Transport: " +:+ py_str transportation_id] else [])).

Definition not_found_msg (container_id : value) : list frag :=
  [Lit " Container "; Val container_id; Lit " not found in database"].

Definition crane_loading_result (variables : gmap string value)
    (timestamp : string) : gmap string value :=
  dict_literal variables
    [("craneLoadingStatus", VStr "completed");
     ("craneLoadingTimestamp", VStr timestamp);
     ("craneOperator", VStr "CRANE-OP-001");
     ("containerId", dict_get variables "containerId");
     ("transportationId", dict_get variables "transportationId");
     ("operationType", dict_get_default variables "operationType" (VStr "loading"))].

Definition crane_unloading_result (variables : gmap string value)
    (timestamp : string) : gmap string value :=
  dict_literal variables
    [("craneUnloadingStatus", VStr "completed");
     ("craneUnloadingTimestamp", VStr timestamp);
     ("craneOperator", VStr "CRANE-OP-002");
     ("unloadingZone", VStr "ZONE-A1");
     ("containerId", dict_get variables "containerId");
     ("transportationId", dict_get variables "transportationId");
     ("operationType", dict_get_default variables "operationType" (VStr "unloading"))].

Definition may_be_created_later (indent : string) (container_id : value)
    : log_item :=
  Msg WARNING [Lit (indent +:+ "Container "); Val container_id;
               Lit " not found in database (may be created later)"].

(** The variables each handler validates before anything else. *)
Definition required_fields (k : handler_kind) : list string :=
  match k with
  | Weighing | Storage => ["containerId"]
  | CraneLoading | CraneUnloading | TruckCheckin | TruckCheckout =>
      ["containerId"; "transportationId"]
  end.

Definition absent_or_sentinel (variables : gmap string value) (f : string)
    : Prop :=
  variables !! f = None ∨ variables !! f = Some (VStr "N/A").

(** A rejected job: ValueError, and a world that differs only by the
    error records appended to the log. *)
Definition rejected {A} (r : outcome A * World) (w : World) : Prop :=
  ∃ msg l, r = (Raise (ValueError msg), set_log (log w ++ l) w).

(** Between two stores: every storage row that was complete is still
    there, unchanged; every row is either as it was or complete. *)
Definition complete_is_kept (s s' : Store) : Prop :=
  ∀ sid,
    (∀ r, storage s !! sid = Some r → s_storage_status r = Some "complete" →
          storage s' !! sid = Some r)
    ∧ (∀ r', storage s' !! sid = Some r' →
             storage s !! sid = Some r' ∨ s_storage_status r' = Some "complete").

(** A sequence of storage-handler invocations, each with its own job key
    and variables; an invocation that raises leaves the world to the next. *)
Definition run_storage_handlers (jobs : list (Z * gmap string value))
    (w : World) : World :=
  fold_left (fun w job => snd (handle_storage (fst job) (snd job) w)) jobs w.

(** The fields each handler adds to the variables it was given. *)
Definition result_fields (k : handler_kind) : list string :=
  match k with
  | CraneLoading =>
      ["craneLoadingStatus"; "craneLoadingTimestamp"; "craneOperator"]
  | CraneUnloading =>
      ["craneUnloadingStatus"; "craneUnloadingTimestamp"; "craneOperator";
       "unloadingZone"]
  | Weighing =>
      ["weighingStatus"; "weighingTimestamp"; "weight"; "weightUnit";
       "weightStatus"; "scaleId"; "weighingOperator"]
  | Storage =>
      ["storageStatus"; "storageTimestamp"; "storageOperator"; "storageId"]
  | TruckCheckin => ["checkIn"; "truckCheckInStatus"; "truckCheckInOperator"]
  | TruckCheckout => ["checkOut"; "truckCheckOutStatus"; "truckCheckOutOperator"]
  end.

Definition default_operation (k : handler_kind) : string :=
  match k with
  | CraneLoading => "loading"
  | CraneUnloading => "unloading"
  | _ => "unknown"
  end.

(** The three routing variables as every handler re-asserts them. *)
Definition routing_items (variables : gmap string value) (d : string)
    : list (string * value) :=
  [("containerId", dict_get variables "containerId");
   ("transportationId", dict_get variables "transportationId");
   ("operationType", dict_get_default variables "operationType" (VStr d))].

Definition merged (kind : handler_kind) (variables out : gmap string value)
    : Prop :=
  ∃ items,
    map fst items = result_fields kind
    ∧ out = dict_literal variables
              (items ++ routing_items variables (default_operation kind)).

(** What a handler needs in order to return: its validation passes and,
    for weighing and storage, the container can be read (with a weight,
    for weighing). *)
Definition handler_ready (kind : handler_kind)
    (variables : gmap string value) (w : World) : Prop :=
  missing (dict_get variables "containerId") = false
  ∧ match kind with
    | CraneLoading | CraneUnloading =>
        missing (dict_get variables "transportationId") = false
    | Weighing =>
        healthy w
        ∧ ∃ c row wt, variables !! "containerId" = Some (VStr c)
                      ∧ container (db w) !! c = Some row
                      ∧ c_weight row = Some wt
    | Storage =>
        healthy w
        ∧ ∃ c row, variables !! "containerId" = Some (VStr c)
                   ∧ container (db w) !! c = Some row
    | TruckCheckin | TruckCheckout =>
        ∃ t, variables !! "transportationId" = Some (VStr t)
             ∧ String.prefix "truck" t = true
    end.

(** Every value a computation can return satisfies P. *)
Definition returns {A} (P : A → Prop) (m : M A) : Prop :=
  ∀ w a w', m w = (Return a, w') → P a.

(** What the loop body builds for a row it does not skip. *)
Definition emitted (row : scenario_row) (sc : gmap string value) : Prop :=
  sc !! "containerId" = Some (VStr (r_container_id row))
  ∧ sc !! "transportationId" = Some (VStr (r_transportation_id row))
  ∧ sc !! "operationType" = Some (opt_str (r_operation_type row))
  ∧ (∃ q, r_weight row = Some q ∧ sc !! "weight" = Some (VNum (float_of q)))
  ∧ sc !! "storageStatus" = Some (opt_str (r_storage_status row))
  ∧ if String.prefix "truck" (r_transportation_id row)
    then ∃ d1 d2, r_check_in row = Some d1 ∧ r_check_out row = Some d2
                  ∧ sc !! "checkIn" = Some (VStr (strftime d1))
                  ∧ sc !! "checkOut" = Some (VStr (strftime d2))
    else sc !! "checkIn" = None ∧ sc !! "checkOut" = None.

(** Two stores agree on what [f] reads of them (a table, a row). *)
Definition keeps {T} (f : Store → T) : relation Store :=
  fun s s' => f s' = f s.

(** The two warnings of a storage update that matched no row. *)
Definition no_storage_record (container_id : value) : log_item :=
  Msg WARNING [Lit "No storage record found for container: "; Val container_id].

Definition update_may_have_failed (id : value) : log_item :=
  Msg WARNING [Lit " Database update may have failed for "; Val id].

(** The engine's response carries the two attributes that
    [start_single_workflow] reads after the call. *)
Definition complete_response (result : gmap string value) : Prop :=
  is_Some (result !! "process_instance_key")
  ∧ is_Some (result !! "bpmn_process_id").

#[global] Instance on_db_preorder (S : relation Store) `{!PreOrder S} :
  PreOrder (on_db S).
Proof.
  split.
  - intros w. unfold on_db. reflexivity.
  - intros a b c H1 H2. unfold on_db in *. etransitivity; eauto.
Qed.

Section Frames.
Context (R : relation World) `{!PreOrder R}.

Lemma preserves_ret {A} (a : A) : preserves R (ret a).
Proof. intros w. simpl. reflexivity. Qed.

Lemma preserves_raise {A} (e : exn) : preserves R (@raise A e).
Proof. intros w. simpl. reflexivity. Qed.

Lemma preserves_get : preserves R get.
Proof. intros w. simpl. reflexivity. Qed.

Lemma preserves_bind {A B} (m : M A) (k : A → M B) :
  preserves R m → (∀ a, preserves R (k a)) → preserves R (bind m k).
Proof.
  intros Hm Hk w. unfold bind. specialize (Hm w).
  destruct (m w) as [[a|e] w1]; simpl in *.
  - etransitivity; [exact Hm | apply Hk].
  - exact Hm.
Qed.

Lemma preserves_try_except {A} (m : M A) (h : exn → M A) :
  preserves R m → (∀ e, preserves R (h e)) → preserves R (try_except m h).
Proof.
  intros Hm Hh w. unfold try_except. specialize (Hm w).
  destruct (m w) as [[a|e] w1]; simpl in *.
  - exact Hm.
  - etransitivity; [exact Hm | apply Hh].
Qed.

Lemma preserves_modify (f : World → World) :
  (∀ w, R w (f w)) → preserves R (modify f).
Proof. intros Hf w. simpl. apply Hf. Qed.
End Frames.

Section DbFrames.
Context (S : relation Store) `{!PreOrder S}.

Lemma on_db_same (w w' : World) : db w' = db w → on_db S w w'.
Proof. intros H. unfold on_db. rewrite H. reflexivity. Qed.

Lemma preserves_logger_warning msg : preserves (on_db S) (logger_warning msg).
Proof. apply preserves_modify; intros w; by apply on_db_same. Qed.

Lemma preserves_logger_error msg : preserves (on_db S) (logger_error msg).
Proof. apply preserves_modify; intros w; by apply on_db_same. Qed.

Lemma preserves_logger_error_exc msg e :
  preserves (on_db S) (logger_error_exc msg e).
Proof. apply preserves_modify; intros w; by apply on_db_same. Qed.

Lemma preserves_sleep n : preserves (on_db S) (sleep n).
Proof. apply preserves_modify; intros w; by apply on_db_same. Qed.

Lemma preserves_entered c : preserves (on_db S) (entered c).
Proof. apply preserves_modify; intros w; by apply on_db_same. Qed.

Lemma preserves_now_strftime : preserves (on_db S) now_strftime.
Proof. intros w. by apply on_db_same. Qed.

Lemma preserves_get_connection : preserves (on_db S) get_connection.
Proof.
  intros w. unfold get_connection, bind, get.
  destruct (connection_pool w); by apply on_db_same.
Qed.

Lemma preserves_cursor_execute : preserves (on_db S) cursor_execute.
Proof.
  intros w. unfold cursor_execute, bind, get.
  destruct (faults w) as [|[] rest]; by apply on_db_same.
Qed.

Lemma preserves_key_param v : preserves (on_db S) (key_param v).
Proof. intros w. destruct v; by apply on_db_same. Qed.

Lemma preserves_timestamp_param v : preserves (on_db S) (timestamp_param v).
Proof.
  intros w. unfold timestamp_param.
  destruct (pg_timestamp v); by apply on_db_same.
Qed.

Lemma preserves_startswith_truck v : preserves (on_db S) (startswith_truck v).
Proof. intros w. destruct v; by apply on_db_same. Qed.
End DbFrames.

(** ** The store functions *)

Ltac run :=
  unfold bind, ret, raise, try_except, get, modify, entered, logger_warning,
    logger_error, logger_error_exc, sleep, now_strftime, get_connection,
    cursor_execute in *;
  simpl in *.

Lemma insert_process_instance_healthy (key : Z)
    (operation_type container_id transportation_id : value) (w : World) :
  healthy w →
  insert_process_instance key operation_type container_id transportation_id w
  = (Return true,
     set_db (set_process_instance
               (<[key := start_description (clock w (elapsed w)) operation_type
                           container_id transportation_id]>
                  (process_instance (db w))) (db w))
       (set_store_calls (store_calls w ++ [Call_insert_process_instance key]) w)).
Proof.
  intros [Hp Hf]. destruct w as [d p f c e l sc]. simpl in *. subst.
  unfold insert_process_instance. run. reflexivity.
Qed.

(** C9: in a healthy world, insert_process_instance (recordStart) upserts
    by key: whatever description the key had, it now has the freshly
    built one, and no other key changes.  update_process_instance_completion
    (recordCompletion) writes back the existing description followed by
    [, Ended: <timestamp>, Status: <status>]; when the key has no row it
    returns normally, changes no table and logs nothing. *)
Theorem process_instance_tracker (key : Z)
    (operation_type container_id transportation_id : value)
    (final_status : string) (w : World) :
  healthy w →
  (∃ w1,
     insert_process_instance key operation_type container_id transportation_id w
       = (Return true, w1)
     ∧ process_instance (db w1) !! key
       = Some (start_description (clock w (elapsed w)) operation_type
                 container_id transportation_id)
     ∧ ∀ k, k ≠ key →
         process_instance (db w1) !! k = process_instance (db w) !! k)
  ∧ (∀ existing_desc,
       process_instance (db w) !! key = Some existing_desc →
       ∃ w2,
         update_process_instance_completion key final_status w = (Return true, w2)
         ∧ process_instance (db w2) !! key
           = Some (existing_desc +:+ ", Ended: "
                   +:+ strftime (clock w (elapsed w))
                   +:+ ", Status: " +:+ final_status)
         ∧ ∀ k, k ≠ key →
             process_instance (db w2) !! k = process_instance (db w) !! k)
  ∧ (process_instance (db w) !! key = None →
     ∃ w2,
       update_process_instance_completion key final_status w = (Return true, w2)
       ∧ db w2 = db w ∧ log w2 = log w).
Proof.
  intros Hw. split; [|split].
  - eexists. split; [by apply insert_process_instance_healthy|].
    simpl. split.
    + apply lookup_insert_eq.
    + intros k Hk. by apply lookup_insert_ne.
  - intros existing_desc Hrow. destruct Hw as [Hp Hf].
    destruct w as [d p f c e l sc]. simpl in *. subst.
    unfold update_process_instance_completion. run. rewrite Hrow. simpl.
    eexists. split; [reflexivity|]. simpl. split.
    + apply lookup_insert_eq.
    + intros k Hk. by apply lookup_insert_ne.
  - intros Hrow. destruct Hw as [Hp Hf].
    destruct w as [d p f c e l sc]. simpl in *. subst.
    unfold update_process_instance_completion. run. rewrite Hrow. simpl.
    eexists. split; [reflexivity|]. by simpl.
Qed.

(** *** get_container *)

(** [get_container] absorbs every exception: it always returns, and it
    never writes a table. *)
Lemma get_container_returns (container_id : value) (w : World) :
  ∃ r w', get_container container_id w = (Return r, w') ∧ db w' = db w
          ∧ store_calls w' = store_calls w ++ [Call_get_container container_id].
Proof.
  destruct w as [d p f c e l sc]. unfold get_container. run.
  destruct p; simpl; [|by eauto].
  destruct f as [|[] f]; simpl; [| by eauto |];
    destruct container_id; simpl; by eauto.
Qed.

Lemma get_container_read_fails (container_id : value) (w : World) :
  read_fails w →
  ∃ e w', get_container container_id w = (Return None, w') ∧ db w' = db w
          ∧ log w' = log w ++ [Exc ERROR [Lit "Failed to retrieve container: "] e].
Proof.
  destruct w as [d p f c e l sc]. unfold read_fails. simpl.
  intros [Hp | [rest Hf]]; subst; unfold get_container; run; [by eauto|].
  destruct p; simpl; by eauto.
Qed.

Lemma get_container_healthy (c : string) (w : World) :
  healthy w →
  get_container (VStr c) w
  = (Return (select_container (db w) c),
     set_store_calls (store_calls w ++ [Call_get_container (VStr c)]) w).
Proof.
  intros [Hp Hf]. destruct w as [d p f k e l sc]. simpl in *. subst.
  unfold get_container. run. reflexivity.
Qed.

Lemma select_container_absent (s : Store) (c : string) :
  container s !! c = None → select_container s c = None.
Proof. intros H. unfold select_container. by rewrite H. Qed.

Lemma select_container_present (s : Store) (c : string) (row : container_row) :
  container s !! c = Some row →
  ∃ cd, select_container s c = Some cd ∧ cd_weight cd = c_weight row.
Proof. intros H. unfold select_container. rewrite H. eauto. Qed.

Lemma valid_id_not_missing (c : string) : valid_id c → missing (VStr c) = false.
Proof.
  intros [H1 H2]. unfold missing. simpl.
  apply String.eqb_neq in H1, H2. by rewrite H1, H2.
Qed.

Lemma dict_get_Some (variables : gmap string value) (k : string) (v : value) :
  variables !! k = Some v → dict_get variables k = v.
Proof. intros H. unfold dict_get. by rewrite H. Qed.

(** *** What the handlers do with the answer of get_container *)

Lemma handle_weighing_not_found (k : Z) (variables : gmap string value)
    (w w1 : World) :
  let container_id := dict_get variables "containerId" in
  missing container_id = false →
  get_container container_id w = (Return None, w1) →
  ∃ w', handle_weighing k variables w
        = (Raise (Exception (not_found_msg container_id)), w')
        ∧ db w' = db w1.
Proof.
  intros cid Hm Hg. unfold handle_weighing. fold cid. rewrite Hm.
  unfold reraising, try_except, bind at 1. rewrite Hg.
  run. eexists. split; reflexivity.
Qed.

Lemma handle_storage_not_found (k : Z) (variables : gmap string value)
    (w w1 : World) :
  let container_id := dict_get variables "containerId" in
  missing container_id = false →
  get_container container_id w = (Return None, w1) →
  ∃ w', handle_storage k variables w
        = (Raise (Exception (not_found_msg container_id)), w')
        ∧ db w' = db w1.
Proof.
  intros cid Hm Hg. unfold handle_storage. fold cid. rewrite Hm.
  unfold reraising, try_except, bind at 1. rewrite Hg.
  run. eexists. split; reflexivity.
Qed.

Lemma handle_crane_loading_not_found (k : Z) (variables : gmap string value)
    (w w1 : World) :
  let container_id := dict_get variables "containerId" in
  missing container_id = false →
  missing (dict_get variables "transportationId") = false →
  get_container container_id w = (Return None, w1) →
  ∃ w', handle_crane_loading k variables w
        = (Return (crane_loading_result variables
                     (strftime (clock w1 (elapsed w1 + 10)))), w')
        ∧ db w' = db w1
        ∧ log w' = log w1 ++ [may_be_created_later "    " container_id].
Proof.
  intros cid Hm Ht Hg. unfold handle_crane_loading. fold cid. rewrite Hm, Ht.
  unfold reraising, try_except, bind at 1. rewrite Hg.
  destruct w1 as [d p f c e l sc]. run.
  replace (e + 2 + 2 + 2 + 2 + 2) with (e + 10) by lia.
  eexists. split; [reflexivity|]. split; reflexivity.
Qed.

Lemma handle_crane_unloading_not_found (k : Z) (variables : gmap string value)
    (w w1 : World) :
  let container_id := dict_get variables "containerId" in
  missing container_id = false →
  missing (dict_get variables "transportationId") = false →
  get_container container_id w = (Return None, w1) →
  ∃ w', handle_crane_unloading k variables w
        = (Return (crane_unloading_result variables
                     (strftime (clock w1 (elapsed w1 + 10)))), w')
        ∧ db w' = db w1
        ∧ log w' = log w1 ++ [may_be_created_later "  " container_id].
Proof.
  intros cid Hm Ht Hg. unfold handle_crane_unloading. fold cid. rewrite Hm, Ht.
  unfold reraising, try_except, bind at 1. rewrite Hg.
  destruct w1 as [d p f c e l sc]. run.
  replace (e + 2 + 2 + 2 + 2 + 2) with (e + 10) by lia.
  eexists. split; [reflexivity|]. split; reflexivity.
Qed.

(** C6: when the referenced container is absent from a healthy store,
    handle_weighing and handle_storage raise (the job is aborted) and write
    nothing, while handle_crane_loading and handle_crane_unloading log one
    warning and return their merged variable set. *)
Theorem absent_container_fatal_or_warning (k : Z)
    (variables : gmap string value) (c : string) (w : World) :
  variables !! "containerId" = Some (VStr c) →
  valid_id c →
  healthy w →
  container (db w) !! c = None →
  (∃ w', handle_weighing k variables w
         = (Raise (Exception (not_found_msg (VStr c))), w') ∧ db w' = db w)
  ∧ (∃ w', handle_storage k variables w
           = (Raise (Exception (not_found_msg (VStr c))), w') ∧ db w' = db w)
  ∧ (missing (dict_get variables "transportationId") = false →
     (∃ ts w', handle_crane_loading k variables w
               = (Return (crane_loading_result variables ts), w')
               ∧ db w' = db w
               ∧ log w' = log w ++ [may_be_created_later "    " (VStr c)])
     ∧ (∃ ts w', handle_crane_unloading k variables w
                 = (Return (crane_unloading_result variables ts), w')
                 ∧ db w' = db w
                 ∧ log w' = log w ++ [may_be_created_later "  " (VStr c)])).
Proof.
  intros Hc Hv Hw Habs.
  pose proof (dict_get_Some _ _ _ Hc) as Hcid.
  pose proof (valid_id_not_missing _ Hv) as Hm.
  pose proof (get_container_healthy c w Hw) as Hg.
  rewrite (select_container_absent _ _ Habs) in Hg.
  rewrite <- Hcid in Hm, Hg.
  split; [|split; [|intros Ht; split]].
  - edestruct (handle_weighing_not_found k variables w) as (w' & He & Hd);
      [exact Hm | exact Hg |].
    rewrite Hcid in He. eexists; split; [exact He | exact Hd].
  - edestruct (handle_storage_not_found k variables w) as (w' & He & Hd);
      [exact Hm | exact Hg |].
    rewrite Hcid in He. eexists; split; [exact He | exact Hd].
  - edestruct (handle_crane_loading_not_found k variables w)
      as (w' & He & Hd & Hl); [exact Hm | exact Ht | exact Hg |].
    rewrite Hcid in Hl. do 2 eexists. split; [exact He|]. split; [exact Hd | exact Hl].
  - edestruct (handle_crane_unloading_not_found k variables w)
      as (w' & He & Hd & Hl); [exact Hm | exact Ht | exact Hg |].
    rewrite Hcid in Hl. do 2 eexists. split; [exact He|]. split; [exact Hd | exact Hl].
Qed.

(** C10: get_container never raises; it returns None when the row is
    absent and also when the read itself fails.  On a read failure the
    weighing and storage handlers therefore abort with the very not-found
    exception, while the crane handlers log the warning and return. *)
Theorem read_failure_looks_like_absent (k : Z)
    (variables : gmap string value) (c : string) (w : World) :
  variables !! "containerId" = Some (VStr c) →
  valid_id c →
  read_fails w →
  (∀ v w0, ∃ r w', get_container v w0 = (Return r, w'))
  ∧ (∀ w0, healthy w0 → container (db w0) !! c = None →
           fst (get_container (VStr c) w0) = Return None)
  ∧ fst (get_container (VStr c) w) = Return None
  ∧ (∃ w', handle_weighing k variables w
           = (Raise (Exception (not_found_msg (VStr c))), w'))
  ∧ (∃ w', handle_storage k variables w
           = (Raise (Exception (not_found_msg (VStr c))), w'))
  ∧ (missing (dict_get variables "transportationId") = false →
     (∃ ts e w', handle_crane_loading k variables w
                 = (Return (crane_loading_result variables ts), w')
                 ∧ log w' = log w
                     ++ [Exc ERROR [Lit "Failed to retrieve container: "] e;
                         may_be_created_later "    " (VStr c)])
     ∧ (∃ ts e w', handle_crane_unloading k variables w
                   = (Return (crane_unloading_result variables ts), w')
                   ∧ log w' = log w
                       ++ [Exc ERROR [Lit "Failed to retrieve container: "] e;
                           may_be_created_later "  " (VStr c)])).
Proof.
  intros Hc Hv Hf.
  pose proof (dict_get_Some _ _ _ Hc) as Hcid.
  pose proof (valid_id_not_missing _ Hv) as Hm.
  destruct (get_container_read_fails (VStr c) w Hf) as (e & w1 & Hg & Hd & Hl).
  split; [|split; [|split; [|split; [|split]]]].
  - intros v w0. destruct (get_container_returns v w0) as (r & w' & H & _).
    eauto.
  - intros w0 Hw0 Habs. rewrite (get_container_healthy c w0 Hw0).
    simpl. by rewrite (select_container_absent _ _ Habs).
  - by rewrite Hg.
  - rewrite <- Hcid in Hm, Hg.
    edestruct (handle_weighing_not_found k variables w) as (w' & He & _);
      [exact Hm | exact Hg |].
    rewrite Hcid in He. eauto.
  - rewrite <- Hcid in Hm, Hg.
    edestruct (handle_storage_not_found k variables w) as (w' & He & _);
      [exact Hm | exact Hg |].
    rewrite Hcid in He. eauto.
  - intros Ht. rewrite <- Hcid in Hm, Hg. split.
    + edestruct (handle_crane_loading_not_found k variables w)
        as (w' & He & _ & Hl'); [exact Hm | exact Ht | exact Hg |].
      rewrite Hcid, Hl, <- app_assoc in Hl'. simpl in Hl'. eauto 6.
    + edestruct (handle_crane_unloading_not_found k variables w)
        as (w' & He & _ & Hl'); [exact Hm | exact Ht | exact Hg |].
      rewrite Hcid, Hl, <- app_assoc in Hl'. simpl in Hl'. eauto 6.
Qed.

(** *** Which handlers leave the tables alone *)

Lemma preserves_get_container (S : relation Store) `{!PreOrder S}
    (container_id : value) :
  preserves (on_db S) (get_container container_id).
Proof.
  intros w. destruct (get_container_returns container_id w) as (r & w' & H & Hd & _).
  rewrite H. simpl. by apply on_db_same.
Qed.

Ltac frame_step :=
  first
    [ apply preserves_ret | apply preserves_raise | apply preserves_get
    | apply preserves_logger_warning | apply preserves_logger_error
    | apply preserves_logger_error_exc | apply preserves_sleep
    | apply preserves_entered | apply preserves_now_strftime
    | apply preserves_get_connection | apply preserves_cursor_execute
    | apply preserves_key_param | apply preserves_timestamp_param
    | apply preserves_startswith_truck | apply preserves_get_container
    | apply preserves_bind
    | apply preserves_try_except
    | match goal with
      | |- PreOrder _ => apply _
      | |- ∀ _, _ => intros ?
      | |- preserves _ (if ?b then _ else _) => destruct b
      | |- preserves _ (match ?x with _ => _ end) => destruct x
      end ].

Ltac frame := repeat frame_step.

Lemma handle_weighing_never_writes (k : Z) (variables : gmap string value) :
  preserves (on_db eq) (handle_weighing k variables).
Proof. unfold handle_weighing, reraising. cbv zeta. frame. Qed.

Lemma handle_crane_loading_never_writes (k : Z) (variables : gmap string value) :
  preserves (on_db eq) (handle_crane_loading k variables).
Proof. unfold handle_crane_loading, reraising. cbv zeta. frame. Qed.

Lemma handle_crane_unloading_never_writes (k : Z) (variables : gmap string value) :
  preserves (on_db eq) (handle_crane_unloading k variables).
Proof. unfold handle_crane_unloading, reraising. cbv zeta. frame. Qed.

Lemma handle_weighing_healthy (k : Z) (variables : gmap string value)
    (c : string) (row : container_row) (wt : Q) (w : World) :
  variables !! "containerId" = Some (VStr c) →
  valid_id c →
  healthy w →
  container (db w) !! c = Some row →
  c_weight row = Some wt →
  ∃ out w',
    handle_weighing k variables w = (Return out, w')
    ∧ out !! "weightStatus"
      = Some (VStr (if Qle_bool wt max_weight then "OK" else "OVERWEIGHT"))
    ∧ out !! "weight" = Some (VNum wt)
    ∧ store_calls w' = store_calls w ++ [Call_get_container (VStr c)].
Proof.
  intros Hc Hv Hw Hrow Hwt.
  pose proof (dict_get_Some _ _ _ Hc) as Hcid.
  pose proof (valid_id_not_missing _ Hv) as Hm.
  pose proof (get_container_healthy c w Hw) as Hg.
  destruct (select_container_present _ _ _ Hrow) as (cd & Hcd & Hcw).
  rewrite Hcd in Hg. rewrite Hwt in Hcw.
  unfold handle_weighing. rewrite Hcid, Hm.
  unfold reraising, try_except, bind at 1. rewrite Hg.
  destruct w as [d p f cl e l sc]. run. rewrite Hcw. simpl.
  destruct (Qle_bool wt max_weight) eqn:Hle; simpl;
    do 2 eexists; (split; [reflexivity|]);
    (split; [by simplify_map_eq|]); (split; [by simplify_map_eq | reflexivity]).
Qed.

(** C4: for a job whose container is in a healthy store with weight wt,
    handle_weighing returns weightStatus OK when wt <= 30480 and
    OVERWEIGHT when wt > 30480; its only store call is get_container.
    Whatever the job and the world, handle_weighing leaves every table as
    it found it. *)
Theorem weighing_derives_status_without_writing (k : Z)
    (variables : gmap string value) (c : string) (row : container_row)
    (wt : Q) (w : World) :
  variables !! "containerId" = Some (VStr c) →
  valid_id c →
  healthy w →
  container (db w) !! c = Some row →
  c_weight row = Some wt →
  (∃ out w',
     handle_weighing k variables w = (Return out, w')
     ∧ ((wt <= 30480 # 1)%Q → out !! "weightStatus" = Some (VStr "OK"))
     ∧ ((30480 # 1 < wt)%Q → out !! "weightStatus" = Some (VStr "OVERWEIGHT"))
     ∧ out !! "weight" = Some (VNum wt)
     ∧ store_calls w' = store_calls w ++ [Call_get_container (VStr c)])
  ∧ (∀ k0 variables0 w0, db (snd (handle_weighing k0 variables0 w0)) = db w0).
Proof.
  intros Hc Hv Hw Hrow Hwt. split.
  - destruct (handle_weighing_healthy k variables c row wt w Hc Hv Hw Hrow Hwt)
      as (out & w' & Hh & Hst & Hwgt & Hsc).
    exists out, w'. split; [exact Hh|].
    split; [|split; [|split; [exact Hwgt | exact Hsc]]].
    + intros Hle. apply Qle_bool_iff in Hle. unfold max_weight in Hst.
      by rewrite Hle in Hst.
    + intros Hlt. rewrite Hst. unfold max_weight.
      destruct (Qle_bool wt (30480 # 1)) eqn:Hle; [|done].
      apply Qle_bool_iff in Hle. exfalso. eapply Qlt_not_le; eauto.
  - intros k0 variables0 w0.
    symmetry. apply (handle_weighing_never_writes k0 variables0 w0).
Qed.

(** *** The validation gate *)

Lemma absent_or_sentinel_missing (variables : gmap string value) (f : string) :
  absent_or_sentinel variables f → missing (dict_get variables f) = true.
Proof. unfold dict_get. intros [H | H]; by rewrite H. Qed.

Ltac reject :=
  unfold rejected; run; unfold set_log; simpl; rewrite <- ?app_assoc; simpl;
  do 2 eexists; reflexivity.

Lemma handler_rejects (kind : handler_kind) (k : Z)
    (variables : gmap string value) (f : string) (w : World) :
  In f (required_fields kind) →
  absent_or_sentinel variables f →
  rejected (handler kind k variables w) w.
Proof.
  intros Hin Hbad. apply absent_or_sentinel_missing in Hbad.
  destruct kind; simpl in Hin;
    (destruct Hin as [<- | Hin]; [| try destruct Hin as [<- | []]; try done]);
    unfold handler, handle_crane_loading, handle_crane_unloading,
      handle_weighing, handle_storage, handle_truck_checkin,
      handle_truck_checkout;
    rewrite ?Hbad;
    try (destruct (missing (dict_get variables "containerId")); rewrite ?Hbad);
    reject.
Qed.

Lemma record_process_instance_returns (job : Job) (default_operation : string)
    (w : World) :
  ∃ w1,
    record_process_instance job default_operation w = (Return tt, w1)
    ∧ container (db w1) = container (db w)
    ∧ storage (db w1) = storage (db w)
    ∧ transport_mean (db w1) = transport_mean (db w)
    ∧ store_calls w1
      = store_calls w
        ++ (if (job_process_instance_key job =? 0)%Z then []
            else [Call_insert_process_instance (job_process_instance_key job)]).
Proof.
  unfold record_process_instance.
  destruct (job_process_instance_key job =? 0)%Z; simpl.
  - eexists. split; [reflexivity|]. by rewrite app_nil_r.
  - destruct w as [d p fl c e l sc]. unfold insert_process_instance. run.
    destruct p; simpl; [|by eauto 6].
    destruct fl as [|[] fl]; simpl; by eauto 6.
Qed.

(** C2 (as the code has it): a job with a required variable absent or
    equal to N/A is rejected by its handler with a ValueError before the
    handler makes any store call: the tables, the call trace, the pending
    faults and the clock are as before, no simulated action having run.
    The task wrapper, which the engine calls, has by then recorded the
    process instance: on the rejection path its store calls are exactly
    one insert_process_instance when the job has a process instance key,
    and none otherwise; the container, storage and transport tables are
    untouched. *)
Theorem validation_gate (kind : handler_kind) (job : Job) (f : string)
    (w : World) :
  In f (required_fields kind) →
  absent_or_sentinel (job_variables job) f →
  (∃ msg w',
     handler kind (job_key job) (job_variables job) w
       = (Raise (ValueError msg), w')
     ∧ db w' = db w ∧ store_calls w' = store_calls w
     ∧ faults w' = faults w ∧ elapsed w' = elapsed w)
  ∧ (∃ msg w',
       task kind job w = (Raise (ValueError msg), w')
       ∧ container (db w') = container (db w)
       ∧ storage (db w') = storage (db w)
       ∧ transport_mean (db w') = transport_mean (db w)
       ∧ store_calls w'
         = store_calls w
           ++ (if (job_process_instance_key job =? 0)%Z then []
               else [Call_insert_process_instance
                       (job_process_instance_key job)])).
Proof.
  intros Hin Hbad. split.
  - destruct (handler_rejects kind (job_key job) _ f w Hin Hbad) as (msg & l & H).
    rewrite H. do 2 eexists. split; [reflexivity|]. by simpl.
  - assert (∀ d, ∃ msg w',
              (record_process_instance job d >>
               handler kind (job_key job) (job_variables job)) w
              = (Raise (ValueError msg), w')
              ∧ container (db w') = container (db w)
              ∧ storage (db w') = storage (db w)
              ∧ transport_mean (db w') = transport_mean (db w)
              ∧ store_calls w'
                = store_calls w
                  ++ (if (job_process_instance_key job =? 0)%Z then []
                      else [Call_insert_process_instance
                              (job_process_instance_key job)])) as Hgen.
    { intros d.
      destruct (record_process_instance_returns job d w)
        as (w1 & Hr & Hc & Hs & Ht & Hsc).
      destruct (handler_rejects kind (job_key job) _ f w1 Hin Hbad)
        as (msg & l & H).
      unfold bind. rewrite Hr, H. do 2 eexists. split; [reflexivity|].
      by simpl. }
    destruct kind; simpl; try apply Hgen.
    destruct (Hgen "unknown") as (msg & w' & H & Hrest).
    exists msg, w'. split; [|exact Hrest].
    unfold storage_task. unfold bind in *. simpl in H.
    destruct (record_process_instance job "unknown" w) as [[[]|e] w1];
      [|done].
    by rewrite H.
Qed.

(** *** Storage status *)

#[global] Instance complete_is_kept_preorder : PreOrder complete_is_kept.
Proof.
  split.
  - intros s sid. split; [done | by left].
  - intros s1 s2 s3 H12 H23 sid.
    destruct (H12 sid) as [Ha Hb]. destruct (H23 sid) as [Hc Hd]. split.
    + intros r Hr Hst. apply Hc; [by apply Ha | done].
    + intros r' Hr'. destruct (Hd r' Hr') as [H2 | ?]; [|by right].
      by apply Hb.
Qed.

Lemma preserves_update_storage_status_complete (container_id : value) :
  preserves (on_db complete_is_kept)
    (update_storage_status container_id "complete").
Proof.
  unfold update_storage_status. frame. cbv zeta. frame.
  apply preserves_modify. intros w. unfold on_db, complete_is_kept, set_storage. simpl.
  match goal with key : option string |- _ => rename key into k end.
  intros sid. rewrite lookup_fmap. split.
  - intros r Hr Hst. rewrite Hr. simpl. destruct k as [cid|]; [|done].
    destruct (s_container_id r =? cid)%string; [|done].
    destruct r as [c st]. simpl in *. by rewrite Hst.
  - intros r' Hr'. destruct (storage (db w) !! sid) as [r|] eqn:Hr; [|done].
    simpl in Hr'. destruct k as [cid|]; [|left; congruence].
    destruct (s_container_id r =? cid)%string; [|left; congruence].
    right. by inversion Hr'.
Qed.

(** In a healthy store the update reports success as soon as one storage
    row belongs to the container, and that row then has the new status;
    over a row that already has it, the row stays as it was. *)
Lemma update_storage_status_hit (c storage_status : string) (w : World)
    (sid : Z) (r : storage_row) :
  healthy w →
  storage (db w) !! sid = Some r →
  s_container_id r = c →
  ∃ w', update_storage_status (VStr c) storage_status w = (Return true, w')
        ∧ storage (db w') !! sid = Some (mkStorage c (Some storage_status)).
Proof.
  intros [Hp Hf] Hr Hc. destruct w as [d p f cl e l sc]. simpl in *. subst p f.
  unfold update_storage_status. run.
  assert (In (sid, r)
            (List.filter (fun kv => (s_container_id kv.2 =? c)%string)
               (map_to_list (storage d)))) as Hin.
  { apply filter_In. split.
    - apply list_elem_of_In. by apply elem_of_map_to_list.
    - simpl. by apply String.eqb_eq. }
  destruct (List.filter _ (map_to_list (storage d))) as [|kv rest];
    [by destruct Hin|].
  simpl. eexists. split; [reflexivity|]. simpl.
  rewrite lookup_fmap, Hr. simpl.
  apply String.eqb_eq in Hc. rewrite Hc. apply String.eqb_eq in Hc.
  by rewrite Hc.
Qed.

Lemma preserves_handle_storage (k : Z) (variables : gmap string value) :
  preserves (on_db complete_is_kept) (handle_storage k variables).
Proof.
  unfold handle_storage, reraising. cbv zeta.
  repeat first [apply preserves_update_storage_status_complete | frame_step].
Qed.

(** C3: over every sequence of storage-handler invocations (any job
    keys, any variables, any store faults on the way) a storage row whose
    status is complete stays exactly as it is, and every storage row of
    the resulting store is either untouched or complete: the only status
    the handler ever writes is complete, and writing it over complete
    changes nothing. *)
Theorem storage_complete_is_terminal (jobs : list (Z * gmap string value))
    (w : World) (sid : Z) :
  (∀ r, storage (db w) !! sid = Some r →
        s_storage_status r = Some "complete" →
        storage (db (run_storage_handlers jobs w)) !! sid = Some r)
  ∧ (∀ r', storage (db (run_storage_handlers jobs w)) !! sid = Some r' →
           storage (db w) !! sid = Some r'
           ∨ s_storage_status r' = Some "complete").
Proof.
  assert (on_db complete_is_kept w (run_storage_handlers jobs w)) as H.
  { revert w. induction jobs as [|[k variables] jobs IH]; intros w.
    - simpl. reflexivity.
    - simpl. etransitivity; [apply (preserves_handle_storage k variables w)|].
      apply IH. }
  apply H.
Qed.

(** *** Truck timestamps *)

Lemma prefix_truck_valid (t : string) :
  String.prefix "truck" t = true → valid_id t.
Proof. intros H. split; intros ->; discriminate H. Qed.

(** The check-in update: [check_out] is not supplied. *)
Lemma update_transport_timestamps_check_in (t : string) (stamp : value)
    (w : World) :
  is_not_None stamp = true →
  ∃ b w',
    update_transport_timestamps (VStr t) stamp VNone w = (Return b, w')
    ∧ store_calls w'
      = store_calls w ++ [Call_update_transport_timestamps (VStr t) stamp VNone]
    ∧ elapsed w' = elapsed w ∧ clock w' = clock w
    ∧ container (db w') = container (db w)
    ∧ storage (db w') = storage (db w)
    ∧ process_instance (db w') = process_instance (db w)
    ∧ (∀ tid r, transport_mean (db w) !! tid = Some r →
         ∃ r', transport_mean (db w') !! tid = Some r'
               ∧ t_check_out r' = t_check_out r
               ∧ (tid ≠ t → r' = r))
    ∧ (healthy w → ∀ d r,
         pg_timestamp stamp = Some d →
         transport_mean (db w) !! t = Some r →
         b = true
         ∧ transport_mean (db w') !! t
           = Some (mkTransport (t_container_id r) (t_storage_id r) (Some d)
                     (t_check_out r))).
Proof using pg_timestamp.
  clear py_str strptime float_of.
  intros Hs. destruct w as [d p f c e l sc].
  unfold update_transport_timestamps, healthy. rewrite Hs.
  unfold timestamp_param. run.
  assert (∀ tid r, transport_mean d !! tid = Some r →
            ∃ r', transport_mean d !! tid = Some r'
                  ∧ t_check_out r' = t_check_out r ∧ (tid ≠ t → r' = r))
    as Hsame by eauto.
  destruct p; simpl;
    [| do 2 eexists; split; [reflexivity|]; simpl;
       repeat split; eauto; intuition congruence ].
  destruct f as [|[] f]; simpl.
  2:{ do 2 eexists. split; [reflexivity|]. simpl.
      repeat split; eauto; intuition congruence. }
  all: destruct (pg_timestamp stamp) as [dt|] eqn:Hpg; simpl;
    [| do 2 eexists; split; [reflexivity|]; simpl;
       repeat split; eauto; intuition congruence ].
  all: destruct (transport_mean d !! t) as [row|] eqn:Hrow; simpl;
    [| do 2 eexists; split; [reflexivity|]; simpl;
       repeat split; eauto; intuition congruence ].
  all: do 2 eexists; split; [reflexivity|]; simpl.
  all: do 6 (split; [reflexivity|]).
  all: split;
    [ intros tid r Hr; destruct (decide (tid = t)) as [->|Hne];
      [ rewrite lookup_insert_eq; rewrite Hrow in Hr; inversion Hr; subst;
        eexists; split; [reflexivity|]; split; [reflexivity|]; done
      | rewrite lookup_insert_ne by done; eauto ]
    | intros Hh d0 r Hd Hr; inversion Hd; inversion Hr; subst;
      split; [reflexivity | apply lookup_insert_eq] ].
Qed.

(** C7: when the job variables carry a check-in time, handle_truck_checkin
    hands exactly that value to the store; otherwise it hands the
    timestamp minted from the clock on entry.  The update it issues
    supplies check_in only: every transport row keeps its check_out, rows
    of other transports are untouched, and in a healthy store the truck's
    row gets the store's reading of that value as its check_in. *)
Theorem truck_checkin_partial_update (k : Z) (variables : gmap string value)
    (c t : string) (w : World) :
  variables !! "containerId" = Some (VStr c) →
  valid_id c →
  variables !! "transportationId" = Some (VStr t) →
  String.prefix "truck" t = true →
  let check_in := dict_get variables "checkIn" in
  let stamp :=
    if truthy check_in then check_in
    else VStr (strftime (clock w (elapsed w))) in
  ∃ out w',
    handle_truck_checkin k variables w = (Return out, w')
    ∧ store_calls w'
      = store_calls w ++ [Call_update_transport_timestamps (VStr t) stamp VNone]
    ∧ out !! "checkIn" = Some stamp
    ∧ (∀ tid r, transport_mean (db w) !! tid = Some r →
         ∃ r', transport_mean (db w') !! tid = Some r'
               ∧ t_check_out r' = t_check_out r
               ∧ (tid ≠ t → r' = r))
    ∧ (healthy w → ∀ d r,
         pg_timestamp stamp = Some d →
         transport_mean (db w) !! t = Some r →
         transport_mean (db w') !! t
         = Some (mkTransport (t_container_id r) (t_storage_id r) (Some d)
                   (t_check_out r))).
Proof using pg_timestamp.
  intros Hc Hv Ht Hp check_in stamp.
  pose proof (dict_get_Some _ _ _ Hc) as Hcid.
  pose proof (dict_get_Some _ _ _ Ht) as Htid.
  pose proof (valid_id_not_missing _ Hv) as Hm.
  pose proof (valid_id_not_missing _ (prefix_truck_valid _ Hp)) as Hmt.
  assert (is_not_None stamp = true) as Hstamp.
  { unfold stamp. destruct (truthy check_in) eqn:E; [|done].
    by destruct check_in. }
  destruct w as [d p f cl e l sc].
  destruct (update_transport_timestamps_check_in t stamp
              (mkWorld d p f cl (e + 1 + 1) l sc) Hstamp)
    as (b & w2 & Hu & Hsc & He & Hcl & _ & _ & _ & Hrows & Hok).
  simpl in Hsc, Hrows, Hok.
  assert (∃ w', handle_truck_checkin k variables (mkWorld d p f cl e l sc)
                = (Return (dict_literal variables
                     [("checkIn", stamp);
                      ("truckCheckInStatus", VStr "completed");
                      ("truckCheckInOperator", VStr "GATE-OP-001");
                      ("containerId", VStr c);
                      ("transportationId", VStr t);
                      ("operationType",
                       dict_get_default variables "operationType"
                         (VStr "unknown"))]), w')
                ∧ store_calls w' = store_calls w2
                ∧ db w' = db w2) as (w' & Hh & Hsc' & Hdb).
  { unfold handle_truck_checkin. rewrite Hcid, Htid, Hm, Hmt.
    unfold startswith_truck, reraising. fold check_in.
    subst stamp. simpl in Hu.
    destruct (truthy check_in) eqn:Etr; run; rewrite Hp; simpl;
      unfold set_elapsed; simpl; rewrite Hu;
      destruct b; simpl; eexists; (split; [reflexivity|]); by simpl. }
  eexists. exists w'. split; [exact Hh|]. rewrite Hsc', Hdb.
  split; [exact Hsc|]. split; [by simplify_map_eq|]. split.
  - exact Hrows.
  - intros Hw dt r Hd Hr. by apply Hok.
Qed.

(** *** The merged variable set *)

Lemma returns_ret {A} (P : A → Prop) (a : A) : P a → returns P (ret a).
Proof. intros H w a' w' E. by inversion E; subst. Qed.

Lemma returns_raise {A} (P : A → Prop) (e : exn) : returns P (raise e).
Proof. intros w a' w' E. inversion E. Qed.

Lemma returns_bind {A B} (P : B → Prop) (m : M A) (k : A → M B) :
  (∀ a, returns P (k a)) → returns P (bind m k).
Proof.
  intros Hk w b w' E. unfold bind in E.
  destruct (m w) as [[a|e] w1]; [by eapply Hk | inversion E].
Qed.

Lemma returns_try_except {A} (P : A → Prop) (m : M A) (h : exn → M A) :
  returns P m → (∀ e, returns P (h e)) → returns P (try_except m h).
Proof.
  intros Hm Hh w a w' E. unfold try_except in E.
  destruct (m w) as [[a0|e] w1] eqn:Em.
  - inversion E; subst. by eapply Hm.
  - by eapply Hh.
Qed.

Ltac returns_step :=
  first
    [ apply returns_raise
    | apply returns_bind; intros ?
    | apply returns_try_except; [| intros ?]
    | match goal with
      | |- returns _ (if ?b then _ else _) => destruct b
      | |- returns _ (match ?x with _ => _ end) => destruct x
      end ].

Lemma dict_literal_app (m : gmap string value) (l1 l2 : list (string * value)) :
  dict_literal m (l1 ++ l2) = dict_literal (dict_literal m l1) l2.
Proof. unfold dict_literal. apply fold_left_app. Qed.

Lemma dict_literal_lookup_notin (items : list (string * value))
    (m : gmap string value) (k : string) :
  k ∉ map fst items → dict_literal m items !! k = m !! k.
Proof.
  revert m. induction items as [|[k0 v0] items IH]; intros m Hk; [done|].
  simpl in *. apply not_elem_of_cons in Hk as [Hne Hk].
  unfold dict_literal in *. simpl. rewrite IH by done.
  by apply lookup_insert_ne.
Qed.

Lemma dict_literal_is_Some (items : list (string * value))
    (m : gmap string value) (k : string) :
  is_Some (m !! k) → is_Some (dict_literal m items !! k).
Proof.
  revert m. induction items as [|[k0 v0] items IH]; intros m Hk; [done|].
  unfold dict_literal in *. simpl. apply IH.
  destruct (decide (k0 = k)) as [->|Hne].
  - rewrite lookup_insert_eq. eauto.
  - by rewrite lookup_insert_ne.
Qed.

Lemma handler_returns_merged (kind : handler_kind) (k : Z)
    (variables : gmap string value) :
  returns (merged kind variables) (handler kind k variables).
Proof.
  destruct kind; simpl;
    unfold handle_crane_loading, handle_crane_unloading, handle_weighing,
      handle_storage, handle_truck_checkin, handle_truck_checkout, reraising;
    cbv zeta; repeat returns_step;
    apply returns_ret; unfold merged, routing_items; simpl;
    first [ eexists [(_, _); (_, _); (_, _)]; split; reflexivity
          | eexists [(_, _); (_, _); (_, _); (_, _)]; split; reflexivity
          | eexists [(_, _); (_, _); (_, _); (_, _); (_, _); (_, _); (_, _)];
            split; reflexivity ].
Qed.

Lemma update_storage_status_returns (container_id : value)
    (storage_status : string) (w : World) :
  ∃ b w', update_storage_status container_id storage_status w = (Return b, w').
Proof.
  destruct w as [d p f c e l sc]. unfold update_storage_status. run.
  destruct p; simpl; [|by eauto].
  destruct f as [|[] f]; simpl; [| by eauto |];
    destruct container_id; simpl; eauto;
    match goal with
    | |- context [if ?b then _ else _] => destruct b; simpl; eauto
    end.
Qed.

Lemma update_transport_timestamps_returns (transportation_id : value)
    (check_in check_out : value) (w : World) :
  ∃ b w',
    update_transport_timestamps transportation_id check_in check_out w
    = (Return b, w').
Proof.
  destruct w as [d p f c e l sc].
  unfold update_transport_timestamps, timestamp_param. run.
  destruct p; simpl; [|by eauto].
  destruct (is_not_None check_in), (is_not_None check_out); simpl;
    [ | | | by eauto ];
    (destruct f as [|[] f]; simpl; [| by eauto |]);
    repeat match goal with
           | |- context [pg_timestamp ?v] => destruct (pg_timestamp v); simpl
           end; eauto;
    destruct transportation_id; simpl; eauto;
    match goal with
    | |- context [transport_mean d !! ?s] =>
        destruct (transport_mean d !! s); simpl; eauto
    end.
Qed.

(** Replace every store call met while evaluating by its result. *)
Ltac store_calls_return :=
  repeat match goal with
         | |- context [get_container ?a ?w] =>
             let H := fresh in
             destruct (get_container_returns a w) as (? & ? & H & _);
             rewrite H; clear H; simpl
         | |- context [update_storage_status ?a ?b ?w] =>
             let H := fresh in
             destruct (update_storage_status_returns a b w) as (? & ? & H);
             rewrite H; clear H; simpl
         | |- context [update_transport_timestamps ?a ?b ?c ?w] =>
             let H := fresh in
             destruct (update_transport_timestamps_returns a b c w)
               as (? & ? & H);
             rewrite H; clear H; simpl
         | |- context [match ?x with Some _ => _ | None => _ end] =>
             destruct x; simpl
         | |- context [if ?b then _ else _] => destruct b; simpl
         end.

Lemma handler_ready_returns (kind : handler_kind) (k : Z)
    (variables : gmap string value) (w : World) :
  handler_ready kind variables w →
  ∃ out w', handler kind k variables w = (Return out, w').
Proof.
  intros [Hm Hk]. destruct kind; simpl in *.
  - unfold handle_crane_loading, reraising. rewrite Hm, Hk.
    run. store_calls_return; eauto.
  - unfold handle_crane_unloading, reraising. rewrite Hm, Hk.
    run. store_calls_return; eauto.
  - destruct Hk as (Hw & c & row & wt & Hc & Hrow & Hwt).
    pose proof (get_container_healthy c w Hw) as Hg.
    destruct (select_container_present _ _ _ Hrow) as (cd & Hcd & Hcw).
    rewrite Hcd in Hg. rewrite Hwt in Hcw.
    unfold handle_weighing, reraising. rewrite Hm, (dict_get_Some _ _ _ Hc).
    run. rewrite Hg. simpl. rewrite Hcw. simpl.
    destruct (Qle_bool wt max_weight); simpl; eauto.
  - destruct Hk as (Hw & c & row & Hc & Hrow).
    pose proof (get_container_healthy c w Hw) as Hg.
    destruct (select_container_present _ _ _ Hrow) as (cd & Hcd & _).
    rewrite Hcd in Hg.
    unfold handle_storage, reraising. rewrite Hm, (dict_get_Some _ _ _ Hc).
    run. rewrite Hg. simpl. store_calls_return; eauto.
  - destruct Hk as (t & Ht & Hp).
    pose proof (valid_id_not_missing _ (prefix_truck_valid _ Hp)) as Hmt.
    unfold handle_truck_checkin, reraising, startswith_truck.
    rewrite Hm, (dict_get_Some _ _ _ Ht), Hmt. run. rewrite Hp. simpl.
    store_calls_return; eauto.
  - destruct Hk as (t & Ht & Hp).
    pose proof (valid_id_not_missing _ (prefix_truck_valid _ Hp)) as Hmt.
    unfold handle_truck_checkout, reraising, startswith_truck.
    rewrite Hm, (dict_get_Some _ _ _ Ht), Hmt. run. rewrite Hp. simpl.
    store_calls_return; eauto.
Qed.

(** C8: every handler, on variables that satisfy its preconditions,
    returns a variable set that contains every key of the input, with the
    input's value for every key that is not one of the handler's own
    result fields, and that contains containerId, transportationId and
    operationType. *)
Theorem handlers_carry_variables_forward (kind : handler_kind) (k : Z)
    (variables : gmap string value) (w : World) :
  handler_ready kind variables w →
  ∃ out w',
    handler kind k variables w = (Return out, w')
    ∧ (∀ key, is_Some (variables !! key) → is_Some (out !! key))
    ∧ (∀ key v, variables !! key = Some v → key ∉ result_fields kind →
                out !! key = Some v)
    ∧ out !! "containerId" = Some (dict_get variables "containerId")
    ∧ out !! "transportationId" = Some (dict_get variables "transportationId")
    ∧ out !! "operationType"
      = Some (dict_get_default variables "operationType"
                (VStr (default_operation kind))).
Proof.
  intros Hready.
  destruct (handler_ready_returns kind k variables w Hready) as (out & w' & Hh).
  exists out, w'. split; [exact Hh|].
  destruct (handler_returns_merged kind k variables w out w' Hh)
    as (items & Hkeys & ->).
  split; [intros key; apply dict_literal_is_Some|].
  rewrite dict_literal_app. unfold routing_items, dict_literal at 1. simpl.
  split; [|by simplify_map_eq].
  intros key v Hv Hnot.
  destruct (decide (key = "operationType")) as [->|H1].
  { rewrite lookup_insert_eq. unfold dict_get_default. by rewrite Hv. }
  rewrite lookup_insert_ne by done.
  destruct (decide (key = "transportationId")) as [->|H2].
  { rewrite lookup_insert_eq. unfold dict_get. by rewrite Hv. }
  rewrite lookup_insert_ne by done.
  destruct (decide (key = "containerId")) as [->|H3].
  { rewrite lookup_insert_eq. unfold dict_get. by rewrite Hv. }
  rewrite lookup_insert_ne by done.
  rewrite dict_literal_lookup_notin; [done | by rewrite Hkeys].
Qed.

(** *** Scenario reconstruction *)

Lemma scenario_step_cases (skipping : string)
    (scs : list (gmap string value)) (row : scenario_row) (w : World) :
  (skipped row = true
   ∧ ∃ w', scenario_step skipping scs row w = (Return scs, w') ∧ db w' = db w)
  ∨ (skipped row = false ∧ r_weight row = None
     ∧ scenario_step skipping scs row w = (Raise TypeError, w))
  ∨ (skipped row = false
     ∧ ∃ sc, emitted row sc
             ∧ scenario_step skipping scs row w = (Return (scs ++ [sc]), w)).
Proof.
  unfold scenario_step. destruct (skipped row) eqn:Hs.
  - left. split; [done|]. run. eauto.
  - right. destruct (r_weight row) as [q|] eqn:Hq; [right | left; by run].
    split; [done|]. unfold emitted. rewrite Hq.
    destruct (String.prefix "truck" (r_transportation_id row)) eqn:Hp.
    + unfold skipped in Hs. rewrite Hp in Hs.
      destruct (r_check_in row) as [d1|], (r_check_out row) as [d2|];
        try discriminate Hs.
      run. eexists. split; [|reflexivity].
      repeat split; try by simplify_map_eq.
      * exists q. split; [done | by simplify_map_eq].
      * exists d1, d2. repeat split; by simplify_map_eq.
    + run. eexists. split; [|reflexivity].
      repeat split; try by simplify_map_eq.
      exists q. split; [done | by simplify_map_eq].
Qed.


(** When no row that passes the rule lacks a weight, the loop returns one
    scenario per passing row, in the order of the rows. *)
Lemma scenario_loop_complete (skipping : string) (rows : list scenario_row) :
  (∀ row, In row rows → skipped row = false → is_Some (r_weight row)) →
  ∀ scs w,
    ∃ new w',
      scenario_loop skipping rows scs w = (Return (scs ++ new), w')
      ∧ Forall2 emitted (List.filter (fun r => negb (skipped r)) rows) new.
Proof.
  induction rows as [|row rows IH]; intros Hw scs w; simpl.
  - exists [], w. rewrite app_nil_r. split; [done | constructor].
  - unfold bind.
    destruct (scenario_step_cases skipping scs row w)
      as [(Hs & w1 & E1 & _) | [(Hs & Hnone & E1) | (Hs & sc & Hem & E1)]];
      rewrite E1, Hs; simpl.
    + apply IH. intros r Hin. apply Hw. by right.
    + destruct (Hw row) as [q Hq]; [by left | done | congruence].
    + destruct (IH (fun r Hin => Hw r (or_intror Hin)) (scs ++ [sc]) w)
        as (new & w' & E & Hall).
      exists (sc :: new), w'. rewrite <- app_assoc in E.
      split; [exact E | by constructor].
Qed.

(** The list the loop returns depends neither on the text of the warning
    nor on the world. *)
Lemma scenario_loop_outcome (rows : list scenario_row) :
  ∀ scs s1 s2 w1 w2,
    fst (scenario_loop s1 rows scs w1) = fst (scenario_loop s2 rows scs w2).
Proof.
  induction rows as [|row rows IH]; intros scs s1 s2 w1 w2; simpl; [done|].
  unfold bind.
  destruct (scenario_step_cases s1 scs row w1)
    as [(Hs & w1' & E1 & _) | [(Hs & Hn & E1) | (Hs & sc & Hem & E1)]];
    destruct (scenario_step_cases s2 scs row w2)
      as [(Hs' & w2' & E2 & _) | [(Hs' & Hn' & E2) | (Hs' & sc' & Hem' & E2)]];
    rewrite E1, E2; try congruence; try apply IH; try done.
  - destruct Hem' as (_ & _ & _ & (q & Hq & _) & _). congruence.
  - destruct Hem as (_ & _ & _ & (q & Hq & _) & _). congruence.
  - assert (sc = sc') as ->; [|apply IH].
    revert E1 E2. unfold scenario_step. rewrite Hs.
    destruct (r_weight row); [|done]. run.
    destruct (String.prefix "truck" (r_transportation_id row));
      [destruct (r_check_in row), (r_check_out row)|]; simpl;
      intros E1 E2; inversion E1 as [H1]; inversion E2 as [H2];
      apply app_inj_tail in H1 as [_ <-]; apply app_inj_tail in H2 as [_ <-];
      reflexivity.
Qed.

(** The rows the query returns: sorted, and a rearrangement of the join. *)
#[global] Instance row_le_total : Total row_le.
Proof.
  intros a b. unfold row_le, row_leb.
  rewrite (String.compare_antisym (r_transportation_id a)).
  destruct (String.compare (r_transportation_id b) (r_transportation_id a));
    simpl; auto.
  apply String.leb_total.
Qed.

Lemma scenario_query_sorted (s : Store) : Sorted row_le (scenario_query s).
Proof. unfold scenario_query. apply (Sorted_merge_sort row_le). Qed.

Lemma scenario_query_join (s : Store) :
  scenario_query s ≡ₚ omap (join_row s) (map_to_list (transport_mean s)).
Proof. unfold scenario_query. apply merge_sort_Permutation. Qed.

(** flow.py: with no fault pending and a weight in every passing row, the
    result is one scenario per passing row of the ordered join. *)
Lemma flow_fetch_workflow_scenarios_complete (w : World) :
  faults w = [] →
  (∀ row, In row (scenario_query (db w)) → skipped row = false →
          is_Some (r_weight row)) →
  ∃ out,
    fst (flow_fetch_workflow_scenarios w) = Return out
    ∧ Forall2 emitted
        (List.filter (fun r => negb (skipped r)) (scenario_query (db w))) out.
Proof.
  intros Hf Hw. unfold flow_fetch_workflow_scenarios.
  destruct w as [d p f c e l sc]. simpl in *. subst f. run.
  destruct (scenario_loop_complete " Skipping " _ Hw [] (mkWorld d p [] c e l sc))
    as (new & w' & E & Hall).
  rewrite E. simpl. eauto.
Qed.

(** start_workflow.py returns at most the first scenario of what flow.py
    returns. *)
Lemma start_workflow_fetches_first_only (w : World) :
  ∃ out,
    fst (flow_fetch_workflow_scenarios w) = Return out
    ∧ fst (start_workflow_fetch_workflow_scenarios w) = Return (firstn 1 out).
Proof.
  unfold flow_fetch_workflow_scenarios, start_workflow_fetch_workflow_scenarios.
  unfold try_except, bind at 1 6.
  destruct (cursor_execute w) as [[[]|e1] w1]; [|run; by eauto].
  unfold bind at 1 5.
  destruct (cursor_execute w1) as [[[]|e2] w2]; [|run; by eauto].
  unfold bind at 1 4, get. unfold bind.
  pose proof (scenario_loop_outcome (scenario_query (db w2)) []
                " Skipping " " Skipping truck " w2 w2) as Hsame.
  destruct (scenario_loop " Skipping " _ [] w2) as [[scs|e3] w3];
    destruct (scenario_loop " Skipping truck " _ [] w2) as [[scs'|e3'] w3'];
    simpl in Hsame; try discriminate Hsame; [|run; by eauto].
  inversion Hsame; subst scs'.
  destruct scs as [|s0 scs]; run; eauto.
Qed.

(** *** The timestamp pattern *)



(** Below it the year is printed short and the shape is lost. *)
Lemma strftime_short_year (d : datetime) :
  year d < 1000 → timestamp_pattern (strftime d) = false.
Proof.
  intros Hy. unfold strftime, year_digits.
  destruct (year d <? 10)%nat eqn:H1;
    [|destruct (year d <? 100)%nat eqn:H2;
      [|destruct (year d <? 1000)%nat eqn:H3;
        [|apply Nat.ltb_ge in H3; lia]]];
    unfold pad2, timestamp_pattern;
    cbv beta iota zeta delta [String.append list_ascii_of_string];
    reflexivity.
Qed.

(** On the fields of a Python datetime the padded digits are the number. *)
Lemma nat_of_digit (n : nat) : nat_of_ascii (digit n) = 48 + n mod 10.
Proof.
  unfold digit. pose proof (Nat.mod_upper_bound n 10 ltac:(lia)).
  apply nat_ascii_embedding. lia.
Qed.

Lemma pad2_reads_back (n : nat) : n < 100 → read_decimal 0 (pad2 n) = n.
Proof.
  intros Hn. unfold pad2. cbv beta iota delta [read_decimal].
  rewrite !nat_of_digit.
  rewrite (Nat.mod_small (n / 10) 10) by (apply Nat.Div0.div_lt_upper_bound; lia).
  pose proof (Nat.div_mod_eq n 10). lia.
Qed.

Lemma pad4_reads_back (n : nat) : n < 100 * 100 → read_decimal 0 (pad4 n) = n.
Proof.
  intros Hn. unfold pad4. cbv beta iota delta [read_decimal].
  rewrite !nat_of_digit.
  rewrite (Nat.mod_small (n / 1000) 10) by (apply Nat.Div0.div_lt_upper_bound; lia).
  pose proof (Nat.div_mod_eq n 10).
  pose proof (Nat.div_mod_eq (n / 10) 10).
  pose proof (Nat.div_mod_eq (n / 10 / 10) 10).
  replace (n / 100) with (n / 10 / 10) in * by (rewrite Nat.Div0.div_div; reflexivity).
  replace (n / 1000) with (n / 10 / 10 / 10) in *
    by (rewrite !Nat.Div0.div_div; reflexivity).
  lia.
Qed.


(** * Further properties of the modelled code *)

(** ** Which tables a store function or a handler can change *)

#[global] Instance keeps_preorder {T} (f : Store → T) : PreOrder (keeps f).
Proof.
  split.
  - intros s. reflexivity.
  - intros a b c H1 H2. unfold keeps in *. congruence.
Qed.

Lemma preserves_insert_process_instance_keeps {T} (f : Store → T)
    (key : Z) (op cid tid : value) :
  (∀ p s, f (set_process_instance p s) = f s) →
  preserves (on_db (keeps f)) (insert_process_instance key op cid tid).
Proof.
  intros Hf. unfold insert_process_instance. frame. cbv zeta. frame.
  apply preserves_modify. intros w. unfold on_db, keeps. simpl. apply Hf.
Qed.

Lemma preserves_update_process_instance_completion_keeps {T} (f : Store → T)
    (key : Z) (final_status : string) :
  (∀ p s, f (set_process_instance p s) = f s) →
  preserves (on_db (keeps f))
    (update_process_instance_completion key final_status).
Proof.
  intros Hf. unfold update_process_instance_completion. frame.
  cbv zeta. frame. cbv zeta. frame.
  apply preserves_modify. intros w. unfold on_db, keeps. simpl. apply Hf.
Qed.

Lemma preserves_update_storage_status_keeps {T} (f : Store → T)
    (container_id : value) (storage_status : string) :
  (∀ t s, f (set_storage t s) = f s) →
  preserves (on_db (keeps f)) (update_storage_status container_id storage_status).
Proof.
  intros Hf. unfold update_storage_status. frame. cbv zeta. frame.
  apply preserves_modify. intros w. unfold on_db, keeps. simpl. apply Hf.
Qed.

Lemma preserves_update_transport_timestamps_keeps {T} (f : Store → T)
    (transportation_id check_in check_out : value) :
  (∀ t s, f (set_transport_mean t s) = f s) →
  preserves (on_db (keeps f))
    (update_transport_timestamps transportation_id check_in check_out).
Proof.
  intros Hf. unfold update_transport_timestamps. frame. cbv zeta.
  repeat first
    [ frame_step
    | match goal with
      | |- preserves _ (let (_, _) := ?x in _) => destruct x
      end ].
  apply preserves_modify. intros w. unfold on_db, keeps. simpl. apply Hf.
Qed.

Ltac frame_writes :=
  repeat first
    [ apply preserves_update_storage_status_keeps; [intros; reflexivity]
    | apply preserves_update_transport_timestamps_keeps; [intros; reflexivity]
    | apply preserves_insert_process_instance_keeps; [intros; reflexivity]
    | apply preserves_update_process_instance_completion_keeps;
      [intros; reflexivity]
    | frame_step ].

Lemma handler_keeps {T} (f : Store → T) (kind : handler_kind) (k : Z)
    (variables : gmap string value) :
  (∀ t s, kind = Storage → f (set_storage t s) = f s) →
  (∀ t s, kind = TruckCheckin ∨ kind = TruckCheckout →
          f (set_transport_mean t s) = f s) →
  preserves (on_db (keeps f)) (handler kind k variables).
Proof.
  intros Hs Ht.
  destruct kind; simpl;
    unfold handle_crane_loading, handle_crane_unloading, handle_weighing,
      handle_storage, handle_truck_checkin, handle_truck_checkout, reraising;
    cbv zeta;
    repeat first
      [ apply preserves_update_storage_status_keeps; [intros; by apply Hs]
      | apply preserves_update_transport_timestamps_keeps;
        [intros; apply Ht; by auto]
      | frame_step ].
Qed.

(** On every path, whatever the job and the world: no handler changes the
    container table or the process instances; only the storage handler
    can change the storage table and only the truck handlers the transport
    table. *)
Theorem handlers_write_only_their_own_table (kind : handler_kind) (k : Z)
    (variables : gmap string value) (w : World) :
  let w' := snd (handler kind k variables w) in
  container (db w') = container (db w)
  ∧ process_instance (db w') = process_instance (db w)
  ∧ (kind ≠ Storage → storage (db w') = storage (db w))
  ∧ (kind ≠ TruckCheckin → kind ≠ TruckCheckout →
     transport_mean (db w') = transport_mean (db w)).
Proof.
  intros w'. subst w'. repeat split.
  - by apply (handler_keeps container kind k variables).
  - by apply (handler_keeps process_instance kind k variables).
  - intros Hk. apply (handler_keeps storage kind k variables); [|done].
    intros t s ->. done.
  - intros H1 H2. apply (handler_keeps transport_mean kind k variables); [done|].
    intros t s [-> | ->]; done.
Qed.

(** ** The store writes are best effort *)

Lemma update_no_hit (cid status : string) (m : gmap Z storage_row) :
  List.filter (fun kv => (s_container_id (snd kv) =? cid)%string)
    (map_to_list m) = [] →
  (fun r => if (s_container_id r =? cid)%string
            then mkStorage (s_container_id r) (Some status) else r) <$> m = m.
Proof.
  intros Hnone. apply map_eq. intros sid. rewrite lookup_fmap.
  destruct (m !! sid) as [r|] eqn:Hr; [|done]. simpl.
  destruct (s_container_id r =? cid)%string eqn:Hc; [|done].
  assert (In (sid, r)
            (List.filter (fun kv => (s_container_id (snd kv) =? cid)%string)
               (map_to_list m))) as Hin.
  { apply filter_In. split; [|done].
    apply list_elem_of_In. by apply elem_of_map_to_list. }
  rewrite Hnone in Hin. destruct Hin.
Qed.

Lemma insert_process_instance_false (key : Z) (op cid tid : value) (w : World) :
  ∃ b w', insert_process_instance key op cid tid w = (Return b, w')
          ∧ (b = false → db w' = db w)
          ∧ (read_fails w → b = false).
Proof.
  destruct w as [d p f c e l sc]. unfold insert_process_instance, read_fails.
  run. destruct p; simpl; [|by eauto 7].
  destruct f as [|[] f]; simpl; do 2 eexists; (split; [reflexivity|]);
    simpl; split; try done; intros [? | [? ?]]; done.
Qed.

Lemma update_process_instance_completion_false (key : Z) (status : string)
    (w : World) :
  ∃ b w', update_process_instance_completion key status w = (Return b, w')
          ∧ (b = false → db w' = db w)
          ∧ (read_fails w → b = false).
Proof.
  destruct w as [d p f c e l sc].
  unfold update_process_instance_completion, read_fails.
  run. destruct p; simpl; [|by eauto 7].
  destruct f as [|[] f]; simpl;
    try (destruct (process_instance d !! key); simpl);
    try (destruct f as [|[] f]; simpl);
    do 2 eexists; (split; [reflexivity|]);
    simpl; split; try done; intros [? | [? ?]]; done.
Qed.

Lemma update_storage_status_false (container_id : value) (status : string)
    (w : World) :
  ∃ b w', update_storage_status container_id status w = (Return b, w')
          ∧ (b = false → db w' = db w)
          ∧ (read_fails w → b = false).
Proof.
  destruct w as [d p f c e l sc]. unfold update_storage_status, read_fails.
  run. destruct p; simpl; [|by eauto 7].
  assert (∀ rest, ¬ ([] = true :: rest)) as Hnil by done.
  destruct f as [|[] f]; simpl;
    [ | do 2 eexists; (split; [reflexivity|]); simpl; split; done | ];
    (destruct container_id; simpl;
     try (do 2 eexists; (split; [reflexivity|]); simpl; split; try done;
          intros [? | [? ?]]; done)).
  all: try match goal with
       | |- context [(0 <? length ?l)%nat] =>
           destruct l eqn:Hl; simpl;
           do 2 eexists; (split; [reflexivity|]); simpl;
           (split; [| intros [? | [? ?]]; done]); try done
       end.
  all: try (intros _; destruct d as [dc ds dt dp]; unfold set_storage; simpl;
            f_equal; first [ by apply update_no_hit
                           | apply map_eq; intros i; rewrite lookup_fmap;
                             by destruct (ds !! i) ]).
Qed.

Lemma update_transport_timestamps_false (tid check_in check_out : value)
    (w : World) :
  ∃ b w', update_transport_timestamps tid check_in check_out w = (Return b, w')
          ∧ (b = false → db w' = db w)
          ∧ (read_fails w → b = false).
Proof using pg_timestamp.
  clear py_str strptime float_of.
  destruct w as [d p f c e l sc].
  unfold update_transport_timestamps, timestamp_param, read_fails. run.
  destruct p; simpl; [|by eauto 7].
  destruct (is_not_None check_in), (is_not_None check_out); simpl;
    [ | | | by eauto 7 ];
    (destruct f as [|[] f]; simpl;
     [ | do 2 eexists; (split; [reflexivity|]); simpl; split; done | ]);
    repeat match goal with
           | |- context [pg_timestamp ?v] => destruct (pg_timestamp v); simpl
           end;
    try (do 2 eexists; (split; [reflexivity|]); simpl; split; try done;
         intros [? | [? ?]]; done);
    destruct tid; simpl;
    try (do 2 eexists; (split; [reflexivity|]); simpl; split; try done;
         intros [? | [? ?]]; done);
    match goal with
    | |- context [transport_mean d !! ?s] =>
        destruct (transport_mean d !! s); simpl
    end;
    do 2 eexists; (split; [reflexivity|]); simpl; split; try done;
    intros [? | [? ?]]; done.
Qed.

(** As long as the pool is missing or no driver call is due to fail, each
    of the four store writes returns a boolean, and when it answers False
    no table has changed: the statement was not reached, was rejected, or
    matched no row. *)
Theorem false_answer_means_nothing_written (w : World) (key : Z)
    (op cid tid check_in check_out : value) (status : string) :
  connection_pool w = false ∨ faults w = [] →
  (∃ b w', insert_process_instance key op cid tid w = (Return b, w')
           ∧ (b = false → db w' = db w))
  ∧ (∃ b w', update_process_instance_completion key status w = (Return b, w')
             ∧ (b = false → db w' = db w))
  ∧ (∃ b w', update_storage_status cid status w = (Return b, w')
             ∧ (b = false → db w' = db w))
  ∧ (∃ b w', update_transport_timestamps tid check_in check_out w
             = (Return b, w')
             ∧ (b = false → db w' = db w)).
Proof.
  intros _. split; [|split; [|split]].
  - destruct (insert_process_instance_false key op cid tid w)
      as (b & w' & H & Hf & _). eauto.
  - destruct (update_process_instance_completion_false key status w)
      as (b & w' & H & Hf & _). eauto.
  - destruct (update_storage_status_false cid status w)
      as (b & w' & H & Hf & _). eauto.
  - destruct (update_transport_timestamps_false tid check_in check_out w)
      as (b & w' & H & Hf & _). eauto.
Qed.

(** When the pool was never initialised, each of the four store writes
    answers False after logging one error: get_connection raises before a
    connection is held, so no statement is sent, no driver call is used up
    and the tables are as they were. *)
Theorem store_writes_fail_softly_without_pool (w : World) (key : Z)
    (op cid tid check_in check_out : value) (status : string) :
  connection_pool w = false →
  (∃ w' item, insert_process_instance key op cid tid w = (Return false, w')
              ∧ db w' = db w ∧ faults w' = faults w
              ∧ log w' = log w ++ [item])
  ∧ (∃ w' item,
       update_process_instance_completion key status w = (Return false, w')
       ∧ db w' = db w ∧ faults w' = faults w ∧ log w' = log w ++ [item])
  ∧ (∃ w' item, update_storage_status cid status w = (Return false, w')
                ∧ db w' = db w ∧ faults w' = faults w
                ∧ log w' = log w ++ [item])
  ∧ (∃ w' item, update_transport_timestamps tid check_in check_out w
                = (Return false, w')
                ∧ db w' = db w ∧ faults w' = faults w
                ∧ log w' = log w ++ [item]).
Proof.
  destruct w as [d p f c e l sc]. simpl. intros ->.
  unfold insert_process_instance, update_process_instance_completion,
    update_storage_status, update_transport_timestamps.
  run. repeat split; do 2 eexists; (split; [reflexivity|]); simpl; eauto.
Qed.

(** ** Truck check-out and the truck test *)

(** The check-out update: [check_in] is not supplied. *)
Lemma update_transport_timestamps_check_out (t : string) (stamp : value)
    (w : World) :
  is_not_None stamp = true →
  ∃ b w',
    update_transport_timestamps (VStr t) VNone stamp w = (Return b, w')
    ∧ store_calls w'
      = store_calls w ++ [Call_update_transport_timestamps (VStr t) VNone stamp]
    ∧ (∀ tid r, transport_mean (db w) !! tid = Some r →
         ∃ r', transport_mean (db w') !! tid = Some r'
               ∧ t_check_in r' = t_check_in r
               ∧ (tid ≠ t → r' = r))
    ∧ (healthy w → ∀ d r,
         pg_timestamp stamp = Some d →
         transport_mean (db w) !! t = Some r →
         b = true
         ∧ transport_mean (db w') !! t
           = Some (mkTransport (t_container_id r) (t_storage_id r)
                     (t_check_in r) (Some d))).
Proof using pg_timestamp.
  clear py_str strptime float_of.
  intros Hs. destruct w as [d p f c e l sc].
  unfold update_transport_timestamps, healthy. rewrite Hs.
  unfold timestamp_param. run.
  assert (∀ tid r, transport_mean d !! tid = Some r →
            ∃ r', transport_mean d !! tid = Some r'
                  ∧ t_check_in r' = t_check_in r ∧ (tid ≠ t → r' = r))
    as Hsame by eauto.
  destruct p; simpl;
    [| do 2 eexists; split; [reflexivity|]; simpl;
       repeat split; eauto; intuition congruence ].
  destruct f as [|[] f]; simpl.
  2:{ do 2 eexists. split; [reflexivity|]. simpl.
      repeat split; eauto; intuition congruence. }
  all: destruct (pg_timestamp stamp) as [dt|] eqn:Hpg; simpl;
    [| do 2 eexists; split; [reflexivity|]; simpl;
       repeat split; eauto; intuition congruence ].
  all: destruct (transport_mean d !! t) as [row|] eqn:Hrow; simpl;
    [| do 2 eexists; split; [reflexivity|]; simpl;
       repeat split; eauto; intuition congruence ].
  all: do 2 eexists; split; [reflexivity|]; simpl.
  all: split; [reflexivity|].
  all: split;
    [ intros tid r Hr; destruct (decide (tid = t)) as [->|Hne];
      [ rewrite lookup_insert_eq; rewrite Hrow in Hr; inversion Hr; subst;
        eexists; split; [reflexivity|]; split; [reflexivity|]; done
      | rewrite lookup_insert_ne by done; eauto ]
    | intros Hh d0 r Hd Hr; inversion Hd; inversion Hr; subst;
      split; [reflexivity | apply lookup_insert_eq] ].
Qed.

(** handle_truck_checkout hands the store the check-out time carried by
    the variables, or one minted from the clock on entry, and supplies
    check_out only: every transport row keeps its check_in, rows of other
    transports are untouched, and in a healthy store the truck's row gets
    the store's reading of that value as its check_out. *)
Theorem truck_checkout_partial_update (k : Z) (variables : gmap string value)
    (c t : string) (w : World) :
  variables !! "containerId" = Some (VStr c) →
  valid_id c →
  variables !! "transportationId" = Some (VStr t) →
  String.prefix "truck" t = true →
  let check_out := dict_get variables "checkOut" in
  let stamp :=
    if truthy check_out then check_out
    else VStr (strftime (clock w (elapsed w))) in
  ∃ out w',
    handle_truck_checkout k variables w = (Return out, w')
    ∧ store_calls w'
      = store_calls w ++ [Call_update_transport_timestamps (VStr t) VNone stamp]
    ∧ out !! "checkOut" = Some stamp
    ∧ (∀ tid r, transport_mean (db w) !! tid = Some r →
         ∃ r', transport_mean (db w') !! tid = Some r'
               ∧ t_check_in r' = t_check_in r
               ∧ (tid ≠ t → r' = r))
    ∧ (healthy w → ∀ d r,
         pg_timestamp stamp = Some d →
         transport_mean (db w) !! t = Some r →
         transport_mean (db w') !! t
         = Some (mkTransport (t_container_id r) (t_storage_id r)
                   (t_check_in r) (Some d))).
Proof using pg_timestamp strptime.
  intros Hc Hv Ht Hp check_out stamp.
  pose proof (dict_get_Some _ _ _ Hc) as Hcid.
  pose proof (dict_get_Some _ _ _ Ht) as Htid.
  pose proof (valid_id_not_missing _ Hv) as Hm.
  pose proof (valid_id_not_missing _ (prefix_truck_valid _ Hp)) as Hmt.
  assert (is_not_None stamp = true) as Hstamp.
  { unfold stamp. destruct (truthy check_out) eqn:E; [|done].
    by destruct check_out. }
  destruct w as [d p f cl e l sc].
  assert (∀ l',
    ∃ b w2,
      update_transport_timestamps (VStr t) VNone stamp
        (mkWorld d p f cl (e + 1 + 1) l' sc) = (Return b, w2)
      ∧ store_calls w2
        = sc ++ [Call_update_transport_timestamps (VStr t) VNone stamp]
      ∧ (∀ tid r, transport_mean d !! tid = Some r →
           ∃ r', transport_mean (db w2) !! tid = Some r'
                 ∧ t_check_in r' = t_check_in r ∧ (tid ≠ t → r' = r))
      ∧ (healthy (mkWorld d p f cl e l sc) → ∀ dt r,
           pg_timestamp stamp = Some dt →
           transport_mean d !! t = Some r →
           transport_mean (db w2) !! t
           = Some (mkTransport (t_container_id r) (t_storage_id r)
                     (t_check_in r) (Some dt)))) as Hupd.
  { intros l'.
    destruct (update_transport_timestamps_check_out t stamp
                (mkWorld d p f cl (e + 1 + 1) l' sc) Hstamp)
      as (b & w2 & Hu & Hsc & Hrows & Hok).
    exists b, w2. split; [exact Hu|]. split; [exact Hsc|].
    split; [exact Hrows|]. intros Hh dt r Hd Hr.
    by apply (Hok Hh dt r Hd Hr). }
  unfold handle_truck_checkout. rewrite Hcid, Htid, Hm, Hmt.
  unfold startswith_truck, reraising. fold check_out.
  subst stamp.
  destruct (truthy check_out) eqn:Etr; run; rewrite Hp; simpl;
    unfold set_elapsed, set_log; simpl;
    repeat match goal with
           | |- context [if ?b then _ else _] =>
               lazymatch b with
               | context [update_transport_timestamps] => fail
               | _ => destruct b; simpl
               end
           end;
    match goal with
    | |- context [update_transport_timestamps _ _ _
                    (mkWorld _ _ _ _ _ ?l' _)] =>
        destruct (Hupd l') as (b & w2 & Hu & Hsc & Hrows & Hok)
    end;
    rewrite Hu; destruct b; simpl;
    do 2 eexists; (split; [reflexivity|]); simpl;
    (split; [exact Hsc|]); (split; [by simplify_map_eq|]);
    (split; [exact Hrows | exact Hok]).
Qed.

(** A truck handler given a transportation id that is a string without the
    truck prefix rejects the job with a ValueError before it sleeps or
    calls the store: the world differs by the error record only. *)
Theorem truck_handlers_reject_other_transports (k : Z)
    (variables : gmap string value) (t : string) (w : World) :
  missing (dict_get variables "containerId") = false →
  variables !! "transportationId" = Some (VStr t) →
  valid_id t →
  String.prefix "truck" t = false →
  rejected (handle_truck_checkin k variables w) w
  ∧ rejected (handle_truck_checkout k variables w) w.
Proof using pg_timestamp strptime.
  intros Hm Ht Hv Hp.
  pose proof (dict_get_Some _ _ _ Ht) as Htid.
  pose proof (valid_id_not_missing _ Hv) as Hmt.
  split; unfold handle_truck_checkin, handle_truck_checkout, startswith_truck;
    rewrite Hm, Htid, Hmt; unfold rejected; run; rewrite Hp; simpl;
    do 2 eexists; reflexivity.
Qed.

(** A truck handler given a transportation id that passes the missing
    test but is not a string (a number, a list) raises AttributeError
    from outside its try block: nothing is logged, slept or written. *)
Theorem truck_handlers_need_a_string_id (k : Z)
    (variables : gmap string value) (v : value) (w : World) :
  missing (dict_get variables "containerId") = false →
  variables !! "transportationId" = Some v →
  missing v = false →
  (∀ s, v ≠ VStr s) →
  handle_truck_checkin k variables w = (Raise AttributeError, w)
  ∧ handle_truck_checkout k variables w = (Raise AttributeError, w).
Proof using pg_timestamp strptime.
  intros Hm Ht Hmv Hns.
  pose proof (dict_get_Some _ _ _ Ht) as Htid.
  split; unfold handle_truck_checkin, handle_truck_checkout, startswith_truck;
    rewrite Hm, Htid, Hmv; destruct v; try done; by destruct (Hns s).
Qed.

(** ** The storage, weighing and crane handlers in a readable store *)

Lemma get_container_keeps_time (container_id : value) (w : World) :
  ∃ r w', get_container container_id w = (Return r, w')
          ∧ clock w' = clock w ∧ elapsed w' = elapsed w ∧ db w' = db w.
Proof.
  destruct w as [d p f c e l sc]. unfold get_container. run.
  destruct p; simpl; [|by eauto 7].
  destruct f as [|[] f]; simpl; [| by eauto 7 |];
    destruct container_id; simpl; by eauto 7.
Qed.

Lemma update_storage_status_healthy (c status : string) (w : World) :
  healthy w →
  let hit := List.filter (fun kv => (s_container_id (snd kv) =? c)%string)
               (map_to_list (storage (db w))) in
  ∃ w',
    update_storage_status (VStr c) status w
    = (Return (0 <? length hit)%nat, w')
    ∧ storage (db w')
      = (fun r => if (s_container_id r =? c)%string
                  then mkStorage (s_container_id r) (Some status) else r)
          <$> storage (db w)
    ∧ store_calls w'
      = store_calls w ++ [Call_update_storage_status (VStr c) status]
    ∧ log w' = log w ++ (if (0 <? length hit)%nat then []
                         else [no_storage_record (VStr c)])
    ∧ elapsed w' = elapsed w ∧ clock w' = clock w ∧ healthy w'
    ∧ container (db w') = container (db w)
    ∧ process_instance (db w') = process_instance (db w).
Proof.
  intros [Hp Hf] hit. destruct w as [d p f cl e l sc]. simpl in *. subst p f.
  unfold update_storage_status. run. fold hit.
  destruct (0 <? length hit)%nat; simpl; eexists;
    (split; [reflexivity|]); simpl; rewrite ?app_nil_r;
    repeat (split; [done|]); done.
Qed.

Lemma handle_storage_healthy (k : Z) (variables : gmap string value)
    (c : string) (row : container_row) (w : World) :
  variables !! "containerId" = Some (VStr c) →
  valid_id c →
  healthy w →
  container (db w) !! c = Some row →
  let hit := List.filter (fun kv => (s_container_id (snd kv) =? c)%string)
               (map_to_list (storage (db w))) in
  ∃ out w',
    handle_storage k variables w = (Return out, w')
    ∧ out !! "storageStatus" = Some (VStr "complete")
    ∧ out !! "storageId" = Some (opt_int (fst <$> List.find
                 (fun kv => (s_container_id (snd kv) =? c)%string)
                 (map_to_list (storage (db w)))))
    ∧ storage (db w')
      = (fun r => if (s_container_id r =? c)%string
                  then mkStorage (s_container_id r) (Some "complete") else r)
          <$> storage (db w)
    ∧ store_calls w'
      = store_calls w ++ [Call_get_container (VStr c);
                          Call_update_storage_status (VStr c) "complete"]
    ∧ log w' = log w ++ (if (0 <? length hit)%nat then []
                         else [no_storage_record (VStr c);
                               update_may_have_failed (VStr c)])
    ∧ healthy w' ∧ clock w' = clock w ∧ elapsed w' = elapsed w + 9
    ∧ container (db w') = container (db w)
    ∧ process_instance (db w') = process_instance (db w).
Proof.
  intros Hc Hv Hw Hrow hit.
  pose proof (dict_get_Some _ _ _ Hc) as Hcid.
  pose proof (valid_id_not_missing _ Hv) as Hm.
  pose proof (get_container_healthy c w Hw) as Hg.
  unfold select_container in Hg. rewrite Hrow in Hg.
  unfold handle_storage. rewrite Hcid, Hm.
  unfold reraising, try_except, bind at 1. rewrite Hg.
  destruct Hw as [Hp Hf]. destruct w as [d p f cl e l sc]. simpl in *.
  subst p f. run. unfold set_elapsed, set_store_calls. simpl.
  match goal with
  | |- context [update_storage_status ?a ?b ?w0] =>
      destruct (update_storage_status_healthy c "complete" w0)
        as (w' & Hu & Hst & Hsc & Hlog & Hel & Hcl & Hhl & Hco & Hpi);
        [by split|]
  end.
  simpl in Hu, Hst, Hsc, Hlog, Hel, Hcl, Hco, Hpi.
  fold hit in Hu, Hlog. rewrite Hu.
  destruct w' as [d' p' f' cl' e' l' sc']. destruct Hhl as [Hp' Hf'].
  simpl in *. subst.
  destruct (0 <? length hit)%nat; simpl;
    do 2 eexists; (split; [reflexivity|]); simpl;
    (split; [by simplify_map_eq|]); (split; [by simplify_map_eq|]);
    (split; [exact Hst|]); rewrite <- ?app_assoc, ?app_nil_r;
    (split; [done|]); (split; [done|]); (split; [by split|]);
    (split; [done|]); (split; [lia|]); done.
Qed.

(** In a healthy store that holds the container, handle_storage returns
    with storageStatus complete after two store calls, get_container and
    update_storage_status(container, complete); afterwards every storage
    row of the container is complete and every other storage row is as it
    was. *)
Theorem handle_storage_completes_the_container (k : Z)
    (variables : gmap string value) (c : string) (row : container_row)
    (w : World) :
  variables !! "containerId" = Some (VStr c) →
  valid_id c →
  healthy w →
  container (db w) !! c = Some row →
  ∃ out w',
    handle_storage k variables w = (Return out, w')
    ∧ out !! "storageStatus" = Some (VStr "complete")
    ∧ store_calls w'
      = store_calls w ++ [Call_get_container (VStr c);
                          Call_update_storage_status (VStr c) "complete"]
    ∧ (∀ sid r, storage (db w) !! sid = Some r →
         storage (db w') !! sid
         = Some (if (s_container_id r =? c)%string
                 then mkStorage c (Some "complete") else r))
    ∧ (∀ sid, storage (db w) !! sid = None → storage (db w') !! sid = None).
Proof.
  intros Hc Hv Hw Hrow.
  destruct (handle_storage_healthy k variables c row w Hc Hv Hw Hrow)
    as (out & w' & Hh & Hst & _ & Hrows & Hsc & _).
  exists out, w'. split; [exact Hh|]. split; [exact Hst|].
  split; [exact Hsc|]. rewrite Hrows. split.
  - intros sid r Hr. rewrite lookup_fmap, Hr. simpl.
    destruct (s_container_id r =? c)%string eqn:E; [|done].
    apply String.eqb_eq in E. by rewrite E.
  - intros sid Hr. by rewrite lookup_fmap, Hr.
Qed.

(** When the container has no storage row the update matches nothing:
    handle_storage logs the two warnings, leaves the storage table as it
    was, and still returns storageStatus complete, with storageId None. *)
Theorem handle_storage_without_a_storage_row (k : Z)
    (variables : gmap string value) (c : string) (row : container_row)
    (w : World) :
  variables !! "containerId" = Some (VStr c) →
  valid_id c →
  healthy w →
  container (db w) !! c = Some row →
  (∀ sid r, storage (db w) !! sid = Some r → s_container_id r ≠ c) →
  ∃ out w',
    handle_storage k variables w = (Return out, w')
    ∧ out !! "storageStatus" = Some (VStr "complete")
    ∧ out !! "storageId" = Some VNone
    ∧ storage (db w') = storage (db w)
    ∧ log w' = log w ++ [no_storage_record (VStr c);
                         update_may_have_failed (VStr c)].
Proof.
  intros Hc Hv Hw Hrow Hnone.
  destruct (handle_storage_healthy k variables c row w Hc Hv Hw Hrow)
    as (out & w' & Hh & Hst & Hid & Hrows & _ & Hlog & _).
  assert (List.filter (fun kv => (s_container_id (snd kv) =? c)%string)
            (map_to_list (storage (db w))) = []) as Hfil.
  { destruct (List.filter _ _) as [|[sid r] rest] eqn:E; [done|].
    assert (In (sid, r) (List.filter
              (fun kv => (s_container_id (snd kv) =? c)%string)
              (map_to_list (storage (db w))))) as Hin
      by (rewrite E; by left).
    apply filter_In in Hin as [Hin Heq]. simpl in Heq.
    apply String.eqb_eq in Heq. apply list_elem_of_In in Hin.
    apply elem_of_map_to_list in Hin. by destruct (Hnone sid r Hin). }
  exists out, w'. split; [exact Hh|]. split; [exact Hst|].
  rewrite Hfil in Hlog. simpl in Hlog.
  split; [|split; [|exact Hlog]].
  - rewrite Hid. f_equal.
    destruct (List.find _ _) as [[sid r]|] eqn:E; [|done].
    apply find_some in E as [Hin Heq]. simpl in Heq.
    apply String.eqb_eq in Heq. apply list_elem_of_In in Hin.
    apply elem_of_map_to_list in Hin. by destruct (Hnone sid r Hin).
  - rewrite Hrows. by apply update_no_hit.
Qed.

(** A container whose weight column is NULL makes handle_weighing fail on
    the comparison: it raises TypeError after logging the error, and
    writes nothing. *)
Theorem weighing_needs_a_weight (k : Z) (variables : gmap string value)
    (c : string) (row : container_row) (w : World) :
  variables !! "containerId" = Some (VStr c) →
  valid_id c →
  healthy w →
  container (db w) !! c = Some row →
  c_weight row = None →
  ∃ w',
    handle_weighing k variables w = (Raise TypeError, w')
    ∧ db w' = db w
    ∧ log w' = log w
        ++ [Exc ERROR [Lit " Error during weighing operation: "] TypeError].
Proof.
  intros Hc Hv Hw Hrow Hwt.
  pose proof (dict_get_Some _ _ _ Hc) as Hcid.
  pose proof (valid_id_not_missing _ Hv) as Hm.
  pose proof (get_container_healthy c w Hw) as Hg.
  destruct (select_container_present _ _ _ Hrow) as (cd & Hcd & Hcw).
  rewrite Hcd in Hg. rewrite Hwt in Hcw.
  unfold handle_weighing. rewrite Hcid, Hm.
  unfold reraising, try_except, bind at 1. rewrite Hg.
  destruct w as [d p f cl e l sc]. run. rewrite Hcw. simpl.
  eexists. split; [reflexivity|]. by simpl.
Qed.

(** The crane handlers do not depend on the store: once the two ids pass
    the validation they return, whether the container is there or the
    read fails, the same variable set, stamped five seconds after entry,
    and they write nothing. *)
Theorem crane_handlers_always_complete (k : Z)
    (variables : gmap string value) (w : World) :
  missing (dict_get variables "containerId") = false →
  missing (dict_get variables "transportationId") = false →
  (∃ w', handle_crane_loading k variables w
         = (Return (crane_loading_result variables
                      (strftime (clock w (elapsed w + 10)))), w')
         ∧ db w' = db w ∧ elapsed w' = elapsed w + 10)
  ∧ (∃ w', handle_crane_unloading k variables w
           = (Return (crane_unloading_result variables
                        (strftime (clock w (elapsed w + 10)))), w')
           ∧ db w' = db w ∧ elapsed w' = elapsed w + 10).
Proof.
  intros Hm Ht.
  destruct (get_container_keeps_time (dict_get variables "containerId") w)
    as (r & w1 & Hg & Hcl & Hel & Hdb).
  split.
  - unfold handle_crane_loading. rewrite Hm, Ht.
    unfold reraising, try_except, bind at 1. rewrite Hg.
    destruct w1 as [d p f c e l sc]. simpl in *. subst.
    destruct r; run;
      replace (elapsed w + 2 + 2 + 2 + 2 + 2) with (elapsed w + 10) by lia;
      eexists; (split; [reflexivity|]); by simpl.
  - unfold handle_crane_unloading. rewrite Hm, Ht.
    unfold reraising, try_except, bind at 1. rewrite Hg.
    destruct w1 as [d p f c e l sc]. simpl in *. subst.
    destruct r; run;
      replace (elapsed w + 2 + 2 + 2 + 2 + 2) with (elapsed w + 10) by lia;
      eexists; (split; [reflexivity|]); by simpl.
Qed.

(** ** The task wrappers and the process-instance record *)

(** The operation type, container and transport a wrapper hands to
    insert_process_instance. *)
Lemma record_process_instance_healthy (job : Job) (d : string) (w : World) :
  healthy w →
  job_process_instance_key job ≠ 0%Z →
  ∃ w1,
    record_process_instance job d w = (Return tt, w1)
    ∧ process_instance (db w1)
      = <[job_process_instance_key job :=
            start_description (clock w (elapsed w))
              (dict_get_default (job_variables job) "operationType" (VStr d))
              (dict_get (job_variables job) "containerId")
              (dict_get (job_variables job) "transportationId")]>
          (process_instance (db w))
    ∧ container (db w1) = container (db w)
    ∧ storage (db w1) = storage (db w)
    ∧ healthy w1 ∧ clock w1 = clock w ∧ elapsed w1 = elapsed w.
Proof.
  intros Hw Hk. unfold record_process_instance.
  apply Z.eqb_neq in Hk. rewrite Hk. simpl. unfold bind.
  rewrite (insert_process_instance_healthy _ _ _ _ w Hw). simpl.
  eexists. split; [reflexivity|]. simpl. by destruct Hw.
Qed.

Lemma update_process_instance_completion_healthy (key : Z) (status desc : string)
    (w : World) :
  healthy w →
  process_instance (db w) !! key = Some desc →
  ∃ w',
    update_process_instance_completion key status w = (Return true, w')
    ∧ process_instance (db w')
      = <[key := desc +:+ ", Ended: " +:+ strftime (clock w (elapsed w))
                      +:+ ", Status: " +:+ status]> (process_instance (db w)).
Proof.
  intros [Hp Hf] Hrow. destruct w as [d p f c e l sc]. simpl in *. subst.
  unfold update_process_instance_completion. run. rewrite Hrow. simpl.
  eexists. split; reflexivity.
Qed.

(** While the pool is missing or no driver call is due to fail, recording
    the process instance does not decide the fate of a job, whether the
    recording itself succeeds or not: a task returns what its handler
    returns and raises what its handler raises, the handler running in the
    world the recording left, with the container, storage and transport
    tables as the task found them. *)
Theorem tracking_does_not_fail_the_job (kind : handler_kind) (job : Job)
    (w : World) :
  connection_pool w = false ∨ faults w = [] →
  ∃ w1,
    record_process_instance job (default_operation kind) w = (Return tt, w1)
    ∧ container (db w1) = container (db w)
    ∧ storage (db w1) = storage (db w)
    ∧ transport_mean (db w1) = transport_mean (db w)
    ∧ (∀ out w2,
         handler kind (job_key job) (job_variables job) w1 = (Return out, w2) →
         ∃ w3, task kind job w = (Return out, w3))
    ∧ (∀ e w2,
         handler kind (job_key job) (job_variables job) w1 = (Raise e, w2) →
         task kind job w = (Raise e, w2)).
Proof.
  intros _.
  destruct (record_process_instance_returns job (default_operation kind) w)
    as (w1 & Hr & Hc & Hs & Ht & _).
  exists w1. split; [exact Hr|]. repeat (split; [done|]).
  destruct kind; simpl in *;
    unfold crane_loading_task, crane_unloading_task, weighing_task,
      storage_task, truck_checkin_task, truck_checkout_task, bind;
    rewrite Hr; split; intros ? w2 Hh; rewrite Hh; eauto.
  destruct (job_process_instance_key job =? 0)%Z; simpl; [by eauto|].
  destruct (update_process_instance_completion_false
              (job_process_instance_key job) "completed" w2)
    as (b & w3 & Hu & _).
  rewrite Hu. eauto.
Qed.

(** A storage task in a healthy store that holds the container leaves,
    under the job's process instance key, the start line built on entry
    followed by the completion written 4.5 seconds later. *)
Theorem storage_task_records_start_and_completion (job : Job) (c : string)
    (row : container_row) (w : World) :
  job_variables job !! "containerId" = Some (VStr c) →
  valid_id c →
  healthy w →
  container (db w) !! c = Some row →
  job_process_instance_key job ≠ 0%Z →
  ∃ out w',
    storage_task job w = (Return out, w')
    ∧ out !! "storageStatus" = Some (VStr "complete")
    ∧ process_instance (db w') !! job_process_instance_key job
      = Some (start_description (clock w (elapsed w))
                (dict_get_default (job_variables job) "operationType"
                   (VStr "unknown"))
                (VStr c) (dict_get (job_variables job) "transportationId")
              +:+ ", Ended: " +:+ strftime (clock w (elapsed w + 9))
              +:+ ", Status: " +:+ "completed").
Proof.
  intros Hc Hv Hw Hrow Hk.
  destruct (record_process_instance_healthy job "unknown" w Hw Hk)
    as (w1 & Hr & Hpi & Hco & _ & Hw1 & Hcl1 & Hel1).
  rewrite (dict_get_Some _ _ _ Hc) in Hpi.
  rewrite <- Hco in Hrow.
  destruct (handle_storage_healthy (job_key job) _ c row w1 Hc Hv Hw1 Hrow)
    as (out & w2 & Hh & Hst & _ & _ & _ & _ & Hw2 & Hcl2 & Hel2 & _ & Hpi2).
  assert (process_instance (db w2) !! job_process_instance_key job
          = Some (start_description (clock w (elapsed w))
                    (dict_get_default (job_variables job) "operationType"
                       (VStr "unknown"))
                    (VStr c) (dict_get (job_variables job) "transportationId")))
    as Hdesc by (rewrite Hpi2, Hpi; apply lookup_insert_eq).
  destruct (update_process_instance_completion_healthy _ "completed" _ w2
              Hw2 Hdesc) as (w3 & Hu & Hpi3).
  exists out, w3. unfold storage_task, bind. rewrite Hr, Hh.
  apply Z.eqb_neq in Hk. rewrite Hk. simpl. rewrite Hu.
  split; [reflexivity|]. split; [exact Hst|].
  simpl. rewrite Hpi3, lookup_insert_eq.
  by rewrite Hcl2, Hel2, Hcl1, Hel1.
Qed.

(** Every task starts by rewriting the description of its process
    instance: after any task other than storage, in a healthy store, the
    description is the start line built on entry, whatever was recorded
    under that key before (a completion included) and whether the handler
    returned or raised. *)
Theorem every_task_restarts_the_description (kind : handler_kind) (job : Job)
    (w : World) :
  healthy w →
  job_process_instance_key job ≠ 0%Z →
  kind ≠ Storage →
  process_instance (db (snd (task kind job w))) !! job_process_instance_key job
  = Some (start_description (clock w (elapsed w))
            (dict_get_default (job_variables job) "operationType"
               (VStr (default_operation kind)))
            (dict_get (job_variables job) "containerId")
            (dict_get (job_variables job) "transportationId")).
Proof.
  intros Hw Hk Hkind.
  destruct (record_process_instance_healthy job (default_operation kind) w
              Hw Hk) as (w1 & Hr & Hpi & _).
  assert (snd (task kind job w)
          = snd (handler kind (job_key job) (job_variables job) w1)) as ->.
  { destruct kind; try done; simpl in *;
      unfold crane_loading_task, crane_unloading_task, weighing_task,
        truck_checkin_task, truck_checkout_task, bind;
      rewrite Hr; by destruct (_ _ _ w1) as [[?|?] ?]. }
  pose proof (handler_keeps process_instance kind (job_key job)
                (job_variables job)) as Hkeep.
  rewrite (Hkeep ltac:(done) ltac:(done) w1), Hpi.
  apply lookup_insert_eq.
Qed.

(** ** Scenario reconstruction as a whole *)

Lemma scenario_loop_raises (skipping : string) (rows : list scenario_row) :
  (∃ row, In row rows ∧ skipped row = false ∧ r_weight row = None) →
  ∀ scs w, ∃ w', scenario_loop skipping rows scs w = (Raise TypeError, w').
Proof.
  induction rows as [|row rows IH]; intros (bad & Hin & Hs & Hn) scs w;
    [destruct Hin|].
  simpl. unfold bind.
  destruct (scenario_step_cases skipping scs row w)
    as [(Hs' & w1 & E1 & _) | [(Hs' & Hn' & E1) | (Hs' & sc & Hem & E1)]];
    rewrite E1; [| by eauto |].
  - apply IH. exists bad. destruct Hin as [-> | Hin]; [congruence | done].
  - apply IH. exists bad. destruct Hin as [-> | Hin]; [|done].
    destruct Hem as (_ & _ & _ & (q & Hq & _) & _). congruence.
Qed.

(** flow.py, when no driver call fails and every row that passes the
    truck test has a weight: the result has one scenario for each passing
    row of the join, in the order of the query, which is sorted by
    transportation id, then container id. *)
Theorem flow_fetch_returns_every_passing_row (w : World) :
  faults w = [] →
  (∀ row, In row (scenario_query (db w)) → skipped row = false →
          is_Some (r_weight row)) →
  ∃ out,
    fst (flow_fetch_workflow_scenarios w) = Return out
    ∧ Forall2 emitted
        (List.filter (fun r => negb (skipped r)) (scenario_query (db w))) out
    ∧ Sorted row_le (scenario_query (db w)).
Proof.
  intros Hf Hw.
  destruct (flow_fetch_workflow_scenarios_complete w Hf Hw) as (out & H1 & H2).
  exists out. split; [exact H1|]. split; [exact H2|].
  apply scenario_query_sorted.
Qed.

(** The reconstruction gives up as a whole: when connecting or the query
    fails, or when a single row that passes the truck test has no weight,
    both versions return the empty list, the scenarios already built
    being dropped. *)
Theorem fetch_returns_nothing_on_any_failure (w : World) :
  (∃ rest, faults w = true :: rest)
  ∨ (∃ rest, faults w = false :: true :: rest)
  ∨ (∃ row, In row (scenario_query (db w)) ∧ skipped row = false
            ∧ r_weight row = None) →
  fst (flow_fetch_workflow_scenarios w) = Return []
  ∧ fst (start_workflow_fetch_workflow_scenarios w) = Return [].
Proof.
  intros Hcause.
  assert (fst (flow_fetch_workflow_scenarios w) = Return []) as Hflow.
  { unfold flow_fetch_workflow_scenarios, try_except, bind at 1.
    destruct (cursor_execute w) as [[[]|e1] w1] eqn:E1; [|by run].
    unfold bind at 1.
    destruct (cursor_execute w1) as [[[]|e2] w2] eqn:E2; [|by run].
    assert (db w2 = db w) as Hdb.
    { pose proof (preserves_cursor_execute eq w) as H1.
      pose proof (preserves_cursor_execute eq w1) as H2.
      rewrite E1 in H1. rewrite E2 in H2. unfold on_db in *. simpl in *.
      congruence. }
    unfold bind at 1, get. unfold bind. rewrite Hdb.
    destruct Hcause as [(rest & Hf) | [(rest & Hf) | Hbad]].
    - exfalso. revert E1. unfold cursor_execute, bind, get, modify, raise.
      simpl. by rewrite Hf.
    - exfalso. revert E1 E2. unfold cursor_execute, bind, get, modify, raise.
      simpl. rewrite Hf. intros E1. inversion E1; subst. by simpl.
    - destruct (scenario_loop_raises " Skipping " _ Hbad [] w2) as (w3 & E3).
      rewrite E3. by run. }
  split; [exact Hflow|].
  destruct (start_workflow_fetches_first_only w) as (out & Hf & Hs).
  rewrite Hflow in Hf. inversion Hf; subst. exact Hs.
Qed.

(** start_workflow.py never returns more than one scenario: its result is
    the first element, if any, of what flow.py returns in the same world. *)
Theorem start_workflow_returns_at_most_the_first (w : World) :
  ∃ out,
    fst (flow_fetch_workflow_scenarios w) = Return out
    ∧ fst (start_workflow_fetch_workflow_scenarios w) = Return (firstn 1 out)
    ∧ length (firstn 1 out) ≤ 1.
Proof.
  destruct (start_workflow_fetches_first_only w) as (out & Hf & Hs).
  exists out. split; [exact Hf|]. split; [exact Hs|].
  destruct out; simpl; lia.
Qed.

(** ** The bulk reads *)

#[global] Instance key_ge_total : Total key_ge.
Proof. intros a b. unfold key_ge. lia. Qed.

#[global] Instance key_le_total : Total key_le.
Proof. intros a b. unfold key_le. apply String.leb_total. Qed.

Lemma get_all_process_instances_healthy (w : World) :
  healthy w →
  get_all_process_instances w
  = (Return (merge_sort key_ge (map_to_list (process_instance (db w)))), w).
Proof.
  intros [Hp Hf]. destruct w as [d p f c e l sc]. simpl in *. subst.
  unfold get_all_process_instances. by run.
Qed.

Lemma In_sorted_process_instances (m : gmap Z string) (key : Z) (d : string) :
  In (key, d) (merge_sort key_ge (map_to_list m)) ↔ m !! key = Some d.
Proof.
  rewrite <- list_elem_of_In, merge_sort_Permutation.
  apply elem_of_map_to_list.
Qed.

(** In a healthy store get_all_process_instances returns the rows of the
    table, each key once, by decreasing key, and leaves the world alone. *)
Theorem get_all_process_instances_lists_the_table (w : World) :
  healthy w →
  ∃ rows,
    get_all_process_instances w = (Return rows, w)
    ∧ (∀ key d, In (key, d) rows ↔ process_instance (db w) !! key = Some d)
    ∧ Sorted key_ge rows
    ∧ NoDup (rows.*1).
Proof.
  intros Hw. eexists. split; [by apply get_all_process_instances_healthy|].
  split; [intros key d; apply In_sorted_process_instances|].
  split; [apply (Sorted_merge_sort key_ge)|].
  rewrite merge_sort_Permutation. apply NoDup_fst_map_to_list.
Qed.

(** What insert_process_instance records is what get_all_process_instances
    lists next: the key appears with the start description just built, and
    with no other description. *)
Theorem recorded_instance_is_listed (key : Z) (op cid tid : value) (w : World) :
  healthy w →
  ∃ w1 rows,
    insert_process_instance key op cid tid w = (Return true, w1)
    ∧ get_all_process_instances w1 = (Return rows, w1)
    ∧ ∀ d, In (key, d) rows
           ↔ d = start_description (clock w (elapsed w)) op cid tid.
Proof.
  intros Hw. do 2 eexists.
  split; [by apply insert_process_instance_healthy|].
  split.
  - apply get_all_process_instances_healthy. by destruct Hw.
  - intros d. rewrite In_sorted_process_instances. simpl.
    rewrite lookup_insert_eq. split; [by intros [= <-] | by intros ->].
Qed.

Lemma find_in_left_join {A} (p : A → bool) (l : list A) :
  In (List.find p l)
    (match List.filter p l with
     | [] => [None]
     | _ => map Some (List.filter p l)
     end).
Proof.
  induction l as [|a l IH]; simpl; [by left|].
  destruct (p a); simpl; [by left|]. exact IH.
Qed.

Lemma In_container_rows (s : Store) (cid : string) (c : container_row)
    (cd : container_data) :
  In cd (container_rows s cid c) →
  cd_container_id cd = cid
  ∧ cd_operation_type cd = c_operation_type c
  ∧ cd_weight cd = c_weight c.
Proof.
  unfold container_rows. cbv zeta. intros Hin.
  apply in_flat_map in Hin as (so & _ & Hin).
  apply in_map_iff in Hin as (to & <- & _). done.
Qed.

Lemma container_rows_nonempty (s : Store) (cid : string) (c : container_row) :
  ∃ cd, In cd (container_rows s cid c).
Proof.
  destruct (select_container (mkStore {[cid := c]} (storage s)
                                (transport_mean s) (process_instance s)) cid)
    as [cd|] eqn:E.
  - exists cd. revert E. unfold select_container, container_rows. cbv zeta.
    simpl. rewrite lookup_singleton_eq. intros [= <-].
    apply in_flat_map. eexists. split; [apply find_in_left_join|].
    apply in_map_iff. eexists. split; [reflexivity|].
    apply find_in_left_join.
  - revert E. unfold select_container. simpl. by rewrite lookup_singleton_eq.
Qed.

Lemma select_container_in_rows (s : Store) (cid : string) (c : container_row)
    (cd : container_data) :
  container s !! cid = Some c →
  select_container s cid = Some cd →
  In cd (container_rows s cid c).
Proof.
  intros Hc. unfold select_container, container_rows. rewrite Hc. cbv zeta.
  intros [= <-].
  apply in_flat_map. eexists. split; [apply find_in_left_join|].
  apply in_map_iff. eexists. split; [reflexivity|].
  apply find_in_left_join.
Qed.

Lemma In_select_all_containers (s : Store) (cd : container_data) :
  In cd (select_all_containers s)
  ↔ ∃ cid c, container s !! cid = Some c ∧ In cd (container_rows s cid c).
Proof.
  unfold select_all_containers. rewrite in_flat_map. split.
  - intros ([cid c] & Hin & Hcd). exists cid, c. split; [|done].
    apply list_elem_of_In in Hin. rewrite merge_sort_Permutation in Hin.
    by apply elem_of_map_to_list in Hin.
  - intros (cid & c & Hc & Hcd). exists (cid, c). split; [|done].
    apply list_elem_of_In. rewrite merge_sort_Permutation.
    by apply elem_of_map_to_list.
Qed.

Lemma get_all_containers_healthy (w : World) :
  healthy w →
  get_all_containers w = (Return (select_all_containers (db w)), w).
Proof.
  intros [Hp Hf]. destruct w as [d p f c e l sc]. simpl in *. subst.
  unfold get_all_containers. by run.
Qed.

(** In a healthy store get_all_containers lists every container, also one
    without storage or transport, and nothing else: each row carries the
    id, operation type and weight of a container of the table. *)
Theorem get_all_containers_lists_every_container (w : World) :
  healthy w →
  ∃ rows,
    get_all_containers w = (Return rows, w)
    ∧ (∀ cid, is_Some (container (db w) !! cid)
              ↔ ∃ cd, In cd rows ∧ cd_container_id cd = cid)
    ∧ (∀ cd, In cd rows →
             container (db w) !! cd_container_id cd
             = Some (mkContainer (cd_operation_type cd) (cd_weight cd))).
Proof.
  intros Hw. eexists. split; [by apply get_all_containers_healthy|]. split.
  - intros cid. split.
    + intros [c Hc]. destruct (container_rows_nonempty (db w) cid c) as [cd Hcd].
      exists cd. split.
      * apply In_select_all_containers. eauto.
      * by apply In_container_rows in Hcd as [? _].
    + intros (cd & Hin & <-).
      apply In_select_all_containers in Hin as (cid & c & Hc & Hcd).
      apply In_container_rows in Hcd as [-> _]. eauto.
  - intros cd Hin.
    apply In_select_all_containers in Hin as (cid & c & Hc & Hcd).
    apply In_container_rows in Hcd as (-> & -> & ->). by destruct c.
Qed.

(** The row get_container returns for a container is one of the rows
    get_all_containers returns in the same healthy store. *)
Theorem get_container_row_is_listed (c : string) (cd : container_data)
    (w : World) :
  healthy w →
  fst (get_container (VStr c) w) = Return (Some cd) →
  ∃ rows, fst (get_all_containers w) = Return rows ∧ In cd rows.
Proof.
  intros Hw. rewrite (get_container_healthy c w Hw). simpl. intros [= Hsel].
  eexists. rewrite (get_all_containers_healthy w Hw). split; [reflexivity|].
  apply In_select_all_containers.
  destruct (container (db w) !! c) as [row|] eqn:Hrow.
  - exists c, row. split; [done|]. by apply select_container_in_rows.
  - by rewrite (select_container_absent _ _ Hrow) in Hsel.
Qed.

(** Both bulk reads return the empty list when the read fails. *)
Theorem bulk_reads_fail_empty (w : World) :
  read_fails w →
  fst (get_all_containers w) = Return []
  ∧ fst (get_all_process_instances w) = Return []
  ∧ db (snd (get_all_containers w)) = db w
  ∧ db (snd (get_all_process_instances w)) = db w.
Proof.
  destruct w as [d p f c e l sc]. unfold read_fails. simpl.
  unfold get_all_containers, get_all_process_instances.
  intros [-> | [rest ->]]; run; [done|]. by destruct p.
Qed.

(** ** Starting a workflow *)

Lemma start_single_workflow_cases (client : ZeebeClient)
    (variables : gmap string value) (w : World) :
  (∃ w', start_single_workflow client variables w = (Return false, w')
         ∧ ¬ (truthy (dict_get variables "transportationId") = true
              ∧ is_Some (variables !! "containerId")
              ∧ is_Some (variables !! "operationType")
              ∧ ∃ result, fst (run_process client BPMN_PROCESS_ID variables w)
                          = Return result
                          ∧ complete_response result))
  ∨ (∃ result w',
       run_process client BPMN_PROCESS_ID variables w = (Return result, w')
       ∧ complete_response result
       ∧ start_single_workflow client variables w = (Return true, w')
       ∧ truthy (dict_get variables "transportationId") = true
       ∧ is_Some (variables !! "containerId")
       ∧ is_Some (variables !! "operationType")).
Proof.
  unfold start_single_workflow, subscript, getattr, dict_get, complete_response.
  destruct (variables !! "transportationId") as [t|] eqn:Ht; simpl;
    [destruct (truthy t) eqn:Htt; simpl|]; run;
    try (left; eexists; split; [reflexivity|]; intros (? & _); congruence).
  destruct (variables !! "containerId") as [c|] eqn:Hc; run;
    [|left; eexists; split; [reflexivity|]; intros (_ & [? ?] & _); congruence].
  destruct (variables !! "operationType") as [o|] eqn:Ho; run;
    [|left; eexists; split; [reflexivity|];
      intros (_ & _ & [? ?] & _); congruence].
  destruct (run_process client BPMN_PROCESS_ID variables w) as [[result|e] w1]
    eqn:Hr; run;
    [|left; eexists; split; [reflexivity|];
      intros (_ & _ & _ & ? & ? & _); congruence].
  destruct (result !! "process_instance_key") as [k|] eqn:Hk; run;
    [|left; eexists; split; [reflexivity|];
      intros (_ & _ & _ & ? & [= <-] & [? ?] & _); congruence].
  destruct (result !! "bpmn_process_id") as [b|] eqn:Hb; run;
    [|left; eexists; split; [reflexivity|];
      intros (_ & _ & _ & ? & [= <-] & _ & [? ?]); congruence].
  right. exists result, w1. rewrite Hk, Hb. eauto 10.
Qed.

Lemma start_single_workflow_outcome (client : ZeebeClient)
    (variables : gmap string value) (w : World) :
  ∃ b w',
    start_single_workflow client variables w = (Return b, w')
    ∧ (b = true
       ↔ truthy (dict_get variables "transportationId") = true
         ∧ is_Some (variables !! "containerId")
         ∧ is_Some (variables !! "operationType")
         ∧ ∃ result, fst (run_process client BPMN_PROCESS_ID variables w)
                     = Return result
                     ∧ complete_response result).
Proof.
  destruct (start_single_workflow_cases client variables w)
    as [(w' & H & Hno) | (result & w' & Hr & Hres & H & Ht & Hc & Ho)].
  - exists false, w'. split; [done|]. split; [done|]. intros Hyes. by destruct Hno.
  - exists true, w'. split; [done|]. split; [|done]. intros _.
    repeat split; try done. exists result. by rewrite Hr.
Qed.


(** Without a truthy transportation id start_single_workflow answers False
    and logs one error; the engine is not consulted, so the outcome is the
    same with every client. *)
Theorem start_single_workflow_prevalidation (client : ZeebeClient)
    (variables : gmap string value) (w : World) :
  truthy (dict_get variables "transportationId") = false →
  start_single_workflow client variables w
  = (Return false,
     set_log (log w ++ [Msg ERROR [Lit " CRITICAL: transportationId missing for ";
                                   Val (dict_get_default variables "containerId"
                                          (VStr "UNKNOWN"))]]) w).
Proof.
  unfold start_single_workflow, dict_get.
  destruct (variables !! "transportationId") as [t|]; simpl.
  - intros ->. by run.
  - intros _. by run.
Qed.

(** A scenario the reconstruction emits for a row is started exactly when
    the row's transportation id is not the empty string, the engine call
    returns and the response has the two attributes read afterwards: the
    scenario's container id and operation type are always there. *)
Theorem emitted_scenario_is_started (client : ZeebeClient)
    (row : scenario_row) (sc : gmap string value) (w : World) :
  emitted row sc →
  fst (start_single_workflow client sc w) = Return true
  ↔ r_transportation_id row ≠ ""
    ∧ ∃ result, fst (run_process client BPMN_PROCESS_ID sc w) = Return result
                ∧ complete_response result.
Proof.
  intros (Hc & Ht & Ho & _).
  destruct (start_single_workflow_outcome client sc w) as (b & w' & -> & Hb).
  simpl. unfold dict_get in Hb. rewrite Ht, Hc, Ho in Hb. simpl in Hb.
  split.
  - intros [= ->]. destruct Hb as [Hb _].
    destruct (Hb eq_refl) as (Hne & _ & _ & Hk). split; [|done].
    intros E. rewrite E in Hne. done.
  - intros [Hne Hk]. f_equal. apply Hb. repeat split; eauto.
    apply negb_true_iff, String.eqb_neq. done.
Qed.

End Port.

(** ** The statements at concrete inputs *)

Lemma valid_id_C1001 : valid_id "C1001".
Proof. split; discriminate. Defined.

Lemma healthy_sample_world : healthy sample_world.
Proof. split; reflexivity. Defined.

(** C1 (start_workflow.py): with two ships in the store, both rows of the
    join pass the truck-completeness rule and flow.py returns a scenario
    for each, but fetch_workflow_scenarios of start_workflow.py returns
    the first one only. *)
Theorem start_workflow_returns_only_the_first_scenario :
  length (List.filter (fun r => negb (skipped r))
            (scenario_query two_ships_store)) = 2
  ∧ fst (flow_fetch_workflow_scenarios sample_float two_ships_world)
    = Return [ship_scenario "C1002" "ship9109" (35000 # 1)%Q;
              ship_scenario "C1003" "ship9110" (18000 # 1)%Q]
  ∧ fst (start_workflow_fetch_workflow_scenarios sample_float two_ships_world)
    = Return [ship_scenario "C1002" "ship9109" (35000 # 1)%Q].
Proof.
  split; [vm_compute; reflexivity|].
  split; match goal with |- _ = ?r => vm_cast_no_check (eq_refl r) end.
Qed.

(** C2 as stated fails: a crane-loading job without containerId, for
    process instance 77, is rejected with a ValueError, yet the store has
    been called once and the process_instance table has a new row. *)
Lemma rejected_job_already_recorded :
  let r := crane_loading_task sample_str empty_job sample_world in
  job_variables empty_job !! "containerId" = None
  ∧ (∃ msg, fst r = Raise (ValueError msg))
  ∧ store_calls (snd r) = [Call_insert_process_instance 77]
  ∧ store_calls (snd r) ≠ store_calls sample_world
  ∧ process_instance (db sample_world) !! 77%Z = None
  ∧ process_instance (db (snd r)) !! 77%Z
    = Some "Started: 2025-10-08 09:00:00, Operation: loading".
Proof.
  intros r. split; [reflexivity|].
  split; [eexists; vm_compute; reflexivity|].
  split; [vm_compute; reflexivity|].
  split; [vm_compute; discriminate|].
  split; vm_compute; reflexivity.
Qed.


Lemma validation_gate_witness :
  In "containerId" (required_fields CraneLoading)
  ∧ absent_or_sentinel (job_variables empty_job) "containerId"
  ∧ (∃ msg w',
       handler sample_timestamp iso_timestamp CraneLoading (job_key empty_job)
         (job_variables empty_job) sample_world = (Raise (ValueError msg), w')
       ∧ store_calls w' = store_calls sample_world)
  ∧ (∃ msg w',
       task sample_str sample_timestamp iso_timestamp CraneLoading empty_job
         sample_world = (Raise (ValueError msg), w')
       ∧ store_calls w' = [Call_insert_process_instance 77]).
Proof.
  assert (In "containerId" (required_fields CraneLoading)) as H1
    by (left; reflexivity).
  assert (absent_or_sentinel (job_variables empty_job) "containerId") as H2
    by (left; reflexivity).
  split; [exact H1|]. split; [exact H2|].
  destruct (validation_gate sample_str sample_timestamp iso_timestamp
              CraneLoading empty_job "containerId" sample_world H1 H2)
    as [(msg & w' & Hh & _ & Hsc & _) (msg' & w'' & Ht & _ & _ & _ & Hsc')].
  split; eauto.
Defined.

(** After one storage job for C1001 its storage row is complete; two more
    storage jobs, one of them for the same container, leave it so. *)
Lemma storage_complete_is_terminal_witness :
  let w1 := run_storage_handlers [(1%Z, sample_variables)] sample_world in
  let jobs := [(2%Z, sample_variables);
               (3%Z, <["containerId" := VStr "C1002"]> sample_variables)] in
  storage (db w1) !! 1%Z = Some (mkStorage "C1001" (Some "complete"))
  ∧ storage (db (run_storage_handlers jobs w1)) !! 1%Z
    = Some (mkStorage "C1001" (Some "complete"))
  ∧ storage (db (run_storage_handlers jobs w1)) !! 2%Z
    = Some (mkStorage "C1002" (Some "complete")).
Proof.
  intros w1 jobs.
  assert (storage (db w1) !! 1%Z = Some (mkStorage "C1001" (Some "complete")))
    as H1 by (vm_compute; reflexivity).
  split; [exact H1|]. split.
  - apply (proj1 (storage_complete_is_terminal jobs w1 1%Z) _ H1). reflexivity.
  - vm_compute. reflexivity.
Defined.

Lemma weighing_witness :
  sample_variables !! "containerId" = Some (VStr "C1001")
  ∧ container (db sample_world) !! "C1001"
    = Some (mkContainer (Some "loading") (Some (12000 # 1)%Q))
  ∧ ∃ out w',
      handle_weighing 1 sample_variables sample_world = (Return out, w')
      ∧ out !! "weightStatus" = Some (VStr "OK")
      ∧ db w' = db sample_world.
Proof.
  assert (sample_variables !! "containerId" = Some (VStr "C1001")) as H1
    by reflexivity.
  assert (container (db sample_world) !! "C1001"
          = Some (mkContainer (Some "loading") (Some (12000 # 1)%Q))) as H2
    by reflexivity.
  split; [exact H1|]. split; [exact H2|].
  destruct (weighing_derives_status_without_writing 1 sample_variables "C1001"
              _ (12000 # 1)%Q sample_world H1 valid_id_C1001
              healthy_sample_world H2 eq_refl)
    as [(out & w' & Hh & Hok & _ & _ & _) Hdb].
  exists out, w'. split; [exact Hh|]. split.
  - apply Hok. unfold Qle. simpl. lia.
  - specialize (Hdb 1%Z sample_variables sample_world).
    rewrite Hh in Hdb. exact Hdb.
Defined.

(** The container of 35000 kg is OVERWEIGHT. *)
Example weighing_35000_is_overweight :
  ∃ out w',
    handle_weighing 1 {[ "containerId" := VStr "C1002" ]} sample_world
    = (Return out, w')
    ∧ out !! "weightStatus" = Some (VStr "OVERWEIGHT").
Proof.
  destruct (handle_weighing_healthy 1 {[ "containerId" := VStr "C1002" ]}
              "C1002" (mkContainer (Some "unloading") (Some (35000 # 1)%Q))
              (35000 # 1)%Q sample_world)
    as (out & w' & Hh & Hst & _); try reflexivity.
  - split; discriminate.
  - split; reflexivity.
  - exists out, w'. split; [exact Hh | exact Hst].
Qed.


(** A store with one truck that has only its check-in and one ship with
    no timestamp yields exactly one scenario, the ship's, from flow.py and
    from start_workflow.py alike. *)
Example half_checked_truck_is_left_out :
  fst (flow_fetch_workflow_scenarios sample_float half_checked_world)
  = Return [ship_scenario "C1002" "ship9109" (35000 # 1)%Q]
  ∧ fst (start_workflow_fetch_workflow_scenarios sample_float half_checked_world)
    = Return [ship_scenario "C1002" "ship9109" (35000 # 1)%Q].
Proof.
  split; match goal with |- _ = ?r => vm_cast_no_check (eq_refl r) end.
Qed.

Lemma absent_container_witness :
  let variables := <["containerId" := VStr "C9999"]> sample_variables in
  variables !! "containerId" = Some (VStr "C9999")
  ∧ container (db sample_world) !! "C9999" = None
  ∧ (∃ w', handle_weighing 1 variables sample_world
           = (Raise (Exception (not_found_msg (VStr "C9999"))), w'))
  ∧ (∃ w', handle_storage 1 variables sample_world
           = (Raise (Exception (not_found_msg (VStr "C9999"))), w'))
  ∧ (∃ ts w', handle_crane_loading 1 variables sample_world
              = (Return (crane_loading_result variables ts), w')
              ∧ log w' = [may_be_created_later "    " (VStr "C9999")]).
Proof.
  intros variables.
  assert (variables !! "containerId" = Some (VStr "C9999")) as H1
    by reflexivity.
  assert (valid_id "C9999") as H2 by (split; discriminate).
  assert (container (db sample_world) !! "C9999" = None) as H3 by reflexivity.
  split; [exact H1|]. split; [exact H3|].
  destruct (absent_container_fatal_or_warning 1 variables "C9999" sample_world
              H1 H2 healthy_sample_world H3)
    as ((w1 & Hw & _) & (w2 & Hs & _) & Hcrane).
  split; [eauto|]. split; [eauto|].
  destruct Hcrane as [(ts & w3 & Hl & _ & Hlog) _]; [reflexivity|].
  exists ts, w3. split; [exact Hl | exact Hlog].
Defined.

Lemma truck_checkin_witness :
  let carried := <["checkIn" := VStr "2025-10-08 08:00:00"]> sample_variables in
  sample_variables !! "transportationId" = Some (VStr "truck101")
  ∧ String.prefix "truck" "truck101" = true
  ∧ (∃ out w',
       handle_truck_checkin sample_timestamp 1 sample_variables sample_world
       = (Return out, w')
       ∧ out !! "checkIn" = Some (VStr "2025-10-08 09:00:00")
       ∧ transport_mean (db w') !! "truck101"
         = Some (mkTransport "C1001" 1 (Some (mkDatetime 2025 10 8 9 0 0)) None))
  ∧ (∃ out w',
       handle_truck_checkin sample_timestamp 1 carried sample_world
       = (Return out, w')
       ∧ store_calls w'
         = [Call_update_transport_timestamps (VStr "truck101")
              (VStr "2025-10-08 08:00:00") VNone]
       ∧ transport_mean (db w') !! "truck101"
         = Some (mkTransport "C1001" 1 (Some (mkDatetime 2025 10 8 8 0 0)) None)).
Proof.
  intros carried.
  assert (sample_variables !! "containerId" = Some (VStr "C1001")) as H1
    by reflexivity.
  assert (sample_variables !! "transportationId" = Some (VStr "truck101"))
    as H2 by reflexivity.
  assert (String.prefix "truck" "truck101" = true) as H3 by reflexivity.
  split; [exact H2|]. split; [exact H3|]. split.
  - destruct (truck_checkin_partial_update sample_timestamp
                1 sample_variables "C1001" "truck101"
                sample_world H1 valid_id_C1001 H2 H3)
      as (out & w' & Hh & _ & Hci & _ & Hok).
    exists out, w'. split; [exact Hh|]. split; [exact Hci|].
    apply (Hok healthy_sample_world (mkDatetime 2025 10 8 9 0 0)
             (mkTransport "C1001" 1 None None)); vm_compute; reflexivity.
  - destruct (truck_checkin_partial_update sample_timestamp
                1 carried "C1001" "truck101"
                sample_world eq_refl valid_id_C1001 eq_refl H3)
      as (out & w' & Hh & Hsc & _ & _ & Hok).
    exists out, w'. split; [exact Hh|]. split; [exact Hsc|].
    apply (Hok healthy_sample_world (mkDatetime 2025 10 8 8 0 0)
             (mkTransport "C1001" 1 None None)); vm_compute; reflexivity.
Defined.

Lemma handlers_carry_variables_forward_witness :
  handler_ready Storage sample_variables sample_world
  ∧ ∃ out w',
      handler sample_timestamp iso_timestamp Storage 1 sample_variables
        sample_world = (Return out, w')
      ∧ out !! "containerId" = Some (VStr "C1001")
      ∧ out !! "transportationId" = Some (VStr "truck101")
      ∧ out !! "operationType" = Some (VStr "loading").
Proof.
  assert (handler_ready Storage sample_variables sample_world) as H1.
  { split; [reflexivity|]. split; [exact healthy_sample_world|].
    exists "C1001", (mkContainer (Some "loading") (Some (12000 # 1)%Q)).
    split; reflexivity. }
  split; [exact H1|].
  destruct (handlers_carry_variables_forward sample_timestamp iso_timestamp
              Storage 1 sample_variables sample_world H1)
    as (out & w' & Hh & Hkeys & Hsame & _).
  exists out, w'. split; [exact Hh|].
  split; [|split]; apply Hsame; try reflexivity;
    intros Hin; repeat (apply elem_of_cons in Hin as [Hin | Hin];
                        [discriminate Hin|]);
    by apply elem_of_nil in Hin.
Defined.

Lemma process_instance_tracker_witness :
  healthy sample_world
  ∧ (∃ w1,
       insert_process_instance sample_str 77 (VStr "loading") (VStr "C1001")
         (VStr "truck101") sample_world = (Return true, w1)
       ∧ process_instance (db w1) !! 77%Z
         = Some "Started: 2025-10-08 09:00:00, Operation: loading, Container: C1001, Transport: truck101")
  ∧ (∃ w2,
       update_process_instance_completion 77 "completed" sample_world
       = (Return true, w2)
       ∧ db w2 = db sample_world ∧ log w2 = []).
Proof.
  split; [exact healthy_sample_world|].
  destruct (process_instance_tracker sample_str 77 (VStr "loading")
              (VStr "C1001") (VStr "truck101") "completed" sample_world
              healthy_sample_world)
    as ((w1 & Hi & Hd & _) & _ & Hnone).
  split; [exists w1; split; [exact Hi | exact Hd]|].
  apply Hnone. reflexivity.
Defined.

(** Recording the start twice under one key leaves the second
    description only; the completion is appended to it. *)
Example second_start_overwrites_then_completion_appends :
  let w1 := snd (insert_process_instance sample_str 77 (VStr "loading")
                   (VStr "C1001") (VStr "truck101") sample_world) in
  let w2 := snd (insert_process_instance sample_str 77 (VStr "unloading")
                   (VStr "C1002") (VStr "ship9109") w1) in
  let w3 := snd (update_process_instance_completion 77 "completed" w2) in
  process_instance (db w2) !! 77%Z
  = Some "Started: 2025-10-08 09:00:00, Operation: unloading, Container: C1002, Transport: ship9109"
  ∧ process_instance (db w3) !! 77%Z
    = Some "Started: 2025-10-08 09:00:00, Operation: unloading, Container: C1002, Transport: ship9109, Ended: 2025-10-08 09:00:00, Status: completed".
Proof. split; vm_compute; reflexivity. Qed.

Lemma read_failure_witness :
  read_fails offline_world
  ∧ container (db offline_world) !! "C1001"
    = Some (mkContainer (Some "loading") (Some (12000 # 1)%Q))
  ∧ fst (get_container (VStr "C1001") offline_world) = Return None
  ∧ (∃ w', handle_weighing 1 sample_variables offline_world
           = (Raise (Exception (not_found_msg (VStr "C1001"))), w'))
  ∧ (∃ ts e w', handle_crane_loading 1 sample_variables offline_world
                = (Return (crane_loading_result sample_variables ts), w')
                ∧ log w'
                  = [Exc ERROR [Lit "Failed to retrieve container: "] e;
                     may_be_created_later "    " (VStr "C1001")]).
Proof.
  assert (read_fails offline_world) as H1 by (left; reflexivity).
  split; [exact H1|]. split; [reflexivity|].
  destruct (read_failure_looks_like_absent 1 sample_variables "C1001"
              offline_world eq_refl valid_id_C1001 H1)
    as (_ & _ & Hnone & Hw & _ & Hcrane).
  split; [exact Hnone|]. split; [exact Hw|].
  destruct Hcrane as [(ts & e & w' & Hl & Hlog) _]; [reflexivity|].
  exists ts, e, w'. split; [exact Hl | exact Hlog].
Defined.

(** Container C1001 (12000 kg, loading) on truck101 through crane
    loading, weighing, storage, truck check-in and truck check-out: the
    weight status is OK, the storage is complete and the truck has both
    timestamps. *)
Example end_to_end_C1001 :
  let r := run_in_order sample_timestamp iso_timestamp
             [CraneLoading; Weighing; Storage; TruckCheckin; TruckCheckout]
             sample_variables sample_world in
  match fst r with
  | Return out => out !! "weightStatus"
  | Raise _ => None
  end = Some (VStr "OK")
  ∧ storage (db (snd r)) !! 1%Z = Some (mkStorage "C1001" (Some "complete"))
  ∧ transport_mean (db (snd r)) !! "truck101"
    = Some (mkTransport "C1001" 1 (Some (mkDatetime 2025 10 8 9 0 12))
              (Some (mkDatetime 2025 10 8 9 0 13))).
Proof. repeat split; vm_compute; reflexivity. Qed.

(** ** The further properties at concrete inputs *)

Lemma false_answer_means_nothing_written_witness :
  ∃ b w',
    update_storage_status (VStr "C9999") "complete" sample_world = (Return b, w')
    ∧ (b = false → db w' = sample_store).
Proof.
  exact (proj1 (proj2 (proj2
           (false_answer_means_nothing_written sample_str sample_timestamp
              sample_world 77 (VStr "loading") (VStr "C9999") (VStr "truck101")
              VNone VNone "complete" (or_intror eq_refl))))).
Defined.

Lemma store_writes_fail_softly_witness :
  ∃ w' item,
    update_storage_status (VStr "C1001") "complete" offline_world
    = (Return false, w')
    ∧ db w' = sample_store ∧ faults w' = [] ∧ log w' = [item].
Proof.
  exact (proj1 (proj2 (proj2
           (store_writes_fail_softly_without_pool sample_str sample_timestamp
              offline_world 77 (VStr "loading") (VStr "C1001") (VStr "truck101")
              VNone VNone "complete" eq_refl)))).
Defined.

Lemma tracking_does_not_fail_the_job_witness :
  ∃ w1,
    record_process_instance sample_str sample_job "unknown" offline_world
    = (Return tt, w1)
    ∧ container (db w1) = container sample_store
    ∧ task sample_str sample_timestamp iso_timestamp Weighing sample_job
        offline_world
      = (Raise (Exception (not_found_msg (VStr "C1001"))),
         snd (handle_weighing 1 sample_variables w1)).
Proof.
  destruct (tracking_does_not_fail_the_job sample_str sample_timestamp
              iso_timestamp Weighing sample_job offline_world
              (or_introl eq_refl))
    as (w1 & Hr & Hc & _ & _ & _ & Hraise).
  exists w1. split; [exact Hr|]. split; [exact Hc|].
  apply Hraise.
  assert (w1 = snd (record_process_instance sample_str sample_job "unknown"
                      offline_world)) as ->
    by exact (eq_sym (f_equal snd Hr)).
  vm_compute. reflexivity.
Defined.

Lemma truck_checkout_witness :
  ∃ out w',
    handle_truck_checkout sample_timestamp iso_timestamp 1 sample_variables
      sample_world = (Return out, w')
    ∧ out !! "checkOut" = Some (VStr "2025-10-08 09:00:00")
    ∧ transport_mean (db w') !! "truck101"
      = Some (mkTransport "C1001" 1 None (Some (mkDatetime 2025 10 8 9 0 0))).
Proof.
  destruct (truck_checkout_partial_update sample_timestamp iso_timestamp
              1 sample_variables "C1001" "truck101" sample_world
              eq_refl valid_id_C1001 eq_refl eq_refl)
    as (out & w' & Hh & _ & Hco & _ & Hok).
  exists out, w'. split; [exact Hh|]. split; [exact Hco|].
  apply (Hok healthy_sample_world (mkDatetime 2025 10 8 9 0 0)
           (mkTransport "C1001" 1 None None)); vm_compute; reflexivity.
Defined.

Lemma truck_handlers_reject_a_ship :
  let variables := <["transportationId" := VStr "ship9109"]> sample_variables in
  rejected (handle_truck_checkin sample_timestamp 1 variables sample_world)
    sample_world
  ∧ rejected (handle_truck_checkout sample_timestamp iso_timestamp 1 variables
                sample_world) sample_world.
Proof.
  intros variables.
  apply (truck_handlers_reject_other_transports sample_timestamp iso_timestamp
           1 variables "ship9109" sample_world);
    [reflexivity | reflexivity | split; discriminate | reflexivity].
Defined.

Lemma truck_handlers_need_a_string_id_witness :
  let variables := <["transportationId" := VInt 101]> sample_variables in
  handle_truck_checkin sample_timestamp 1 variables sample_world
  = (Raise AttributeError, sample_world)
  ∧ handle_truck_checkout sample_timestamp iso_timestamp 1 variables sample_world
    = (Raise AttributeError, sample_world).
Proof.
  intros variables.
  apply (truck_handlers_need_a_string_id sample_timestamp iso_timestamp
           1 variables (VInt 101) sample_world);
    [reflexivity | reflexivity | reflexivity | discriminate].
Defined.

Lemma handle_storage_completes_C1001 :
  ∃ out w',
    handle_storage 1 sample_variables sample_world = (Return out, w')
    ∧ out !! "storageStatus" = Some (VStr "complete")
    ∧ storage (db w') !! 1%Z = Some (mkStorage "C1001" (Some "complete"))
    ∧ storage (db w') !! 2%Z = Some (mkStorage "C1002" (Some "incomplete")).
Proof.
  destruct (handle_storage_completes_the_container 1 sample_variables "C1001"
              (mkContainer (Some "loading") (Some (12000 # 1)%Q)) sample_world
              eq_refl valid_id_C1001 healthy_sample_world eq_refl)
    as (out & w' & Hh & Hst & _ & Hrows & _).
  exists out, w'. split; [exact Hh|]. split; [exact Hst|]. split.
  - exact (Hrows 1%Z (mkStorage "C1001" (Some "incomplete")) eq_refl).
  - exact (Hrows 2%Z (mkStorage "C1002" (Some "incomplete")) eq_refl).
Defined.

Lemma valid_id_C1004 : valid_id "C1004".
Proof. split; discriminate. Defined.

Lemma healthy_unweighed_world : healthy unweighed_world.
Proof. split; reflexivity. Defined.

Lemma handle_storage_without_a_storage_row_witness :
  ∃ out w',
    handle_storage 1 unweighed_variables unweighed_world
    = (Return out, w')
    ∧ out !! "storageStatus" = Some (VStr "complete")
    ∧ out !! "storageId" = Some VNone
    ∧ storage (db w') = ∅
    ∧ log w' = [no_storage_record (VStr "C1004");
                update_may_have_failed (VStr "C1004")].
Proof.
  apply (handle_storage_without_a_storage_row 1 unweighed_variables "C1004"
           (mkContainer (Some "loading") None) unweighed_world
           eq_refl valid_id_C1004 healthy_unweighed_world eq_refl).
  intros sid r H. unfold unweighed_world, unweighed_store in H. simpl in H.
  rewrite lookup_empty in H. discriminate H.
Defined.

Lemma weighing_needs_a_weight_witness :
  ∃ w',
    handle_weighing 1 unweighed_variables unweighed_world
    = (Raise TypeError, w')
    ∧ db w' = unweighed_store
    ∧ log w' = [Exc ERROR [Lit " Error during weighing operation: "] TypeError].
Proof.
  apply (weighing_needs_a_weight 1 unweighed_variables "C1004"
           (mkContainer (Some "loading") None) unweighed_world
           eq_refl valid_id_C1004 healthy_unweighed_world eq_refl eq_refl).
Defined.

Lemma crane_handlers_complete_offline :
  ∃ w',
    handle_crane_loading 1 sample_variables offline_world
    = (Return (crane_loading_result sample_variables
                 (strftime (sample_clock 10))), w')
    ∧ db w' = sample_store ∧ elapsed w' = 10.
Proof.
  exact (proj1 (crane_handlers_always_complete 1 sample_variables offline_world
                  eq_refl eq_refl)).
Defined.

Lemma storage_task_records_start_and_completion_witness :
  ∃ out w',
    storage_task sample_str sample_job sample_world = (Return out, w')
    ∧ out !! "storageStatus" = Some (VStr "complete")
    ∧ process_instance (db w') !! 77%Z
      = Some "Started: 2025-10-08 09:00:00, Operation: loading, Container: C1001, Transport: truck101, Ended: 2025-10-08 09:00:04, Status: completed".
Proof.
  assert (77 ≠ 0)%Z as H77 by discriminate.
  destruct (storage_task_records_start_and_completion sample_str sample_job
              "C1001" (mkContainer (Some "loading") (Some (12000 # 1)%Q))
              sample_world eq_refl valid_id_C1001 healthy_sample_world eq_refl
              H77)
    as (out & w' & Hh & Hst & Hpi).
  exists out, w'. split; [exact Hh|]. split; [exact Hst|].
  etrans; [exact Hpi|]. vm_compute. reflexivity.
Defined.

Lemma weighing_task_restarts_the_description :
  process_instance
    (db (snd (task sample_str sample_timestamp iso_timestamp Weighing sample_job
                tracked_world))) !! 77%Z
  = Some "Started: 2025-10-08 09:00:00, Operation: loading, Container: C1001, Transport: truck101".
Proof.
  assert (healthy tracked_world) as Hw by (split; reflexivity).
  assert (77 ≠ 0)%Z as H77 by discriminate.
  assert (Weighing ≠ Storage) as Hk by discriminate.
  etrans;
    [exact (every_task_restarts_the_description sample_str sample_timestamp
              iso_timestamp Weighing sample_job tracked_world Hw H77 Hk)|].
  vm_compute. reflexivity.
Defined.

Lemma flow_fetch_returns_every_passing_row_witness :
  ∃ out,
    fst (flow_fetch_workflow_scenarios sample_float checked_out_world)
    = Return out
    ∧ Forall2 (emitted sample_float)
        (List.filter (fun r => negb (skipped r))
           (scenario_query checked_out_store)) out.
Proof.
  destruct (flow_fetch_returns_every_passing_row sample_float checked_out_world)
    as (out & Hout & Hall & _).
  - reflexivity.
  - intros row Hin _. vm_compute in Hin.
    destruct Hin as [<- | [<- | []]]; eexists; reflexivity.
  - exists out. split; [exact Hout | exact Hall].
Defined.

Lemma fetch_returns_nothing_on_any_failure_witness :
  fst (flow_fetch_workflow_scenarios sample_float failing_world) = Return []
  ∧ fst (start_workflow_fetch_workflow_scenarios sample_float failing_world)
    = Return [].
Proof.
  apply (fetch_returns_nothing_on_any_failure sample_float failing_world).
  left. eexists. reflexivity.
Defined.

Lemma healthy_tracked_world : healthy tracked_world.
Proof. split; reflexivity. Defined.

Lemma get_all_process_instances_witness :
  ∃ rows,
    get_all_process_instances tracked_world = (Return rows, tracked_world)
    ∧ (∀ key d, In (key, d) rows
                ↔ process_instance tracked_store !! key = Some d)
    ∧ Sorted key_ge rows
    ∧ NoDup (rows.*1).
Proof.
  exact (get_all_process_instances_lists_the_table tracked_world
           healthy_tracked_world).
Defined.

Lemma recorded_instance_is_listed_witness :
  ∃ w1 rows,
    insert_process_instance sample_str 79 (VStr "loading") (VStr "C1001")
      (VStr "truck101") tracked_world = (Return true, w1)
    ∧ get_all_process_instances w1 = (Return rows, w1)
    ∧ ∀ d, In (79%Z, d) rows
           ↔ d = start_description sample_str (sample_clock 0) (VStr "loading")
                   (VStr "C1001") (VStr "truck101").
Proof.
  exact (recorded_instance_is_listed sample_str 79 (VStr "loading")
           (VStr "C1001") (VStr "truck101") tracked_world
           healthy_tracked_world).
Defined.

Lemma get_all_containers_witness :
  ∃ rows,
    get_all_containers unweighed_world = (Return rows, unweighed_world)
    ∧ ∃ cd, In cd rows ∧ cd_container_id cd = "C1004".
Proof.
  destruct (get_all_containers_lists_every_container unweighed_world
              healthy_unweighed_world)
    as (rows & Hrows & Hall & _).
  exists rows. split; [exact Hrows|].
  apply (proj1 (Hall "C1004")). eexists. reflexivity.
Defined.

Lemma get_container_row_is_listed_witness :
  let cd := mkContainerData "C1001" (Some "loading") (Some (12000 # 1)%Q)
              (Some 1%Z) (Some "incomplete") (Some "truck101") None None in
  fst (get_container (VStr "C1001") sample_world) = Return (Some cd)
  ∧ ∃ rows, fst (get_all_containers sample_world) = Return rows ∧ In cd rows.
Proof.
  intros cd.
  assert (fst (get_container (VStr "C1001") sample_world) = Return (Some cd))
    as H by (vm_compute; reflexivity).
  split; [exact H|].
  exact (get_container_row_is_listed "C1001" cd sample_world
           healthy_sample_world H).
Defined.

Lemma bulk_reads_fail_empty_witness :
  fst (get_all_containers offline_world) = Return []
  ∧ fst (get_all_process_instances offline_world) = Return [].
Proof.
  destruct (bulk_reads_fail_empty offline_world (or_introl eq_refl))
    as (H1 & H2 & _).
  split; [exact H1 | exact H2].
Defined.

Lemma start_single_workflow_prevalidation_witness :
  let variables : gmap string value := {[ "containerId" := VStr "C1001" ]} in
  start_single_workflow accepting_client variables sample_world
  = (Return false,
     set_log [Msg ERROR [Lit " CRITICAL: transportationId missing for ";
                         Val (VStr "C1001")]] sample_world).
Proof.
  intros variables.
  exact (start_single_workflow_prevalidation accepting_client variables
           sample_world eq_refl).
Defined.

Lemma emitted_ship_scenario :
  emitted sample_float ship_row (ship_scenario "C1002" "ship9109" (35000 # 1)%Q).
Proof.
  repeat split; try reflexivity. eexists. split; reflexivity.
Defined.

Lemma emitted_scenario_is_started_witness :
  fst (start_single_workflow accepting_client
         (ship_scenario "C1002" "ship9109" (35000 # 1)%Q) sample_world)
  = Return true.
Proof.
  apply (proj2 (emitted_scenario_is_started sample_float accepting_client
                  ship_row _ sample_world emitted_ship_scenario)).
  split; [discriminate|]. eexists. split; [reflexivity|].
  split; eexists; reflexivity.
Defined.

(** The same scenario sent through a client that answers with the bare
    key is reported as failed, although the engine started it. *)
Example bare_key_response_is_reported_as_failure :
  fst (run_process bare_key_client BPMN_PROCESS_ID
         (ship_scenario "C1002" "ship9109" (35000 # 1)%Q) sample_world)
  = Return ∅
  ∧ fst (start_single_workflow bare_key_client
           (ship_scenario "C1002" "ship9109" (35000 # 1)%Q) sample_world)
    = Return false.
Proof. split; vm_compute; reflexivity. Qed.
